(** * ScreenGuardian: distance estimator, posture classifier, alert timers
      and time-bucketed aggregator of [screenguardian_dev.py]

    The development embeds the statistics loop of the application
    ([_stats_worker]), the helpers it calls ([_compute_posture_flags],
    [_update_posture_state], [_flush_hourly_metrics], [_emit_alert]), the
    shutdown handler ([_on_close]), the panic button
    ([_execute_data_erase]) and the frame handoff of [_video_worker].

    Conventions.
    - A Python [int] is a [Z].  A Python [float] is a rational [Q]: the
      arithmetic of the model is exact, rounding of binary64 is not
      represented.  [int(x)] on a float truncates toward zero ([py_int]).
    - A Python attribute that may be absent or [None] is an [option].
    - A SQLite table with a primary key is a finite map from the key to the
      remaining columns; a nullable column is an [option].
    - The SQLite connection keeps an uncommitted view ([working]) next to the
      durable one ([committed]); a statement may raise, which is scripted by
      the [fault] counter of the store.
    - Values produced by external libraries (mediapipe landmarks, numpy
      norms, [math.atan2], the wall clock) enter through the [Frame] record
      of one loop iteration. *)

From Stdlib Require Import ZArith QArith Qround Qabs Qpower Lia Lqa Bool List.
From stdpp Require Import gmap strings list fin_maps.

Local Open Scope Z_scope.
Set Warnings "-clear-no-such-hyp".

(** ** Numbers *)

(** [int(x)] for a float [x]: truncation toward zero. *)
Definition py_int (q : Q) : Z := Z.quot (Qnum q) (Zpos (Qden q)).

Definition Qgeb (a b : Q) : bool := Qle_bool b a.
Definition Qgtb (a b : Q) : bool := negb (Qle_bool a b).
Definition Qltb (a b : Q) : bool := negb (Qle_bool b a).
Definition Qleb (a b : Q) : bool := Qle_bool a b.

(** Truthiness of a float, of an int and of an optional value. *)
Definition truthyQ (q : Q) : bool := negb (Qeq_bool q 0).
Definition truthyZ (z : Z) : bool := negb (z =? 0).
Definition truthy_time (o : option Q) : bool :=
  match o with Some t => truthyQ t | None => false end.

(** [max(a, b)] on floats: the first argument wins a tie. *)
Definition py_maxQ (a b : Q) : Q := if Qltb a b then b else a.

Definition sumQ (l : list Q) : Q := fold_right Qplus 0%Q l.
Definition lenQ (l : list Q) : Q := inject_Z (Z.of_nat (length l)).
Definition mean (l : list Q) : Q := (sumQ l / lenQ l)%Q.

(** ** Constants of the module *)

Definition SAVE_INTERVAL_SEC : Q := 15%Q.
Definition TWENTY_TWENTY_SEC : Q := 1200%Q.
Definition FINGERTIP_IDX : list nat := [4; 8; 12; 16; 20]%nat.
Definition NAIL_BITING_DURATION : Q := 5%Q.
Definition NAIL_BITING_DEPTH_THRESH : Q := (1 # 10)%Q.
Definition NAIL_CONTACT_MARGIN : Z := 4.
Definition FACE_TOUCH_MARGIN : Z := 6.
Definition FACE_TOUCH_DURATION : Q := 3%Q.
Definition FACE_TOUCH_COOLDOWN : Q := 60%Q.
Definition eps : Q := (1 # 1000000)%Q.

Definition L_BAD_POSTURE : string := "Bad Posture".
Definition L_BODY_TURNED : string := "Off Task - Body Turned".
Definition L_PARTIAL : string := "Please come fully into frame".
Definition L_TOO_CLOSE : string := "Distance Alerts - Too close to screen".
Definition L_NAIL : string := "Nail Biting Detected".
Definition L_FACE_TOUCH : string := "Face Touch Detected".

(** ** The persistent store *)

(** The seven tables created at import time. *)
Record Tables := mkTables {
  alerts : list (string * string);
  screen_time : gmap string Z;
  posture_time : gmap string Z;
  distance_log : gmap string (option Q * option Z);
  screen_hourly : gmap string Z;
  posture_hourly : gmap string Z;
  distance_hourly : gmap string (option Q * option Z)
}.

Definition empty_tables : Tables := mkTables [] ∅ ∅ ∅ ∅ ∅ ∅.

(** [fault = Some n]: the next [n] statements succeed and the one after
    them raises; [None]: no statement raises. *)
Record Db := mkDb {
  committed : Tables;
  working : Tables;
  fault : option nat
}.

Definition set_alerts (v : list (string * string)) (t : Tables) : Tables :=
  mkTables v (screen_time t) (posture_time t) (distance_log t)
           (screen_hourly t) (posture_hourly t) (distance_hourly t).
Definition set_screen_time (v : gmap string Z) (t : Tables) : Tables :=
  mkTables (alerts t) v (posture_time t) (distance_log t)
           (screen_hourly t) (posture_hourly t) (distance_hourly t).
Definition set_posture_time (v : gmap string Z) (t : Tables) : Tables :=
  mkTables (alerts t) (screen_time t) v (distance_log t)
           (screen_hourly t) (posture_hourly t) (distance_hourly t).
Definition set_distance_log (v : gmap string (option Q * option Z)) (t : Tables) : Tables :=
  mkTables (alerts t) (screen_time t) (posture_time t) v
           (screen_hourly t) (posture_hourly t) (distance_hourly t).
Definition set_screen_hourly (v : gmap string Z) (t : Tables) : Tables :=
  mkTables (alerts t) (screen_time t) (posture_time t) (distance_log t)
           v (posture_hourly t) (distance_hourly t).
Definition set_posture_hourly (v : gmap string Z) (t : Tables) : Tables :=
  mkTables (alerts t) (screen_time t) (posture_time t) (distance_log t)
           (screen_hourly t) v (distance_hourly t).
Definition set_distance_hourly (v : gmap string (option Q * option Z)) (t : Tables) : Tables :=
  mkTables (alerts t) (screen_time t) (posture_time t) (distance_log t)
           (screen_hourly t) (posture_hourly t) v.

(** ** Application state *)

(** Settings read from the configuration file and changed by the widgets. *)
Record Config := mkConfig {
  delay_seconds : Z;
  min_distance_cm : Q;
  enable_posture : bool;
  enable_distance : bool;
  enable_twenty : bool;
  enable_nail_biting : bool;
  enable_face_touch : bool;
  posture_vert_thresh : Q;
  posture_eye_tilt_thresh : Q;
  posture_neck_thresh : Q;
  posture_depth_thresh : Q;
  active_alert_appear_seconds : Q
}.

(** [calib['neutral']] as written by the neutral-posture capture. *)
Record Neutral := mkNeutral {
  neutral_face_width_px : option Q;
  neutral_shoulder_span_px : option Q;
  neutral_eye_tilt_angle : option Q
}.

(** The calibration dictionary [self.calib] (each key may be missing) and
    the two attributes initialised from it. *)
Record Calibration := mkCalibration {
  calib_focal_length : option Q;
  calib_real_ipd_cm : option Q;
  calib_neutral : option Neutral;
  focal_length : Q;
  real_ipd_cm : Q
}.

(** Time-bucketed aggregator: accumulators, watermarks and pending
    buffers of the application object. *)
Record Agg := mkAgg {
  visible_start : option Q;
  visible_seconds : Z;
  slouch_session_start : option Q;
  slouch_accum_seconds : Z;
  saved_visible_seconds : Z;
  saved_slouch_seconds : Z;
  pending_hour_visible_seconds : Z;
  pending_hour_slouch_seconds : Z;
  pending_hour_distance_sum : Q;
  pending_hour_distance_count : Z;
  pending_distance_sum : Q;
  pending_distance_count : Z;
  distance_sum_total : Q;
  distance_count_total : Z;
  _prev_total_visible : Z;
  _prev_total_slouch : Z;
  distances_buffer : list Q;
  last_save_time : Q;
  last_hour : option string;
  last_twenty : Q;
  today_screen_sec : Z;
  today_posture_sec : Z;
  today_avg_cm : option Q;
  today_distance_count : Z;
  _session_start : option Q;
  _session_count : Z;
  _fully_missing_count : Z;
  _partial_missing_count : Z
}.

Definition set_visible_start (v : option Q) (a : Agg) : Agg :=
  mkAgg v (visible_seconds a) (slouch_session_start a)
    (slouch_accum_seconds a) (saved_visible_seconds a)
    (saved_slouch_seconds a) (pending_hour_visible_seconds a)
    (pending_hour_slouch_seconds a) (pending_hour_distance_sum a)
    (pending_hour_distance_count a) (pending_distance_sum a)
    (pending_distance_count a) (distance_sum_total a) (distance_count_total a)
    (_prev_total_visible a) (_prev_total_slouch a) (distances_buffer a)
    (last_save_time a) (last_hour a) (last_twenty a) (today_screen_sec a)
    (today_posture_sec a) (today_avg_cm a) (today_distance_count a)
    (_session_start a) (_session_count a) (_fully_missing_count a)
    (_partial_missing_count a).
Definition set_visible_seconds (v : Z) (a : Agg) : Agg :=
  mkAgg (visible_start a) v (slouch_session_start a) (slouch_accum_seconds a)
    (saved_visible_seconds a) (saved_slouch_seconds a)
    (pending_hour_visible_seconds a) (pending_hour_slouch_seconds a)
    (pending_hour_distance_sum a) (pending_hour_distance_count a)
    (pending_distance_sum a) (pending_distance_count a) (distance_sum_total a)
    (distance_count_total a) (_prev_total_visible a) (_prev_total_slouch a)
    (distances_buffer a) (last_save_time a) (last_hour a) (last_twenty a)
    (today_screen_sec a) (today_posture_sec a) (today_avg_cm a)
    (today_distance_count a) (_session_start a) (_session_count a)
    (_fully_missing_count a) (_partial_missing_count a).
Definition set_slouch_session_start (v : option Q) (a : Agg) : Agg :=
  mkAgg (visible_start a) (visible_seconds a) v (slouch_accum_seconds a)
    (saved_visible_seconds a) (saved_slouch_seconds a)
    (pending_hour_visible_seconds a) (pending_hour_slouch_seconds a)
    (pending_hour_distance_sum a) (pending_hour_distance_count a)
    (pending_distance_sum a) (pending_distance_count a) (distance_sum_total a)
    (distance_count_total a) (_prev_total_visible a) (_prev_total_slouch a)
    (distances_buffer a) (last_save_time a) (last_hour a) (last_twenty a)
    (today_screen_sec a) (today_posture_sec a) (today_avg_cm a)
    (today_distance_count a) (_session_start a) (_session_count a)
    (_fully_missing_count a) (_partial_missing_count a).
Definition set_slouch_accum_seconds (v : Z) (a : Agg) : Agg :=
  mkAgg (visible_start a) (visible_seconds a) (slouch_session_start a) v
    (saved_visible_seconds a) (saved_slouch_seconds a)
    (pending_hour_visible_seconds a) (pending_hour_slouch_seconds a)
    (pending_hour_distance_sum a) (pending_hour_distance_count a)
    (pending_distance_sum a) (pending_distance_count a) (distance_sum_total a)
    (distance_count_total a) (_prev_total_visible a) (_prev_total_slouch a)
    (distances_buffer a) (last_save_time a) (last_hour a) (last_twenty a)
    (today_screen_sec a) (today_posture_sec a) (today_avg_cm a)
    (today_distance_count a) (_session_start a) (_session_count a)
    (_fully_missing_count a) (_partial_missing_count a).
Definition set_saved_visible_seconds (v : Z) (a : Agg) : Agg :=
  mkAgg (visible_start a) (visible_seconds a) (slouch_session_start a)
    (slouch_accum_seconds a) v (saved_slouch_seconds a)
    (pending_hour_visible_seconds a) (pending_hour_slouch_seconds a)
    (pending_hour_distance_sum a) (pending_hour_distance_count a)
    (pending_distance_sum a) (pending_distance_count a) (distance_sum_total a)
    (distance_count_total a) (_prev_total_visible a) (_prev_total_slouch a)
    (distances_buffer a) (last_save_time a) (last_hour a) (last_twenty a)
    (today_screen_sec a) (today_posture_sec a) (today_avg_cm a)
    (today_distance_count a) (_session_start a) (_session_count a)
    (_fully_missing_count a) (_partial_missing_count a).
Definition set_saved_slouch_seconds (v : Z) (a : Agg) : Agg :=
  mkAgg (visible_start a) (visible_seconds a) (slouch_session_start a)
    (slouch_accum_seconds a) (saved_visible_seconds a) v
    (pending_hour_visible_seconds a) (pending_hour_slouch_seconds a)
    (pending_hour_distance_sum a) (pending_hour_distance_count a)
    (pending_distance_sum a) (pending_distance_count a) (distance_sum_total a)
    (distance_count_total a) (_prev_total_visible a) (_prev_total_slouch a)
    (distances_buffer a) (last_save_time a) (last_hour a) (last_twenty a)
    (today_screen_sec a) (today_posture_sec a) (today_avg_cm a)
    (today_distance_count a) (_session_start a) (_session_count a)
    (_fully_missing_count a) (_partial_missing_count a).
Definition set_pending_hour_visible_seconds (v : Z) (a : Agg) : Agg :=
  mkAgg (visible_start a) (visible_seconds a) (slouch_session_start a)
    (slouch_accum_seconds a) (saved_visible_seconds a)
    (saved_slouch_seconds a) v (pending_hour_slouch_seconds a)
    (pending_hour_distance_sum a) (pending_hour_distance_count a)
    (pending_distance_sum a) (pending_distance_count a) (distance_sum_total a)
    (distance_count_total a) (_prev_total_visible a) (_prev_total_slouch a)
    (distances_buffer a) (last_save_time a) (last_hour a) (last_twenty a)
    (today_screen_sec a) (today_posture_sec a) (today_avg_cm a)
    (today_distance_count a) (_session_start a) (_session_count a)
    (_fully_missing_count a) (_partial_missing_count a).
Definition set_pending_hour_slouch_seconds (v : Z) (a : Agg) : Agg :=
  mkAgg (visible_start a) (visible_seconds a) (slouch_session_start a)
    (slouch_accum_seconds a) (saved_visible_seconds a)
    (saved_slouch_seconds a) (pending_hour_visible_seconds a) v
    (pending_hour_distance_sum a) (pending_hour_distance_count a)
    (pending_distance_sum a) (pending_distance_count a) (distance_sum_total a)
    (distance_count_total a) (_prev_total_visible a) (_prev_total_slouch a)
    (distances_buffer a) (last_save_time a) (last_hour a) (last_twenty a)
    (today_screen_sec a) (today_posture_sec a) (today_avg_cm a)
    (today_distance_count a) (_session_start a) (_session_count a)
    (_fully_missing_count a) (_partial_missing_count a).
Definition set_pending_hour_distance_sum (v : Q) (a : Agg) : Agg :=
  mkAgg (visible_start a) (visible_seconds a) (slouch_session_start a)
    (slouch_accum_seconds a) (saved_visible_seconds a)
    (saved_slouch_seconds a) (pending_hour_visible_seconds a)
    (pending_hour_slouch_seconds a) v (pending_hour_distance_count a)
    (pending_distance_sum a) (pending_distance_count a) (distance_sum_total a)
    (distance_count_total a) (_prev_total_visible a) (_prev_total_slouch a)
    (distances_buffer a) (last_save_time a) (last_hour a) (last_twenty a)
    (today_screen_sec a) (today_posture_sec a) (today_avg_cm a)
    (today_distance_count a) (_session_start a) (_session_count a)
    (_fully_missing_count a) (_partial_missing_count a).
Definition set_pending_hour_distance_count (v : Z) (a : Agg) : Agg :=
  mkAgg (visible_start a) (visible_seconds a) (slouch_session_start a)
    (slouch_accum_seconds a) (saved_visible_seconds a)
    (saved_slouch_seconds a) (pending_hour_visible_seconds a)
    (pending_hour_slouch_seconds a) (pending_hour_distance_sum a) v
    (pending_distance_sum a) (pending_distance_count a) (distance_sum_total a)
    (distance_count_total a) (_prev_total_visible a) (_prev_total_slouch a)
    (distances_buffer a) (last_save_time a) (last_hour a) (last_twenty a)
    (today_screen_sec a) (today_posture_sec a) (today_avg_cm a)
    (today_distance_count a) (_session_start a) (_session_count a)
    (_fully_missing_count a) (_partial_missing_count a).
Definition set_pending_distance_sum (v : Q) (a : Agg) : Agg :=
  mkAgg (visible_start a) (visible_seconds a) (slouch_session_start a)
    (slouch_accum_seconds a) (saved_visible_seconds a)
    (saved_slouch_seconds a) (pending_hour_visible_seconds a)
    (pending_hour_slouch_seconds a) (pending_hour_distance_sum a)
    (pending_hour_distance_count a) v (pending_distance_count a)
    (distance_sum_total a) (distance_count_total a) (_prev_total_visible a)
    (_prev_total_slouch a) (distances_buffer a) (last_save_time a)
    (last_hour a) (last_twenty a) (today_screen_sec a) (today_posture_sec a)
    (today_avg_cm a) (today_distance_count a) (_session_start a)
    (_session_count a) (_fully_missing_count a) (_partial_missing_count a).
Definition set_pending_distance_count (v : Z) (a : Agg) : Agg :=
  mkAgg (visible_start a) (visible_seconds a) (slouch_session_start a)
    (slouch_accum_seconds a) (saved_visible_seconds a)
    (saved_slouch_seconds a) (pending_hour_visible_seconds a)
    (pending_hour_slouch_seconds a) (pending_hour_distance_sum a)
    (pending_hour_distance_count a) (pending_distance_sum a) v
    (distance_sum_total a) (distance_count_total a) (_prev_total_visible a)
    (_prev_total_slouch a) (distances_buffer a) (last_save_time a)
    (last_hour a) (last_twenty a) (today_screen_sec a) (today_posture_sec a)
    (today_avg_cm a) (today_distance_count a) (_session_start a)
    (_session_count a) (_fully_missing_count a) (_partial_missing_count a).
Definition set_distance_sum_total (v : Q) (a : Agg) : Agg :=
  mkAgg (visible_start a) (visible_seconds a) (slouch_session_start a)
    (slouch_accum_seconds a) (saved_visible_seconds a)
    (saved_slouch_seconds a) (pending_hour_visible_seconds a)
    (pending_hour_slouch_seconds a) (pending_hour_distance_sum a)
    (pending_hour_distance_count a) (pending_distance_sum a)
    (pending_distance_count a) v (distance_count_total a)
    (_prev_total_visible a) (_prev_total_slouch a) (distances_buffer a)
    (last_save_time a) (last_hour a) (last_twenty a) (today_screen_sec a)
    (today_posture_sec a) (today_avg_cm a) (today_distance_count a)
    (_session_start a) (_session_count a) (_fully_missing_count a)
    (_partial_missing_count a).
Definition set_distance_count_total (v : Z) (a : Agg) : Agg :=
  mkAgg (visible_start a) (visible_seconds a) (slouch_session_start a)
    (slouch_accum_seconds a) (saved_visible_seconds a)
    (saved_slouch_seconds a) (pending_hour_visible_seconds a)
    (pending_hour_slouch_seconds a) (pending_hour_distance_sum a)
    (pending_hour_distance_count a) (pending_distance_sum a)
    (pending_distance_count a) (distance_sum_total a) v
    (_prev_total_visible a) (_prev_total_slouch a) (distances_buffer a)
    (last_save_time a) (last_hour a) (last_twenty a) (today_screen_sec a)
    (today_posture_sec a) (today_avg_cm a) (today_distance_count a)
    (_session_start a) (_session_count a) (_fully_missing_count a)
    (_partial_missing_count a).
Definition set_prev_total_visible (v : Z) (a : Agg) : Agg :=
  mkAgg (visible_start a) (visible_seconds a) (slouch_session_start a)
    (slouch_accum_seconds a) (saved_visible_seconds a)
    (saved_slouch_seconds a) (pending_hour_visible_seconds a)
    (pending_hour_slouch_seconds a) (pending_hour_distance_sum a)
    (pending_hour_distance_count a) (pending_distance_sum a)
    (pending_distance_count a) (distance_sum_total a) (distance_count_total a)
    v (_prev_total_slouch a) (distances_buffer a) (last_save_time a)
    (last_hour a) (last_twenty a) (today_screen_sec a) (today_posture_sec a)
    (today_avg_cm a) (today_distance_count a) (_session_start a)
    (_session_count a) (_fully_missing_count a) (_partial_missing_count a).
Definition set_prev_total_slouch (v : Z) (a : Agg) : Agg :=
  mkAgg (visible_start a) (visible_seconds a) (slouch_session_start a)
    (slouch_accum_seconds a) (saved_visible_seconds a)
    (saved_slouch_seconds a) (pending_hour_visible_seconds a)
    (pending_hour_slouch_seconds a) (pending_hour_distance_sum a)
    (pending_hour_distance_count a) (pending_distance_sum a)
    (pending_distance_count a) (distance_sum_total a) (distance_count_total a)
    (_prev_total_visible a) v (distances_buffer a) (last_save_time a)
    (last_hour a) (last_twenty a) (today_screen_sec a) (today_posture_sec a)
    (today_avg_cm a) (today_distance_count a) (_session_start a)
    (_session_count a) (_fully_missing_count a) (_partial_missing_count a).
Definition set_distances_buffer (v : list Q) (a : Agg) : Agg :=
  mkAgg (visible_start a) (visible_seconds a) (slouch_session_start a)
    (slouch_accum_seconds a) (saved_visible_seconds a)
    (saved_slouch_seconds a) (pending_hour_visible_seconds a)
    (pending_hour_slouch_seconds a) (pending_hour_distance_sum a)
    (pending_hour_distance_count a) (pending_distance_sum a)
    (pending_distance_count a) (distance_sum_total a) (distance_count_total a)
    (_prev_total_visible a) (_prev_total_slouch a) v (last_save_time a)
    (last_hour a) (last_twenty a) (today_screen_sec a) (today_posture_sec a)
    (today_avg_cm a) (today_distance_count a) (_session_start a)
    (_session_count a) (_fully_missing_count a) (_partial_missing_count a).
Definition set_last_save_time (v : Q) (a : Agg) : Agg :=
  mkAgg (visible_start a) (visible_seconds a) (slouch_session_start a)
    (slouch_accum_seconds a) (saved_visible_seconds a)
    (saved_slouch_seconds a) (pending_hour_visible_seconds a)
    (pending_hour_slouch_seconds a) (pending_hour_distance_sum a)
    (pending_hour_distance_count a) (pending_distance_sum a)
    (pending_distance_count a) (distance_sum_total a) (distance_count_total a)
    (_prev_total_visible a) (_prev_total_slouch a) (distances_buffer a) v
    (last_hour a) (last_twenty a) (today_screen_sec a) (today_posture_sec a)
    (today_avg_cm a) (today_distance_count a) (_session_start a)
    (_session_count a) (_fully_missing_count a) (_partial_missing_count a).
Definition set_last_hour (v : option string) (a : Agg) : Agg :=
  mkAgg (visible_start a) (visible_seconds a) (slouch_session_start a)
    (slouch_accum_seconds a) (saved_visible_seconds a)
    (saved_slouch_seconds a) (pending_hour_visible_seconds a)
    (pending_hour_slouch_seconds a) (pending_hour_distance_sum a)
    (pending_hour_distance_count a) (pending_distance_sum a)
    (pending_distance_count a) (distance_sum_total a) (distance_count_total a)
    (_prev_total_visible a) (_prev_total_slouch a) (distances_buffer a)
    (last_save_time a) v (last_twenty a) (today_screen_sec a)
    (today_posture_sec a) (today_avg_cm a) (today_distance_count a)
    (_session_start a) (_session_count a) (_fully_missing_count a)
    (_partial_missing_count a).
Definition set_last_twenty (v : Q) (a : Agg) : Agg :=
  mkAgg (visible_start a) (visible_seconds a) (slouch_session_start a)
    (slouch_accum_seconds a) (saved_visible_seconds a)
    (saved_slouch_seconds a) (pending_hour_visible_seconds a)
    (pending_hour_slouch_seconds a) (pending_hour_distance_sum a)
    (pending_hour_distance_count a) (pending_distance_sum a)
    (pending_distance_count a) (distance_sum_total a) (distance_count_total a)
    (_prev_total_visible a) (_prev_total_slouch a) (distances_buffer a)
    (last_save_time a) (last_hour a) v (today_screen_sec a)
    (today_posture_sec a) (today_avg_cm a) (today_distance_count a)
    (_session_start a) (_session_count a) (_fully_missing_count a)
    (_partial_missing_count a).
Definition set_today_screen_sec (v : Z) (a : Agg) : Agg :=
  mkAgg (visible_start a) (visible_seconds a) (slouch_session_start a)
    (slouch_accum_seconds a) (saved_visible_seconds a)
    (saved_slouch_seconds a) (pending_hour_visible_seconds a)
    (pending_hour_slouch_seconds a) (pending_hour_distance_sum a)
    (pending_hour_distance_count a) (pending_distance_sum a)
    (pending_distance_count a) (distance_sum_total a) (distance_count_total a)
    (_prev_total_visible a) (_prev_total_slouch a) (distances_buffer a)
    (last_save_time a) (last_hour a) (last_twenty a) v (today_posture_sec a)
    (today_avg_cm a) (today_distance_count a) (_session_start a)
    (_session_count a) (_fully_missing_count a) (_partial_missing_count a).
Definition set_today_posture_sec (v : Z) (a : Agg) : Agg :=
  mkAgg (visible_start a) (visible_seconds a) (slouch_session_start a)
    (slouch_accum_seconds a) (saved_visible_seconds a)
    (saved_slouch_seconds a) (pending_hour_visible_seconds a)
    (pending_hour_slouch_seconds a) (pending_hour_distance_sum a)
    (pending_hour_distance_count a) (pending_distance_sum a)
    (pending_distance_count a) (distance_sum_total a) (distance_count_total a)
    (_prev_total_visible a) (_prev_total_slouch a) (distances_buffer a)
    (last_save_time a) (last_hour a) (last_twenty a) (today_screen_sec a) v
    (today_avg_cm a) (today_distance_count a) (_session_start a)
    (_session_count a) (_fully_missing_count a) (_partial_missing_count a).
Definition set_today_avg_cm (v : option Q) (a : Agg) : Agg :=
  mkAgg (visible_start a) (visible_seconds a) (slouch_session_start a)
    (slouch_accum_seconds a) (saved_visible_seconds a)
    (saved_slouch_seconds a) (pending_hour_visible_seconds a)
    (pending_hour_slouch_seconds a) (pending_hour_distance_sum a)
    (pending_hour_distance_count a) (pending_distance_sum a)
    (pending_distance_count a) (distance_sum_total a) (distance_count_total a)
    (_prev_total_visible a) (_prev_total_slouch a) (distances_buffer a)
    (last_save_time a) (last_hour a) (last_twenty a) (today_screen_sec a)
    (today_posture_sec a) v (today_distance_count a) (_session_start a)
    (_session_count a) (_fully_missing_count a) (_partial_missing_count a).
Definition set_today_distance_count (v : Z) (a : Agg) : Agg :=
  mkAgg (visible_start a) (visible_seconds a) (slouch_session_start a)
    (slouch_accum_seconds a) (saved_visible_seconds a)
    (saved_slouch_seconds a) (pending_hour_visible_seconds a)
    (pending_hour_slouch_seconds a) (pending_hour_distance_sum a)
    (pending_hour_distance_count a) (pending_distance_sum a)
    (pending_distance_count a) (distance_sum_total a) (distance_count_total a)
    (_prev_total_visible a) (_prev_total_slouch a) (distances_buffer a)
    (last_save_time a) (last_hour a) (last_twenty a) (today_screen_sec a)
    (today_posture_sec a) (today_avg_cm a) v (_session_start a)
    (_session_count a) (_fully_missing_count a) (_partial_missing_count a).
Definition set_session_start (v : option Q) (a : Agg) : Agg :=
  mkAgg (visible_start a) (visible_seconds a) (slouch_session_start a)
    (slouch_accum_seconds a) (saved_visible_seconds a)
    (saved_slouch_seconds a) (pending_hour_visible_seconds a)
    (pending_hour_slouch_seconds a) (pending_hour_distance_sum a)
    (pending_hour_distance_count a) (pending_distance_sum a)
    (pending_distance_count a) (distance_sum_total a) (distance_count_total a)
    (_prev_total_visible a) (_prev_total_slouch a) (distances_buffer a)
    (last_save_time a) (last_hour a) (last_twenty a) (today_screen_sec a)
    (today_posture_sec a) (today_avg_cm a) (today_distance_count a) v
    (_session_count a) (_fully_missing_count a) (_partial_missing_count a).
Definition set_session_count (v : Z) (a : Agg) : Agg :=
  mkAgg (visible_start a) (visible_seconds a) (slouch_session_start a)
    (slouch_accum_seconds a) (saved_visible_seconds a)
    (saved_slouch_seconds a) (pending_hour_visible_seconds a)
    (pending_hour_slouch_seconds a) (pending_hour_distance_sum a)
    (pending_hour_distance_count a) (pending_distance_sum a)
    (pending_distance_count a) (distance_sum_total a) (distance_count_total a)
    (_prev_total_visible a) (_prev_total_slouch a) (distances_buffer a)
    (last_save_time a) (last_hour a) (last_twenty a) (today_screen_sec a)
    (today_posture_sec a) (today_avg_cm a) (today_distance_count a)
    (_session_start a) v (_fully_missing_count a) (_partial_missing_count a).
Definition set_fully_missing_count (v : Z) (a : Agg) : Agg :=
  mkAgg (visible_start a) (visible_seconds a) (slouch_session_start a)
    (slouch_accum_seconds a) (saved_visible_seconds a)
    (saved_slouch_seconds a) (pending_hour_visible_seconds a)
    (pending_hour_slouch_seconds a) (pending_hour_distance_sum a)
    (pending_hour_distance_count a) (pending_distance_sum a)
    (pending_distance_count a) (distance_sum_total a) (distance_count_total a)
    (_prev_total_visible a) (_prev_total_slouch a) (distances_buffer a)
    (last_save_time a) (last_hour a) (last_twenty a) (today_screen_sec a)
    (today_posture_sec a) (today_avg_cm a) (today_distance_count a)
    (_session_start a) (_session_count a) v (_partial_missing_count a).
Definition set_partial_missing_count (v : Z) (a : Agg) : Agg :=
  mkAgg (visible_start a) (visible_seconds a) (slouch_session_start a)
    (slouch_accum_seconds a) (saved_visible_seconds a)
    (saved_slouch_seconds a) (pending_hour_visible_seconds a)
    (pending_hour_slouch_seconds a) (pending_hour_distance_sum a)
    (pending_hour_distance_count a) (pending_distance_sum a)
    (pending_distance_count a) (distance_sum_total a) (distance_count_total a)
    (_prev_total_visible a) (_prev_total_slouch a) (distances_buffer a)
    (last_save_time a) (last_hour a) (last_twenty a) (today_screen_sec a)
    (today_posture_sec a) (today_avg_cm a) (today_distance_count a)
    (_session_start a) (_session_count a) (_fully_missing_count a) v.

(** The three attributes [_x_start], [_x_active_since], [_x_notified] of a
    latched alert category; a deleted attribute reads as [None] / [False]. *)
Record Debounce := mkDebounce {
  d_start : option Q;
  d_active_since : option Q;
  d_notified : bool
}.

Definition debounce_idle : Debounce := mkDebounce None None false.

(** Alert timers, the active-alerts set and the alert counters. *)
Record AlertBank := mkBank {
  active_alerts : gset string;
  posture_reasons : gset string;
  _body_turned : Debounce;
  _posture : Debounce;
  _partial : Debounce;
  too_close_start : option Q;
  too_close_active_since : option Q;
  _nail_biting_start : option Q;
  _nail_active_since : option Q;
  _nail_biting_detected : bool;
  _face_touch_start : option Q;
  _face_touch_active_since : option Q;
  _face_touch_detected : bool;
  _head_turn_start : option Q;
  _head_turn_duration : Q;
  today_posture_alerts : Z;
  today_distance_alerts : Z;
  today_face_touch_alerts : Z;
  session_posture_alerts : Z;
  session_distance_alerts : Z;
  session_face_touch_alerts : Z
}.

Definition set_active_alerts (v : gset string) (b : AlertBank) : AlertBank :=
  mkBank v (posture_reasons b) (_body_turned b) (_posture b) (_partial b)
    (too_close_start b) (too_close_active_since b) (_nail_biting_start b)
    (_nail_active_since b) (_nail_biting_detected b) (_face_touch_start b)
    (_face_touch_active_since b) (_face_touch_detected b) (_head_turn_start b)
    (_head_turn_duration b) (today_posture_alerts b) (today_distance_alerts b)
    (today_face_touch_alerts b) (session_posture_alerts b)
    (session_distance_alerts b) (session_face_touch_alerts b).
Definition set_posture_reasons (v : gset string) (b : AlertBank) : AlertBank :=
  mkBank (active_alerts b) v (_body_turned b) (_posture b) (_partial b)
    (too_close_start b) (too_close_active_since b) (_nail_biting_start b)
    (_nail_active_since b) (_nail_biting_detected b) (_face_touch_start b)
    (_face_touch_active_since b) (_face_touch_detected b) (_head_turn_start b)
    (_head_turn_duration b) (today_posture_alerts b) (today_distance_alerts b)
    (today_face_touch_alerts b) (session_posture_alerts b)
    (session_distance_alerts b) (session_face_touch_alerts b).
Definition set_body_turned (v : Debounce) (b : AlertBank) : AlertBank :=
  mkBank (active_alerts b) (posture_reasons b) v (_posture b) (_partial b)
    (too_close_start b) (too_close_active_since b) (_nail_biting_start b)
    (_nail_active_since b) (_nail_biting_detected b) (_face_touch_start b)
    (_face_touch_active_since b) (_face_touch_detected b) (_head_turn_start b)
    (_head_turn_duration b) (today_posture_alerts b) (today_distance_alerts b)
    (today_face_touch_alerts b) (session_posture_alerts b)
    (session_distance_alerts b) (session_face_touch_alerts b).
Definition set_posture (v : Debounce) (b : AlertBank) : AlertBank :=
  mkBank (active_alerts b) (posture_reasons b) (_body_turned b) v (_partial b)
    (too_close_start b) (too_close_active_since b) (_nail_biting_start b)
    (_nail_active_since b) (_nail_biting_detected b) (_face_touch_start b)
    (_face_touch_active_since b) (_face_touch_detected b) (_head_turn_start b)
    (_head_turn_duration b) (today_posture_alerts b) (today_distance_alerts b)
    (today_face_touch_alerts b) (session_posture_alerts b)
    (session_distance_alerts b) (session_face_touch_alerts b).
Definition set_partial (v : Debounce) (b : AlertBank) : AlertBank :=
  mkBank (active_alerts b) (posture_reasons b) (_body_turned b) (_posture b) v
    (too_close_start b) (too_close_active_since b) (_nail_biting_start b)
    (_nail_active_since b) (_nail_biting_detected b) (_face_touch_start b)
    (_face_touch_active_since b) (_face_touch_detected b) (_head_turn_start b)
    (_head_turn_duration b) (today_posture_alerts b) (today_distance_alerts b)
    (today_face_touch_alerts b) (session_posture_alerts b)
    (session_distance_alerts b) (session_face_touch_alerts b).
Definition set_too_close_start (v : option Q) (b : AlertBank) : AlertBank :=
  mkBank (active_alerts b) (posture_reasons b) (_body_turned b) (_posture b)
    (_partial b) v (too_close_active_since b) (_nail_biting_start b)
    (_nail_active_since b) (_nail_biting_detected b) (_face_touch_start b)
    (_face_touch_active_since b) (_face_touch_detected b) (_head_turn_start b)
    (_head_turn_duration b) (today_posture_alerts b) (today_distance_alerts b)
    (today_face_touch_alerts b) (session_posture_alerts b)
    (session_distance_alerts b) (session_face_touch_alerts b).
Definition set_too_close_active_since (v : option Q) (b : AlertBank) : AlertBank :=
  mkBank (active_alerts b) (posture_reasons b) (_body_turned b) (_posture b)
    (_partial b) (too_close_start b) v (_nail_biting_start b)
    (_nail_active_since b) (_nail_biting_detected b) (_face_touch_start b)
    (_face_touch_active_since b) (_face_touch_detected b) (_head_turn_start b)
    (_head_turn_duration b) (today_posture_alerts b) (today_distance_alerts b)
    (today_face_touch_alerts b) (session_posture_alerts b)
    (session_distance_alerts b) (session_face_touch_alerts b).
Definition set_nail_biting_start (v : option Q) (b : AlertBank) : AlertBank :=
  mkBank (active_alerts b) (posture_reasons b) (_body_turned b) (_posture b)
    (_partial b) (too_close_start b) (too_close_active_since b) v
    (_nail_active_since b) (_nail_biting_detected b) (_face_touch_start b)
    (_face_touch_active_since b) (_face_touch_detected b) (_head_turn_start b)
    (_head_turn_duration b) (today_posture_alerts b) (today_distance_alerts b)
    (today_face_touch_alerts b) (session_posture_alerts b)
    (session_distance_alerts b) (session_face_touch_alerts b).
Definition set_nail_active_since (v : option Q) (b : AlertBank) : AlertBank :=
  mkBank (active_alerts b) (posture_reasons b) (_body_turned b) (_posture b)
    (_partial b) (too_close_start b) (too_close_active_since b)
    (_nail_biting_start b) v (_nail_biting_detected b) (_face_touch_start b)
    (_face_touch_active_since b) (_face_touch_detected b) (_head_turn_start b)
    (_head_turn_duration b) (today_posture_alerts b) (today_distance_alerts b)
    (today_face_touch_alerts b) (session_posture_alerts b)
    (session_distance_alerts b) (session_face_touch_alerts b).
Definition set_nail_biting_detected (v : bool) (b : AlertBank) : AlertBank :=
  mkBank (active_alerts b) (posture_reasons b) (_body_turned b) (_posture b)
    (_partial b) (too_close_start b) (too_close_active_since b)
    (_nail_biting_start b) (_nail_active_since b) v (_face_touch_start b)
    (_face_touch_active_since b) (_face_touch_detected b) (_head_turn_start b)
    (_head_turn_duration b) (today_posture_alerts b) (today_distance_alerts b)
    (today_face_touch_alerts b) (session_posture_alerts b)
    (session_distance_alerts b) (session_face_touch_alerts b).
Definition set_face_touch_start (v : option Q) (b : AlertBank) : AlertBank :=
  mkBank (active_alerts b) (posture_reasons b) (_body_turned b) (_posture b)
    (_partial b) (too_close_start b) (too_close_active_since b)
    (_nail_biting_start b) (_nail_active_since b) (_nail_biting_detected b) v
    (_face_touch_active_since b) (_face_touch_detected b) (_head_turn_start b)
    (_head_turn_duration b) (today_posture_alerts b) (today_distance_alerts b)
    (today_face_touch_alerts b) (session_posture_alerts b)
    (session_distance_alerts b) (session_face_touch_alerts b).
Definition set_face_touch_active_since (v : option Q) (b : AlertBank) : AlertBank :=
  mkBank (active_alerts b) (posture_reasons b) (_body_turned b) (_posture b)
    (_partial b) (too_close_start b) (too_close_active_since b)
    (_nail_biting_start b) (_nail_active_since b) (_nail_biting_detected b)
    (_face_touch_start b) v (_face_touch_detected b) (_head_turn_start b)
    (_head_turn_duration b) (today_posture_alerts b) (today_distance_alerts b)
    (today_face_touch_alerts b) (session_posture_alerts b)
    (session_distance_alerts b) (session_face_touch_alerts b).
Definition set_face_touch_detected (v : bool) (b : AlertBank) : AlertBank :=
  mkBank (active_alerts b) (posture_reasons b) (_body_turned b) (_posture b)
    (_partial b) (too_close_start b) (too_close_active_since b)
    (_nail_biting_start b) (_nail_active_since b) (_nail_biting_detected b)
    (_face_touch_start b) (_face_touch_active_since b) v (_head_turn_start b)
    (_head_turn_duration b) (today_posture_alerts b) (today_distance_alerts b)
    (today_face_touch_alerts b) (session_posture_alerts b)
    (session_distance_alerts b) (session_face_touch_alerts b).
Definition set_head_turn_start (v : option Q) (b : AlertBank) : AlertBank :=
  mkBank (active_alerts b) (posture_reasons b) (_body_turned b) (_posture b)
    (_partial b) (too_close_start b) (too_close_active_since b)
    (_nail_biting_start b) (_nail_active_since b) (_nail_biting_detected b)
    (_face_touch_start b) (_face_touch_active_since b)
    (_face_touch_detected b) v (_head_turn_duration b)
    (today_posture_alerts b) (today_distance_alerts b)
    (today_face_touch_alerts b) (session_posture_alerts b)
    (session_distance_alerts b) (session_face_touch_alerts b).
Definition set_head_turn_duration (v : Q) (b : AlertBank) : AlertBank :=
  mkBank (active_alerts b) (posture_reasons b) (_body_turned b) (_posture b)
    (_partial b) (too_close_start b) (too_close_active_since b)
    (_nail_biting_start b) (_nail_active_since b) (_nail_biting_detected b)
    (_face_touch_start b) (_face_touch_active_since b)
    (_face_touch_detected b) (_head_turn_start b) v (today_posture_alerts b)
    (today_distance_alerts b) (today_face_touch_alerts b)
    (session_posture_alerts b) (session_distance_alerts b)
    (session_face_touch_alerts b).
Definition set_today_posture_alerts (v : Z) (b : AlertBank) : AlertBank :=
  mkBank (active_alerts b) (posture_reasons b) (_body_turned b) (_posture b)
    (_partial b) (too_close_start b) (too_close_active_since b)
    (_nail_biting_start b) (_nail_active_since b) (_nail_biting_detected b)
    (_face_touch_start b) (_face_touch_active_since b)
    (_face_touch_detected b) (_head_turn_start b) (_head_turn_duration b) v
    (today_distance_alerts b) (today_face_touch_alerts b)
    (session_posture_alerts b) (session_distance_alerts b)
    (session_face_touch_alerts b).
Definition set_today_distance_alerts (v : Z) (b : AlertBank) : AlertBank :=
  mkBank (active_alerts b) (posture_reasons b) (_body_turned b) (_posture b)
    (_partial b) (too_close_start b) (too_close_active_since b)
    (_nail_biting_start b) (_nail_active_since b) (_nail_biting_detected b)
    (_face_touch_start b) (_face_touch_active_since b)
    (_face_touch_detected b) (_head_turn_start b) (_head_turn_duration b)
    (today_posture_alerts b) v (today_face_touch_alerts b)
    (session_posture_alerts b) (session_distance_alerts b)
    (session_face_touch_alerts b).
Definition set_today_face_touch_alerts (v : Z) (b : AlertBank) : AlertBank :=
  mkBank (active_alerts b) (posture_reasons b) (_body_turned b) (_posture b)
    (_partial b) (too_close_start b) (too_close_active_since b)
    (_nail_biting_start b) (_nail_active_since b) (_nail_biting_detected b)
    (_face_touch_start b) (_face_touch_active_since b)
    (_face_touch_detected b) (_head_turn_start b) (_head_turn_duration b)
    (today_posture_alerts b) (today_distance_alerts b) v
    (session_posture_alerts b) (session_distance_alerts b)
    (session_face_touch_alerts b).
Definition set_session_posture_alerts (v : Z) (b : AlertBank) : AlertBank :=
  mkBank (active_alerts b) (posture_reasons b) (_body_turned b) (_posture b)
    (_partial b) (too_close_start b) (too_close_active_since b)
    (_nail_biting_start b) (_nail_active_since b) (_nail_biting_detected b)
    (_face_touch_start b) (_face_touch_active_since b)
    (_face_touch_detected b) (_head_turn_start b) (_head_turn_duration b)
    (today_posture_alerts b) (today_distance_alerts b)
    (today_face_touch_alerts b) v (session_distance_alerts b)
    (session_face_touch_alerts b).
Definition set_session_distance_alerts (v : Z) (b : AlertBank) : AlertBank :=
  mkBank (active_alerts b) (posture_reasons b) (_body_turned b) (_posture b)
    (_partial b) (too_close_start b) (too_close_active_since b)
    (_nail_biting_start b) (_nail_active_since b) (_nail_biting_detected b)
    (_face_touch_start b) (_face_touch_active_since b)
    (_face_touch_detected b) (_head_turn_start b) (_head_turn_duration b)
    (today_posture_alerts b) (today_distance_alerts b)
    (today_face_touch_alerts b) (session_posture_alerts b) v
    (session_face_touch_alerts b).
Definition set_session_face_touch_alerts (v : Z) (b : AlertBank) : AlertBank :=
  mkBank (active_alerts b) (posture_reasons b) (_body_turned b) (_posture b)
    (_partial b) (too_close_start b) (too_close_active_since b)
    (_nail_biting_start b) (_nail_active_since b) (_nail_biting_detected b)
    (_face_touch_start b) (_face_touch_active_since b)
    (_face_touch_detected b) (_head_turn_start b) (_head_turn_duration b)
    (today_posture_alerts b) (today_distance_alerts b)
    (today_face_touch_alerts b) (session_posture_alerts b)
    (session_distance_alerts b) v.

Record App := mkApp {
  cfg : Config;
  calib : Calibration;
  agg : Agg;
  bank : AlertBank;
  _smoothed_distance_cm : option Q;
  _depth_baseline : option Q
}.

Definition set_cfg (v : Config) (s : App) : App :=
  mkApp v (calib s) (agg s) (bank s) (_smoothed_distance_cm s)
    (_depth_baseline s).
Definition set_calib (v : Calibration) (s : App) : App :=
  mkApp (cfg s) v (agg s) (bank s) (_smoothed_distance_cm s)
    (_depth_baseline s).
Definition set_agg (v : Agg) (s : App) : App :=
  mkApp (cfg s) (calib s) v (bank s) (_smoothed_distance_cm s)
    (_depth_baseline s).
Definition set_bank (v : AlertBank) (s : App) : App :=
  mkApp (cfg s) (calib s) (agg s) v (_smoothed_distance_cm s)
    (_depth_baseline s).
Definition set_smoothed_distance_cm (v : option Q) (s : App) : App :=
  mkApp (cfg s) (calib s) (agg s) (bank s) v (_depth_baseline s).
Definition set_depth_baseline (v : option Q) (s : App) : App :=
  mkApp (cfg s) (calib s) (agg s) (bank s) (_smoothed_distance_cm s) v.

(** What the loop sends out: desktop notifications and log lines about a
    caught exception. *)
Inductive Effect :=
| Notify (title message : string)
| LogExc.

(** The application object, the module-level connection ([None] when the
    database could not be opened) and the effects emitted so far, latest
    first. *)
Record World := mkWorld {
  app : App;
  store : option Db;
  effects : list Effect
}.

Definition set_app (v : App) (w : World) : World :=
  mkWorld v (store w) (effects w).
Definition set_store (v : option Db) (w : World) : World :=
  mkWorld (app w) v (effects w).
Definition set_effects (v : list Effect) (w : World) : World :=
  mkWorld (app w) (store w) v.

(** ** A state monad with exceptions

    A computation transforms the world and either returns or raises.  The
    mutations made before an exception was raised stay: this is what a
    Python [try] block leaves behind when its [except] clause runs. *)

Inductive Res (A : Type) : Type :=
| Ok (a : A)
| Raised.
Arguments Ok {A} a.
Arguments Raised {A}.

Definition M (A : Type) : Type := World -> Res A * World.

Definition ret {A} (a : A) : M A := fun w => (Ok a, w).

Definition bind {A B} (m : M A) (k : A -> M B) : M B :=
  fun w => match m w with
           | (Ok a, w') => k a w'
           | (Raised, w') => (Raised, w')
           end.

Declare Scope m_scope.
Delimit Scope m_scope with M.
Notation "x <- m ;; k" := (bind m (fun x => k))
  (at level 100, m at next level, right associativity) : m_scope.
Notation "m ;;; k" := (bind m (fun _ => k))
  (at level 100, right associativity) : m_scope.
Local Open Scope m_scope.

(** [try: m  except Exception: h]. *)
Definition try_except {A} (m : M A) (h : M A) : M A :=
  fun w => match m w with
           | (Ok a, w') => (Ok a, w')
           | (Raised, w') => h w'
           end.

Definition gets {A} (f : App -> A) : M A := fun w => (Ok (f (app w)), w).
Definition modify (f : App -> App) : M unit := fun w => (Ok tt, set_app (f (app w)) w).
Definition modify_agg (f : Agg -> Agg) : M unit :=
  modify (fun s => set_agg (f (agg s)) s).
Definition modify_bank (f : AlertBank -> AlertBank) : M unit :=
  modify (fun s => set_bank (f (bank s)) s).
Definition emit (e : Effect) : M unit :=
  fun w => (Ok tt, set_effects (e :: effects w) w).
Definition when (b : bool) (m : M unit) : M unit := if b then m else ret tt.

(** [log_exc()] *)
Definition log_exc : M unit := emit LogExc.
(** [notify_os(title, message)]: it catches its own exceptions. *)
Definition notify_os (title message : string) : M unit := emit (Notify title message).

(** [if cursor:] *)
Definition has_cursor : M bool :=
  fun w => (Ok (match store w with Some _ => true | None => false end), w).

(** [cursor.execute(...)] followed by the fetch, if any: [f] reads and
    updates the uncommitted view.  Without a connection the call raises
    ([cursor] is [None]). *)
Definition execute {A} (f : Tables -> A * Tables) : M A :=
  fun w =>
    match store w with
    | None => (Raised, w)
    | Some d =>
        match fault d with
        | Some O => (Raised, set_store (Some (mkDb (committed d) (working d) None)) w)
        | Some (S n) =>
            let r := f (working d) in
            (Ok (fst r), set_store (Some (mkDb (committed d) (snd r) (Some n))) w)
        | None =>
            let r := f (working d) in
            (Ok (fst r), set_store (Some (mkDb (committed d) (snd r) None)) w)
        end
    end.

(** [conn.commit()] *)
Definition commit : M unit :=
  fun w =>
    match store w with
    | None => (Raised, w)
    | Some d =>
        match fault d with
        | Some O => (Raised, set_store (Some (mkDb (committed d) (working d) None)) w)
        | Some (S n) => (Ok tt, set_store (Some (mkDb (working d) (working d) (Some n))) w)
        | None => (Ok tt, set_store (Some (mkDb (working d) (working d) None)) w)
        end
    end.

Definition query {A} (f : Tables -> A) : M A := execute (fun t => (f t, t)).
Definition update (f : Tables -> Tables) : M unit := execute (fun t => (tt, f t)).

(** The statements the application issues. *)
Definition select_screen_time (d : string) : M (option Z) :=
  query (fun t => screen_time t !! d).
Definition replace_screen_time (d : string) (v : Z) : M unit :=
  update (fun t => set_screen_time (<[d := v]> (screen_time t)) t).
Definition select_posture_time (d : string) : M (option Z) :=
  query (fun t => posture_time t !! d).
Definition replace_posture_time (d : string) (v : Z) : M unit :=
  update (fun t => set_posture_time (<[d := v]> (posture_time t)) t).
Definition select_distance_log (d : string) : M (option (option Q * option Z)) :=
  query (fun t => distance_log t !! d).
Definition replace_distance_log (d : string) (avg : Q) (n : Z) : M unit :=
  update (fun t => set_distance_log (<[d := (Some avg, Some n)]> (distance_log t)) t).
Definition select_screen_hourly (h : string) : M (option Z) :=
  query (fun t => screen_hourly t !! h).
Definition replace_screen_hourly (h : string) (v : Z) : M unit :=
  update (fun t => set_screen_hourly (<[h := v]> (screen_hourly t)) t).
Definition select_posture_hourly (h : string) : M (option Z) :=
  query (fun t => posture_hourly t !! h).
Definition replace_posture_hourly (h : string) (v : Z) : M unit :=
  update (fun t => set_posture_hourly (<[h := v]> (posture_hourly t)) t).
Definition select_distance_hourly (h : string) : M (option (option Q * option Z)) :=
  query (fun t => distance_hourly t !! h).
Definition replace_distance_hourly (h : string) (sum : Q) (n : Z) : M unit :=
  update (fun t => set_distance_hourly (<[h := (Some sum, Some n)]> (distance_hourly t)) t).
Definition insert_alert (ts message : string) : M unit :=
  update (fun t => set_alerts (alerts t ++ [(ts, message)]) t).

(** [DELETE FROM <table>] for each of the seven table names. *)
Inductive TableName :=
| T_alerts | T_screen_time | T_posture_time | T_distance_log
| T_screen_hourly | T_posture_hourly | T_distance_hourly.

Definition delete_from (n : TableName) : M unit :=
  update (fun t =>
    match n with
    | T_alerts => set_alerts [] t
    | T_screen_time => set_screen_time ∅ t
    | T_posture_time => set_posture_time ∅ t
    | T_distance_log => set_distance_log ∅ t
    | T_screen_hourly => set_screen_hourly ∅ t
    | T_posture_hourly => set_posture_hourly ∅ t
    | T_distance_hourly => set_distance_hourly ∅ t
    end).

(** [for x in xs: body(x)] *)
Fixpoint for_each {A} (xs : list A) (body : A -> M unit) : M unit :=
  match xs with
  | [] => ret tt
  | x :: r => body x ;;; for_each r body
  end.

(** ** Distance estimator ([_stats_worker], the [enable_distance] block) *)

Definition BETA : Q := (6 # 10)%Q.
Definition AVG_FACE_CM : Q := 14%Q.

(** [self.calib.get("real_ipd_cm", self.real_ipd_cm)] and
    [self.calib.get("focal_length", self.focal_length)]. *)
Definition calib_get_real_ipd (c : Calibration) : Q :=
  default (real_ipd_cm c) (calib_real_ipd_cm c).
Definition calib_get_focal (c : Calibration) : Q :=
  default (focal_length c) (calib_focal_length c).

(** The exponential filter; the first sample seeds it. *)
Definition smooth (prev : option Q) (d : Q) : Q :=
  match prev with
  | None => d
  | Some p => (BETA * d + (1 - BETA) * p)%Q
  end.

Definition raw_eye_distance (c : Calibration) (p : Q) : Q :=
  ((calib_get_real_ipd c * calib_get_focal c) / p)%Q.
Definition raw_face_distance (c : Calibration) (fw : Z) : Q :=
  ((AVG_FACE_CM * calib_get_focal c) / inject_Z fw)%Q.

(** Returns [distance_cm] and the new value of [_smoothed_distance_cm]. *)
Definition estimate_distance (c : Calibration) (prev : option Q)
    (pixel_ipd : option Q) (face_width : option Z) : option Q * option Q :=
  let eye :=
    match pixel_ipd with
    | Some p =>
        if truthyQ p && Qgtb p 2 then
          if truthyQ (calib_get_real_ipd c) && truthyQ (calib_get_focal c) then
            let s := smooth prev (raw_eye_distance c p) in (Some s, Some s)
          else (None, prev)
        else (None, prev)
    | None => (None, prev)
    end in
  match fst eye with
  | Some _ => eye
  | None =>
      match face_width with
      | Some fw =>
          if fw >? 8 then
            let s := smooth (snd eye) (raw_face_distance c fw) in (Some s, Some s)
          else eye
      | None => eye
      end
  end.

(** ** Posture and behaviour classifier ([_compute_posture_flags]) *)

Definition Point : Type := Z * Z.
Definition Box : Type := Z * Z * Z * Z.

(** A hand landmark: normalised [x], [y] and depth [z]. *)
Record Landmark := mkLandmark { lm_x : Q; lm_y : Q; lm_z : Q }.
Definition Hand : Type := list Landmark.

(** The nine entries of the [flags] dictionary, in the order of its literal. *)
Record Flags := mkFlags {
  vertical_bad : bool;
  depth_bad : bool;
  eye_tilt_bad : bool;
  head_twist_bad : bool;
  neck_short_bad : bool;
  body_turned : bool;
  horizontal_offset_bad : bool;
  nail_biting : bool;
  face_touch : bool
}.

Definition no_flags : Flags :=
  mkFlags false false false false false false false false false.

(** Results of the numpy and math calls of one classification. *)
Record Geometry := mkGeometry {
  np_norm_shoulders : Q;     (* np.linalg.norm(ls - rs) *)
  atan2_deg_shoulders : Q;   (* degrees(atan2(shoulder_vec)) *)
  atan2_deg_eyes : Q         (* degrees(atan2(dy, dx)) *)
}.

Definition between (lo x hi : Z) : bool := (lo <=? x) && (x <=? hi).

(** The loop over [FINGERTIP_IDX] for one hand; [None] when
    [hand_lm.landmark[i]] is out of range.  The pair is
    ([flags['nail_biting']], [flags['face_touch']]). *)
Fixpoint scan_fingertips (c : Config) (mouth_box face_reference : option Box)
    (img_w img_h : Z) (hand : Hand) (idxs : list nat) (nf : bool * bool)
    : option (bool * bool) :=
  match idxs with
  | [] => Some nf
  | i :: rest =>
      match nth_error hand i with
      | None => None
      | Some p =>
          let px := py_int (lm_x p * inject_Z img_w) in
          let py := py_int (lm_y p * inject_Z img_h) in
          let near := Qltb (lm_z p) NAIL_BITING_DEPTH_THRESH in
          let at_mouth :=
            match mouth_box with
            | Some (mx, my, mw, mh) =>
                enable_nail_biting c
                && between (mx - NAIL_CONTACT_MARGIN) px (mx + mw + NAIL_CONTACT_MARGIN)
                && between (my - NAIL_CONTACT_MARGIN) py (my + mh + NAIL_CONTACT_MARGIN)
                && near
            | None => false
            end in
          if at_mouth then Some (true, snd nf)
          else
            let at_face :=
              match face_reference with
              | Some (fx0, fy0, fw0, fh0) =>
                  enable_face_touch c
                  && between (fx0 + FACE_TOUCH_MARGIN) px (fx0 + fw0 - FACE_TOUCH_MARGIN)
                  && between (fy0 + FACE_TOUCH_MARGIN) py (fy0 + fh0 - FACE_TOUCH_MARGIN)
                  && near
              | None => false
              end in
            if at_face then Some (fst nf, true)
            else scan_fingertips c mouth_box face_reference img_w img_h hand rest nf
      end
  end.

(** The loop over the detected hands. *)
Fixpoint scan_hands (c : Config) (mouth_box face_reference : option Box)
    (img_w img_h : Z) (hands : list Hand) (nf : bool * bool)
    : option (bool * bool) :=
  match hands with
  | [] => Some nf
  | h :: rest =>
      match scan_fingertips c mouth_box face_reference img_w img_h h FINGERTIP_IDX nf with
      | None => None
      | Some nf' =>
          if fst nf' && snd nf' then Some nf'
          else scan_hands c mouth_box face_reference img_w img_h rest nf'
      end
  end.

(** The last block of the function: a turned body clears the six posture
    flags; otherwise a shoulder line rolled by more than 15 degrees clears
    [eye_tilt_bad]. *)
Definition suppress (shoulder_angle : Q) (f : Flags) : Flags :=
  if body_turned f then
    mkFlags false false false false false (body_turned f) false
            (nail_biting f) (face_touch f)
  else if Qgtb (Qabs shoulder_angle) 15 then
    mkFlags (vertical_bad f) (depth_bad f) false (head_twist_bad f)
            (neck_short_bad f) (body_turned f) (horizontal_offset_bad f)
            (nail_biting f) (face_touch f)
  else f.

(** The flags as computed before the last block, with the shoulder angle
    the last block looks at.  [inl b]: the function left early (a [return]
    or the [except] clause) with all flags false and depth baseline [b]. *)
Definition raw_posture_flags (c : Config) (cal : Calibration)
    (depth_baseline : option Q) (last_eyes : list Box) (last_face_box : option Box)
    (g : Geometry)
    (nose_px head_center_px : option Point) (shoulder_mid_px : option (Q * Q))
    (detected_shoulders : option (Point * Point)) (face_width_px : option Z)
    (mouth_box face_box : option Box) (hand_landmarks : option (list Hand))
    (image_size : option (Z * Z))
    : option Q + (Flags * Q * option Q) :=
  match face_width_px with
  | None => inl depth_baseline
  | Some fw =>
  if negb (truthyZ fw) || (fw <=? 1) then inl depth_baseline else
  match (match head_center_px with Some h => Some h | None => nose_px end) with
  | None => inl depth_baseline
  | Some (hx, hy) =>
  let fwq := inject_Z fw in
  let shoulder_span :=
    match detected_shoulders with
    | Some _ => np_norm_shoulders g
    | None => py_maxQ 1 (fwq * (16 # 10))
    end in
  let shoulder_angle :=
    match detected_shoulders with
    | Some _ => atan2_deg_shoulders g
    | None => 0%Q
    end in
  let ratio := (shoulder_span / (fwq + eps))%Q in
  let turned := Qltb ratio ((115 # 100) * (78 # 100)) in
  let vertical_ratio :=
    match shoulder_mid_px with
    | Some (_, smy) => Some ((smy - inject_Z hy) / (fwq * (125 # 100) + eps))%Q
    | None => None
    end in
  let vertical :=
    match vertical_ratio with
    | Some vr => Qltb vr (posture_vert_thresh c)
    | None => false
    end in
  let depth_ratio := (fwq / (shoulder_span + eps))%Q in
  let baseline :=
    match depth_baseline with
    | None => depth_ratio
    | Some b => ((8 # 100) * depth_ratio + (1 - (8 # 100)) * b)%Q
    end in
  let depth := Qgtb depth_ratio (baseline * posture_depth_thresh c) in
  let eyes :=
    match last_eyes with
    | (_, ly0, _, lh) :: (_, ry0, _, rh) :: _ =>
        let ly := (inject_Z ly0 + inject_Z lh / 2)%Q in
        let ry := (inject_Z ry0 + inject_Z rh / 2)%Q in
        let dy := (ry - ly)%Q in
        (Qabs dy / (fwq * (125 # 100) + eps), atan2_deg_eyes g, Qabs dy)%Q
    | _ => (0, 0, 0)%Q
    end in
  let eye_tilt_norm := fst (fst eyes) in
  let eye_tilt_angle := snd (fst eyes) in
  let eye_vertical_diff := snd eyes in
  let neutral_tilt :=
    match calib_neutral cal with
    | Some n => default 0%Q (neutral_eye_tilt_angle n)
    | None => 0%Q
    end in
  let head_twist_deg := Qabs (eye_tilt_angle - neutral_tilt) in
  let eye_tilt :=
    Qgtb eye_tilt_norm (posture_eye_tilt_thresh c) || Qgtb head_twist_deg 10
    || Qgtb (eye_vertical_diff / (fwq + eps)) (5 # 100) in
  let head_twist := Qgtb head_twist_deg 12 in
  let neck_len :=
    match nose_px, shoulder_mid_px with
    | Some (_, ny), Some (_, smy) =>
        Some ((smy - inject_Z ny) / (fwq * (125 # 100) + eps))%Q
    | _, _ => vertical_ratio
    end in
  match neck_len with
  | None => inl (Some baseline)
  | Some nl =>
  let neck_short := Qgtb (1 - nl) (posture_neck_thresh c) in
  let horizontal :=
    match shoulder_mid_px with
    | Some (smx, _) =>
        truthyZ hx
        && Qgtb (Qabs (inject_Z hx - smx) / (fwq + eps)) (15 # 100)
        && negb turned
    | None => false
    end in
  let hands :=
    match hand_landmarks, image_size with
    | Some (h :: hs), Some (img_w, img_h) =>
        if (enable_nail_biting c || enable_face_touch c)
           && truthyZ img_w && truthyZ img_h
        then
          scan_hands c mouth_box
            (match face_box with Some b => Some b | None => last_face_box end)
            img_w img_h (h :: hs) (false, false)
        else Some (false, false)
    | _, _ => Some (false, false)
    end in
  match hands with
  | None => inl (Some baseline)
  | Some (nail, touch) =>
      inr (mkFlags vertical depth eye_tilt head_twist neck_short turned
                   horizontal nail touch,
           shoulder_angle, Some baseline)
  end end end end.

(** [_compute_posture_flags]: the returned flags and the new value of
    [_depth_baseline]. *)
Definition compute_posture_flags (c : Config) (cal : Calibration)
    (depth_baseline : option Q) (last_eyes : list Box) (last_face_box : option Box)
    (g : Geometry)
    (nose_px head_center_px : option Point) (shoulder_mid_px : option (Q * Q))
    (detected_shoulders : option (Point * Point)) (face_width_px : option Z)
    (mouth_box face_box : option Box) (hand_landmarks : option (list Hand))
    (image_size : option (Z * Z)) : Flags * option Q :=
  match raw_posture_flags c cal depth_baseline last_eyes last_face_box g
          nose_px head_center_px shoulder_mid_px detected_shoulders
          face_width_px mouth_box face_box hand_landmarks image_size with
  | inl b => (no_flags, b)
  | inr (f, shoulder_angle, b) => (suppress shoulder_angle f, b)
  end.

(** ** Alert timers *)

(** One evaluation of a latched category.  The statistics loop has this
    block three times: for "Off Task - Body Turned" and for "Bad Posture"
    in [_update_posture_state], and for the partial-frame warning in
    [_stats_worker].  The start and active-since attributes are set and
    deleted together.  Returns the timers, the active-alerts set and
    whether the notification was sent in this evaluation. *)
Definition debounce_step (appear : Q) (delay : Z) (label : string)
    (now : Q) (cond : bool) (d : Debounce) (active : gset string)
    : Debounce * gset string * bool :=
  if cond then
    let d1 :=
      match d_start d with
      | None => mkDebounce (Some now) (Some now) (d_notified d)
      | Some _ => d
      end in
    let active1 :=
      match d_start d with
      | None => active
      | Some _ =>
          if Qgeb (now - default now (d_active_since d)) appear
          then {[ label ]} ∪ active else active
      end in
    if negb (d_notified d1)
       && Qgeb (now - default now (d_start d1)) (inject_Z (Z.max 1 delay))
    then (mkDebounce (d_start d1) (d_active_since d1) true, active1, true)
    else (d1, active1, false)
  else (debounce_idle, active ∖ {[ label ]}, false).

(** The too-close block of [_stats_worker]: a strict comparison with the
    delay and a start time moved 60 s into the future after a
    notification.  [too_close_active_since] survives a false condition. *)
Definition too_close_step (appear : Q) (delay : Z) (now : Q) (cond : bool)
    (start active_since : option Q) (active : gset string)
    : option Q * option Q * gset string * bool :=
  if cond then
    let start1 := match start with None => now | Some s => s end in
    let since1 := match start with None => Some now | Some _ => active_since end in
    let active1 :=
      match start with
      | None => active
      | Some _ =>
          if Qgeb (now - default now active_since) appear
          then {[ L_TOO_CLOSE ]} ∪ active else active
      end in
    if Qgtb (now - start1) (inject_Z (Z.max 1 delay))
    then (Some (now + 60)%Q, since1, active1, true)
    else (Some start1, since1, active1, false)
  else (None, active_since, active ∖ {[ L_TOO_CLOSE ]}, false).

(** The nail-biting block of [_update_posture_state]; [cond] is
    [enable_nail_biting and flags['nail_biting']].  Returns
    [_nail_biting_start], [_nail_active_since], [_nail_biting_detected],
    the active set and whether a notification was sent. *)
Definition nail_biting_step (now : Q) (cond : bool)
    (start active_since : option Q) (active : gset string)
    : option Q * option Q * bool * gset string * bool :=
  if cond then
    let since1 := match active_since with None => Some now | Some _ => active_since end in
    let start1 := match start with None => now | Some s => s end in
    if Qgeb (now - start1) NAIL_BITING_DURATION
    then (Some (now + 60)%Q, since1, true, {[ L_NAIL ]} ∪ active, true)
    else (Some start1, since1, true, {[ L_NAIL ]} ∪ active, false)
  else (None, None, false, active ∖ {[ L_NAIL ]}, false).

(** The face-touch block of [_update_posture_state]. *)
Definition face_touch_step (now : Q) (cond : bool)
    (start active_since : option Q) (active : gset string)
    : option Q * option Q * bool * gset string * bool :=
  if cond then
    let since1 := match active_since with None => Some now | Some _ => active_since end in
    let start1 :=
      match start with
      | None => now
      | Some s => if Qleb s now then now else s
      end in
    if Qgeb (now - start1) FACE_TOUCH_DURATION
    then (Some (now + FACE_TOUCH_COOLDOWN)%Q, since1, true, {[ L_FACE_TOUCH ]} ∪ active, true)
    else (Some start1, since1, true, {[ L_FACE_TOUCH ]} ∪ active, false)
  else (None, None, false, active ∖ {[ L_FACE_TOUCH ]}, false).

(** [category_map]: the advice shown for each posture flag that is set. *)
Definition reasons_of (f : Flags) : gset string :=
  (if vertical_bad f then {[ "Sit up straight" ]} else ∅)
  ∪ (if depth_bad f then {[ "Lean back" ]} else ∅)
  ∪ (if eye_tilt_bad f then {[ "Straighten your head" ]} else ∅)
  ∪ (if head_twist_bad f then {[ "Level your head" ]} else ∅)
  ∪ (if neck_short_bad f then {[ "Straighten your neck" ]} else ∅)
  ∪ (if horizontal_offset_bad f then {[ "Straighten your neck" ]} else ∅).

Definition any_posture_flag (f : Flags) : bool :=
  vertical_bad f || depth_bad f || eye_tilt_bad f || head_twist_bad f
  || neck_short_bad f || horizontal_offset_bad f.

(** [", ".join(self.posture_reasons)], in the order the set enumerates. *)
Definition join_reasons (r : gset string) : string :=
  String.concat ", " (elements r).

(** [_emit_alert]: one row in [alerts], committed at once; the function
    catches its own exceptions. *)
Definition emit_alert (ts message : string) : M unit :=
  try_except
    (c <- has_cursor ;;
     when c (insert_alert ts message ;;; commit))
    log_exc.

(** The head-turn clock of [_update_posture_state]: the new
    [_head_turn_start], [_head_turn_duration] and [head_turn_bad]. *)
Definition head_turn_step (now : Q) (f : Flags) (start : option Q)
    : option Q * Q * bool :=
  if (eye_tilt_bad f || head_twist_bad f || horizontal_offset_bad f)
     && negb (body_turned f)
  then
    let s := match start with None => now | Some s => s end in
    (Some s, (now - s)%Q, Qgtb (now - s) 30)
  else (None, 0%Q, false).

(** [_update_posture_state(flags, diag)]; [now] is the clock read at its
    first line and [ts] the time stamp written with an alert row. *)
Definition update_posture_state (now : Q) (ts : string) (f : Flags) : M unit :=
  try_except
    ((* Off Task - Body Turned *)
     c <- gets cfg ;;
     b <- gets bank ;;
     let r := debounce_step (active_alert_appear_seconds c) (delay_seconds c)
                L_BODY_TURNED now (body_turned f) (_body_turned b) (active_alerts b) in
     modify_bank (fun b => set_active_alerts (snd (fst r)) (set_body_turned (fst (fst r)) b)) ;;;
     when (snd r)
       (notify_os "Off Task" "Body turned away from screen." ;;;
        emit_alert ts L_BODY_TURNED) ;;;
     (* reasons and the head-turn clock *)
     b <- gets bank ;;
     let ht := head_turn_step now f (_head_turn_start b) in
     let head_turn_bad := snd ht in
     let reasons :=
       reasons_of f ∪ (if head_turn_bad then {[ "Face forward" ]} else ∅) in
     let posture_detected := any_posture_flag f || head_turn_bad in
     modify_bank (fun b =>
       set_posture_reasons reasons
         (set_head_turn_start (fst (fst ht))
            (set_head_turn_duration (snd (fst ht)) b))) ;;;
     (* Bad Posture *)
     b <- gets bank ;;
     let bad := posture_detected && (negb (body_turned f) || head_turn_bad) in
     let r := debounce_step (active_alert_appear_seconds c) (delay_seconds c)
                L_BAD_POSTURE now bad (_posture b) (active_alerts b) in
     modify_bank (fun b => set_active_alerts (snd (fst r)) (set_posture (fst (fst r)) b)) ;;;
     when (snd r)
       (notify_os "Bad Posture" (join_reasons reasons) ;;;
        emit_alert ts ("Bad Posture - " ++ join_reasons reasons) ;;;
        modify_bank (fun b =>
          set_today_posture_alerts (today_posture_alerts b + 1)
            (set_session_posture_alerts (session_posture_alerts b + 1) b))) ;;;
     modify_agg (fun a =>
       if bad then
         match slouch_session_start a with
         | None => set_slouch_session_start (Some now) a
         | Some _ => a
         end
       else
         match slouch_session_start a with
         | Some s =>
             set_slouch_session_start None
               (set_slouch_accum_seconds (slouch_accum_seconds a + py_int (now - s)) a)
         | None => a
         end) ;;;
     (* Nail Biting Detected *)
     b <- gets bank ;;
     let r := nail_biting_step now (enable_nail_biting c && nail_biting f)
                (_nail_biting_start b) (_nail_active_since b) (active_alerts b) in
     let '(st, since, det, act, fire) := r in
     modify_bank (fun b =>
       set_active_alerts act
         (set_nail_biting_start st
            (set_nail_active_since since (set_nail_biting_detected det b)))) ;;;
     when fire
       (notify_os "Nail Biting Detected" "Stop biting your nails." ;;;
        emit_alert ts L_NAIL) ;;;
     (* Face Touch Detected *)
     b <- gets bank ;;
     let r := face_touch_step now (enable_face_touch c && face_touch f)
                (_face_touch_start b) (_face_touch_active_since b) (active_alerts b) in
     let '(st, since, det, act, fire) := r in
     modify_bank (fun b =>
       set_active_alerts act
         (set_face_touch_start st
            (set_face_touch_active_since since (set_face_touch_detected det b)))) ;;;
     when fire
       (notify_os "Face Touch Detected" "Avoid touching your face." ;;;
        emit_alert ts L_FACE_TOUCH ;;;
        modify_bank (fun b =>
          set_today_face_touch_alerts (today_face_touch_alerts b + 1)
            (set_session_face_touch_alerts (session_face_touch_alerts b + 1) b))))
    log_exc.

(** ** Time-bucketed aggregator *)

(** [_flush_hourly_metrics(hour_key, auto_commit)].  The three pending
    hourly buffers are zeroed after the optional commit, through the
    [reset_*] flags. *)
Definition flush_hourly_metrics (hour_key : option string) (auto_commit : bool)
    : M bool :=
  try_except
    (c <- has_cursor ;;
     match hour_key with
     | None => ret false
     | Some hk =>
         if negb c then ret false else
         a <- gets agg ;;
         reset_visible <-
           (if pending_hour_visible_seconds a >? 0 then
              res <- select_screen_hourly hk ;;
              replace_screen_hourly hk (default 0 res + pending_hour_visible_seconds a) ;;;
              ret true
            else ret false) ;;
         reset_slouch <-
           (if pending_hour_slouch_seconds a >? 0 then
              res <- select_posture_hourly hk ;;
              replace_posture_hourly hk (default 0 res + pending_hour_slouch_seconds a) ;;;
              ret true
            else ret false) ;;
         reset_distance <-
           (if pending_hour_distance_count a >? 0 then
              res <- select_distance_hourly hk ;;
              let current_h_sum := match res with Some (Some s, _) => s | _ => 0%Q end in
              let current_h_count := match res with Some (_, Some n) => n | _ => 0 end in
              replace_distance_hourly hk
                (current_h_sum + pending_hour_distance_sum a)%Q
                (current_h_count + pending_hour_distance_count a) ;;;
              ret true
            else ret false) ;;
         let changed := reset_visible || reset_slouch || reset_distance in
         when (changed && auto_commit) commit ;;;
         when reset_visible (modify_agg (set_pending_hour_visible_seconds 0)) ;;;
         when reset_slouch (modify_agg (set_pending_hour_slouch_seconds 0)) ;;;
         when reset_distance
           (modify_agg (fun a =>
              set_pending_hour_distance_sum 0%Q (set_pending_hour_distance_count 0 a))) ;;;
         ret changed
     end)
    (log_exc ;;; ret false).

(** The arithmetic of the daily distance merge, given the row read for
    today (if any): [new_total_sum], [new_avg], [new_total_count]. *)
Definition merge_distance_log (res : option (option Q * option Z))
    (pending_sum : Q) (pending_count : Z) : Q * Q * Z :=
  let old_avg := match res with Some (Some a, _) => a | _ => 0%Q end in
  let old_count := match res with Some (_, Some n) => n | _ => 0 end in
  let old_sum := (old_avg * inject_Z old_count)%Q in
  let new_total_sum := (old_sum + pending_sum)%Q in
  let new_total_count := old_count + pending_count in
  let new_avg :=
    if new_total_count >? 0 then (new_total_sum / inject_Z new_total_count)%Q
    else 0%Q in
  (new_total_sum, new_avg, new_total_count).

(** The daily merges are written twice in the source, in the "Save to DB"
    block of [_stats_worker] and in [_on_close]; the copies differ in that
    the first also refreshes the [today_*] mirrors shown in the window
    ([mirror = true]).  Each block returns whether it wrote. *)

(** Screen time: the delta above the saved watermark is added to today's
    row and the watermark moves to [current_visible]. *)
Definition save_screen_time (mirror : bool) (today : string) (current_visible : Z)
    : M bool :=
  a <- gets agg ;;
  let diff_visible := Z.max 0 (current_visible - saved_visible_seconds a) in
  if diff_visible >? 0 then
    res <- select_screen_time today ;;
    let new_sec := default 0 res + diff_visible in
    replace_screen_time today new_sec ;;;
    modify_agg (fun a =>
      set_saved_visible_seconds current_visible
        (if mirror then set_today_screen_sec new_sec a else a)) ;;;
    ret true
  else ret false.

(** Bad-posture time, likewise. *)
Definition save_posture_time (mirror : bool) (today : string) (current_slouch : Z)
    : M bool :=
  a <- gets agg ;;
  let diff_slouch := Z.max 0 (current_slouch - saved_slouch_seconds a) in
  if diff_slouch >? 0 then
    res <- select_posture_time today ;;
    let new_sec := default 0 res + diff_slouch in
    replace_posture_time today new_sec ;;;
    modify_agg (fun a =>
      set_saved_slouch_seconds current_slouch
        (if mirror then set_today_posture_sec new_sec a else a)) ;;;
    ret true
  else ret false.

(** Distance: the pending sum and count are merged into today's row. *)
Definition save_distance_log (mirror : bool) (today : string) : M bool :=
  a <- gets agg ;;
  c <- gets cfg ;;
  if enable_distance c && (pending_distance_count a >? 0) then
    res <- select_distance_log today ;;
    let m := merge_distance_log res (pending_distance_sum a) (pending_distance_count a) in
    let new_total_sum := fst (fst m) in
    let new_avg := snd (fst m) in
    let new_total_count := snd m in
    replace_distance_log today new_avg new_total_count ;;;
    modify_agg (fun a =>
      let a := if mirror
               then set_today_avg_cm (Some new_avg)
                      (set_today_distance_count new_total_count a)
               else a in
      set_distance_sum_total new_total_sum
        (set_distance_count_total new_total_count
           (set_pending_distance_sum 0%Q
              (set_pending_distance_count 0 a)))) ;;;
    ret true
  else ret false.

(** The "Save to DB" block of [_stats_worker], entered when the save
    interval has elapsed and a cursor exists.  [current_visible] and
    [current_slouch] are the totals computed earlier in the iteration. *)
Definition periodic_save (now : Q) (today hour : string)
    (current_visible current_slouch : Z) : M unit :=
  try_except
    (c1 <- save_screen_time true today current_visible ;;
     c2 <- save_posture_time true today current_slouch ;;
     c3 <- save_distance_log true today ;;
     hourly_changed <- flush_hourly_metrics (Some hour) false ;;
     when (c1 || c2 || c3 || hourly_changed)
       (commit ;;; modify_agg (set_last_save_time now)))
    log_exc.

(** [conn.close()]: what was not committed is lost. *)
Definition conn_close : M unit :=
  fun w =>
    (Ok tt,
     match store w with
     | Some d => set_store (Some (mkDb (committed d) (committed d) (fault d))) w
     | None => w
     end).

(** The first lines of [_on_close]: the open segments are closed. *)
Definition close_segments (now : Q) (a : Agg) : Agg :=
  let a :=
    match visible_start a with
    | Some vs =>
        if truthyQ vs then
          set_visible_start None
            (set_visible_seconds (visible_seconds a + py_int (now - vs)) a)
        else a
    | None => a
    end in
  match slouch_session_start a with
  | Some s =>
      set_slouch_session_start None
        (set_slouch_accum_seconds (slouch_accum_seconds a + py_int (now - s)) a)
  | None => a
  end.

(** The last flush of [_on_close]. *)
Definition final_save (today hour : string) : M unit :=
  try_except
    (a <- gets agg ;;
     c1 <- save_screen_time false today (visible_seconds a) ;;
     a <- gets agg ;;
     c2 <- save_posture_time false today (slouch_accum_seconds a) ;;
     c3 <- save_distance_log false today ;;
     hourly_changed <- flush_hourly_metrics (Some hour) false ;;
     when (c1 || c2 || c3 || hourly_changed) commit)
    log_exc.

(** [_on_close]: the open segments are closed, one last flush is made and
    the connection is closed. *)
Definition on_close (now : Q) (today hour : string) : M unit :=
  try_except
    (modify_agg (close_segments now) ;;;
     c <- has_cursor ;;
     when c (final_save today hour))
    log_exc ;;;
  conn_close.

(** [_execute_data_erase]: the seven tables are emptied and committed, then
    the counters, accumulators, watermarks and buffers are reset. *)
Definition ERASED_TABLES : list TableName :=
  [T_alerts; T_screen_time; T_posture_time; T_distance_log;
   T_screen_hourly; T_posture_hourly; T_distance_hourly].

Definition erase_agg (a : Agg) : Agg :=
  set_today_screen_sec 0
    (set_today_posture_sec 0
       (set_today_avg_cm None
          (set_today_distance_count 0
             (set_visible_seconds 0
                (set_slouch_accum_seconds 0
                   (set_saved_visible_seconds 0
                      (set_saved_slouch_seconds 0
                         (set_pending_hour_visible_seconds 0
                            (set_pending_hour_slouch_seconds 0
                               (set_pending_hour_distance_sum 0%Q
                                  (set_pending_hour_distance_count 0
                                     (set_pending_distance_sum 0%Q
                                        (set_pending_distance_count 0
                                           (set_distance_sum_total 0%Q
                                              (set_distance_count_total 0
                                                 (set_distances_buffer [] a)))))))))))))))).

Definition erase_bank (b : AlertBank) : AlertBank :=
  set_today_posture_alerts 0
    (set_today_distance_alerts 0
       (set_today_face_touch_alerts 0
          (set_session_posture_alerts 0
             (set_session_distance_alerts 0
                (set_session_face_touch_alerts 0
                   (set_active_alerts ∅ b)))))).

Definition execute_data_erase : M unit :=
  try_except
    (c <- has_cursor ;;
     when c (for_each ERASED_TABLES delete_from ;;; commit) ;;;
     modify_agg erase_agg ;;;
     modify_bank erase_bank)
    log_exc.

(** ** One iteration of the statistics loop *)

(** What one iteration reads from outside the application object: the
    clocks, the digested detector results, the fields written by the video
    thread and the numpy / math results. *)
Record Frame := mkFrame {
  now : Q;                                  (* time.time() at the top *)
  now_posture : Q;                          (* time.time() in _update_posture_state *)
  current_hour : string;                    (* hour key at the top *)
  today_str : string;                       (* date.today() in the save block *)
  save_hour : string;                       (* hour key in the save block *)
  stamp : string;                           (* time stamp of alert rows *)
  face_detected : bool;
  nose_px : option Point;
  face_width : option Z;
  shoulder_mid : option (Q * Q);
  detected_shoulders : option (Point * Point);
  mouth_box : option Box;
  face_box : option Box;
  hands_result : option (list Hand);        (* mp_hands.process(...) *)
  missing_parts : Z;                        (* after the landmark checks *)
  pixel_ipd : option Q;
  last_eyes : list Box;
  last_face_box : option Box;
  _smoothed_shoulder_mid : option (Q * Q);
  image_size : Z * Z;
  geometry : Geometry
}.

(** Hour rollover at the top of the iteration. *)
Definition hour_rollover (f : Frame) : M unit :=
  a <- gets agg ;;
  match last_hour a with
  | None => modify_agg (set_last_hour (Some (current_hour f)))
  | Some h =>
      if String.eqb (current_hour f) h then ret tt
      else
        flush_hourly_metrics (Some h) true ;;;
        modify_agg (set_last_hour (Some (current_hour f)))
  end.

(** The 20-20-20 reminder; its statements are not guarded by a [try] of
    their own. *)
Definition twenty_reminder (f : Frame) : M unit :=
  c <- gets cfg ;;
  a <- gets agg ;;
  when (enable_twenty c && Qgtb (now f - last_twenty a) TWENTY_TWENTY_SEC)
    (notify_os "20-20-20 Reminder" "Look 20ft away for 20 seconds." ;;;
     modify_agg (set_last_twenty (now f)) ;;;
     cur <- has_cursor ;;
     when cur (insert_alert (stamp f) "20-20-20 reminder" ;;; commit)).

(** Presence accounting: a visible segment starts with the first frame
    that shows a face and ends, truncated to whole seconds, with the first
    frame that does not. *)
Definition track_presence (f : Frame) : M unit :=
  if face_detected f then
    modify_agg (fun a =>
      set_fully_missing_count 0
        (if truthy_time (visible_start a) then a
         else set_visible_start (Some (now f))
                (set_session_start (Some (now f))
                   (set_session_count (_session_count a + 1) a))))
  else
    modify_agg (fun a =>
      match slouch_session_start a with
      | Some s =>
          set_slouch_session_start None
            (set_slouch_accum_seconds (slouch_accum_seconds a + py_int (now f - s)) a)
      | None => a
      end) ;;;
    modify_bank (fun b =>
      set_posture_reasons ∅
        (set_active_alerts (active_alerts b ∖ {[ L_BAD_POSTURE ]})
           (set_posture debounce_idle b))) ;;;
    modify_agg (fun a =>
      match visible_start a with
      | Some vs =>
          if truthyQ vs then
            set_session_start
              (if truthy_time (_session_start a) then None else _session_start a)
              (set_visible_start None
                 (set_visible_seconds (visible_seconds a + py_int (now f - vs)) a))
          else a
      | None => a
      end).

(** [self.visible_seconds + (int(now - self.visible_start) if
    self.visible_start else 0)] and its slouch counterpart. *)
Definition total_visible_at (t : Q) (a : Agg) : Z :=
  visible_seconds a
  + match visible_start a with
    | Some vs => if truthyQ vs then py_int (t - vs) else 0
    | None => 0
    end.

Definition total_slouch_at (t : Q) (a : Agg) : Z :=
  slouch_accum_seconds a
  + match slouch_session_start a with
    | Some s => if truthyQ s then py_int (t - s) else 0
    | None => 0
    end.

(** [_unsaved_visible_seconds] and [_unsaved_slouch_seconds], read at
    clock [t]. *)
Definition _unsaved_visible_seconds (t : Q) (a : Agg) : Z :=
  Z.max 0 (total_visible_at t a - saved_visible_seconds a).
Definition _unsaved_slouch_seconds (t : Q) (a : Agg) : Z :=
  Z.max 0 (total_slouch_at t a - saved_slouch_seconds a).

(** The delta since the previous iteration goes to the hourly buffer. *)
Definition account_visible (f : Frame) : M Z :=
  a <- gets agg ;;
  let total_visible := total_visible_at (now f) a in
  let delta_visible := Z.max 0 (total_visible - _prev_total_visible a) in
  modify_agg (fun a =>
    set_prev_total_visible total_visible
      (if delta_visible >? 0
       then set_pending_hour_visible_seconds (pending_hour_visible_seconds a + delta_visible) a
       else a)) ;;;
  ret total_visible.

Definition account_slouch (f : Frame) : M Z :=
  a <- gets agg ;;
  let current_slouch_total := total_slouch_at (now f) a in
  let delta_slouch := Z.max 0 (current_slouch_total - _prev_total_slouch a) in
  modify_agg (fun a =>
    set_prev_total_slouch current_slouch_total
      (if delta_slouch >? 0
       then set_pending_hour_slouch_seconds (pending_hour_slouch_seconds a + delta_slouch) a
       else a)) ;;;
  ret current_slouch_total.

Definition two_eyes (f : Frame) : bool :=
  match last_eyes f with _ :: _ :: _ => true | _ => false end.

(** The partial-frame warning. *)
Definition partial_frame (f : Frame) : M unit :=
  modify_agg (fun a =>
    let a1 :=
      set_fully_missing_count
        (if face_detected f then 0 else _fully_missing_count a + 1) a in
    let missing :=
      missing_parts f
      + (if two_eyes f then 0 else 1)
      + (match _smoothed_shoulder_mid f with Some _ => 0 | None => 1 end) in
    set_partial_missing_count
      (if (missing >=? 1) && face_detected f then _partial_missing_count a1 + 1 else 0)
      a1) ;;;
  a <- gets agg ;;
  c <- gets cfg ;;
  b <- gets bank ;;
  let partial_flag := _partial_missing_count a >=? 1 in
  let fully_out_flag := _fully_missing_count a >=? 6 in
  let r := debounce_step (active_alert_appear_seconds c) (delay_seconds c)
             L_PARTIAL (now f) (partial_flag && negb fully_out_flag)
             (_partial b) (active_alerts b) in
  modify_bank (fun b => set_active_alerts (snd (fst r)) (set_partial (fst (fst r)) b)) ;;;
  when (snd r)
    (notify_os "Frame Warning" "Please come fully into frame for accurate tracking." ;;;
     emit_alert (stamp f) "Partial Frame - Please come fully into frame").

(** Classification and the posture timers. *)
Definition posture_stage (f : Frame) : M unit :=
  s <- gets (fun s => s) ;;
  let ready :=
    enable_posture (cfg s) && face_detected f
    && (match nose_px f with Some _ => true | None => false end)
    && (match shoulder_mid f with Some _ => true | None => false end)
    && (match face_width f with Some w => truthyZ w | None => false end)
    && two_eyes f
    && (match _smoothed_shoulder_mid f with Some _ => true | None => false end) in
  when ready
    (let hand_landmarks :=
       if enable_nail_biting (cfg s) || enable_face_touch (cfg s) then
         match hands_result f with
         | Some (h :: hs) => Some (h :: hs)
         | _ => None
         end
       else None in
     let use_face_box :=
       match face_box f with Some b => Some b | None => last_face_box f end in
     let r := compute_posture_flags (cfg s) (calib s) (_depth_baseline s)
                (last_eyes f) (last_face_box f) (geometry f)
                (nose_px f) (nose_px f) (shoulder_mid f) (detected_shoulders f)
                (face_width f) (mouth_box f) use_face_box hand_landmarks
                (Some (image_size f)) in
     modify (set_depth_baseline (snd r)) ;;;
     update_posture_state (now_posture f) (stamp f) (fst r)).

(** A distance sample enters the session buffer (at most 600 values) and
    the total, daily and hourly sums. *)
Definition record_sample (sample_val : Q) (a : Agg) : Agg :=
  let buf := distances_buffer a ++ [sample_val] in
  let buf := if (600 <? length buf)%nat then tl buf else buf in
  let total_sum := (distance_sum_total a + sample_val)%Q in
  let total_count := distance_count_total a + 1 in
  set_distances_buffer buf
    (set_distance_sum_total total_sum
       (set_distance_count_total total_count
          (set_pending_distance_sum (pending_distance_sum a + sample_val)%Q
             (set_pending_distance_count (pending_distance_count a + 1)
                (set_pending_hour_distance_sum (pending_hour_distance_sum a + sample_val)%Q
                   (set_pending_hour_distance_count (pending_hour_distance_count a + 1)
                      (if total_count >? 0
                       then set_today_avg_cm (Some (total_sum / inject_Z total_count)%Q) a
                       else a))))))).

(** Distance estimate, sample accounting and the too-close alert. *)
Definition distance_stage (f : Frame) : M unit :=
  s <- gets (fun s => s) ;;
  when (enable_distance (cfg s))
    (let r := estimate_distance (calib s) (_smoothed_distance_cm s)
                (pixel_ipd f) (face_width f) in
     let distance_cm := fst r in
     modify (set_smoothed_distance_cm (snd r)) ;;;
     match distance_cm with
     | Some d => modify_agg (record_sample d)
     | None => ret tt
     end ;;;
     a <- gets agg ;;
     match distances_buffer a with
     | [] => ret tt
     | _ :: _ =>
         let is_too_close :=
           match distance_cm with
           | Some d => Qltb d (min_distance_cm (cfg s))
           | None => false
           end in
         b <- gets bank ;;
         let r := too_close_step (active_alert_appear_seconds (cfg s))
                    (delay_seconds (cfg s)) (now f) is_too_close
                    (too_close_start b) (too_close_active_since b) (active_alerts b) in
         let '(st, since, act, fire) := r in
         modify_bank (fun b =>
           set_active_alerts act
             (set_too_close_start st (set_too_close_active_since since b))) ;;;
         when fire
           (notify_os "Too Close" "Move back from the screen." ;;;
            emit_alert (stamp f) L_TOO_CLOSE ;;;
            modify_bank (fun b =>
              set_today_distance_alerts (today_distance_alerts b + 1)
                (set_session_distance_alerts (session_distance_alerts b + 1) b)))
     end).

(** The body of the [while self.running] loop for one processed frame,
    with the save interval as a parameter. *)
Definition stats_iteration (save_interval : Q) (f : Frame) : M unit :=
  try_except
    (hour_rollover f ;;;
     twenty_reminder f ;;;
     track_presence f ;;;
     total_visible <- account_visible f ;;
     partial_frame f ;;;
     current_slouch_total <- account_slouch f ;;
     posture_stage f ;;;
     distance_stage f ;;;
     a <- gets agg ;;
     cur <- has_cursor ;;
     when (Qgtb (now f - last_save_time a) save_interval && cur)
       (periodic_save (now f) (today_str f) (save_hour f)
          total_visible current_slouch_total))
    log_exc.

(** The loop as the program runs it. *)
Definition stats_cycle : Frame -> M unit := stats_iteration SAVE_INTERVAL_SEC.

(** ** Start-up state and executions *)

(** The values [__init__] reads from the store for today. *)
Record Loaded := mkLoaded {
  ld_screen_sec : Z;
  ld_posture_sec : Z;
  ld_avg_cm : option Q;
  ld_distance_count : Z;
  ld_posture_alerts : Z;
  ld_distance_alerts : Z;
  ld_face_touch_alerts : Z
}.

Definition initial_agg (t0 : Q) (ld : Loaded) : Agg :=
  mkAgg None 0 None 0 0 0 0 0 0%Q 0 0%Q 0
        (default 0%Q (ld_avg_cm ld) * inject_Z (Z.max (ld_distance_count ld) 0))%Q
        (Z.max (ld_distance_count ld) 0)
        0 0 [] t0 None 0%Q
        (ld_screen_sec ld) (ld_posture_sec ld) (ld_avg_cm ld) (ld_distance_count ld)
        None 0 0 0.

Definition initial_bank (ld : Loaded) : AlertBank :=
  mkBank ∅ ∅ debounce_idle debounce_idle debounce_idle
         None None None None false None None false None 0%Q
         (ld_posture_alerts ld) (ld_distance_alerts ld) (ld_face_touch_alerts ld)
         0 0 0.

Definition initial_app (c : Config) (cal : Calibration) (t0 : Q) (ld : Loaded) : App :=
  mkApp c cal (initial_agg t0 ld) (initial_bank ld) None None.

Definition initial_world (c : Config) (cal : Calibration) (t0 : Q) (ld : Loaded)
    (db : option Db) : World :=
  mkWorld (initial_app c cal t0 ld) db [].

(** What can happen to the application, one atomic step at a time. *)
Inductive Event :=
| EvFrame (f : Frame)                       (* one loop iteration *)
| EvErase                                   (* confirmed panic button *)
| EvConfig (c : Config)                     (* a settings widget *)
| EvFault (n : nat)                         (* the store will fail once *)
| EvClose (t : Q) (today hour : string).    (* window closed *)

Definition arm_fault (n : nat) (w : World) : World :=
  match store w with
  | Some d => set_store (Some (mkDb (committed d) (working d) (Some n))) w
  | None => w
  end.

Definition step (save_interval : Q) (e : Event) (w : World) : World :=
  match e with
  | EvFrame f => snd (stats_iteration save_interval f w)
  | EvErase => snd (execute_data_erase w)
  | EvConfig c => set_app (set_cfg c (app w)) w
  | EvFault n => arm_fault n w
  | EvClose t today hour => snd (on_close t today hour w)
  end.

(** Closing the window ends the execution. *)
Fixpoint run (save_interval : Q) (evs : list Event) (w : World) : World :=
  match evs with
  | [] => w
  | EvClose t today hour :: _ => step save_interval (EvClose t today hour) w
  | e :: rest => run save_interval rest (step save_interval e w)
  end.

(** The clocks read along an execution never go back, and within an
    iteration [_update_posture_state] reads its clock after the loop top. *)
Fixpoint well_timed (clock : Q) (evs : list Event) : bool :=
  match evs with
  | [] => true
  | EvFrame f :: rest =>
      Qleb clock (now f) && Qleb (now f) (now_posture f)
      && well_timed (now_posture f) rest
  | EvClose t _ _ :: rest => Qleb clock t && well_timed t rest
  | _ :: rest => well_timed clock rest
  end.

(** The clock after an execution. *)
Fixpoint clock_after (clock : Q) (evs : list Event) : Q :=
  match evs with
  | [] => clock
  | EvFrame f :: rest => clock_after (now_posture f) rest
  | EvClose t _ _ :: _ => t
  | _ :: rest => clock_after clock rest
  end.

(** ** Frame handoff between the video loop and the statistics loop *)

(** [queue.Queue(maxsize)]: a bounded FIFO; [maxsize <= 0] means no bound.
    [None] stands for the [queue.Full] / [queue.Empty] exception. *)
Record Queue (A : Type) := mkQueue {
  maxsize : Z;
  items : list A
}.
Arguments mkQueue {A} _ _.
Arguments maxsize {A} _.
Arguments items {A} _.

Definition full {A} (q : Queue A) : bool :=
  (0 <? maxsize q) && (maxsize q <=? Z.of_nat (length (items q))).

Definition put_nowait {A} (x : A) (q : Queue A) : option (Queue A) :=
  if full q then None else Some (mkQueue (maxsize q) (items q ++ [x])).

Definition get_nowait {A} (q : Queue A) : option (A * Queue A) :=
  match items q with
  | [] => None
  | x :: rest => Some (x, mkQueue (maxsize q) rest)
  end.

(** [self.frame_queue = queue.Queue(maxsize=1)]; an item is a frame or the
    end-of-stream marker [None]. *)
Definition frame_queue {F : Type} : Queue (option F) := mkQueue 1 [].

(** [_video_worker], each captured frame:
    [try: put_nowait(frame.copy())  except queue.Full: pass]. *)
Definition offer_frame {F : Type} (frame : F) (q : Queue (option F))
    : Queue (option F) :=
  match put_nowait (Some frame) q with
  | Some q' => q'
  | None => q
  end.

(** [_video_worker], end of stream: on [queue.Full] the stored item is
    taken out and the marker is put again. *)
Definition offer_end {F : Type} (q : Queue (option F)) : Queue (option F) :=
  match put_nowait None q with
  | Some q' => q'
  | None =>
      let q1 := match get_nowait q with Some (_, q') => q' | None => q end in
      match put_nowait None q1 with
      | Some q' => q'
      | None => q1
      end
  end.

(** [_stats_worker]: [frame_queue.get(timeout=0.5)] once the wait is over. *)
Definition take_frame {F : Type} (q : Queue (option F))
    : option (option F) * Queue (option F) :=
  match get_nowait q with
  | Some (x, q') => (Some x, q')
  | None => (None, q)
  end.

(** ** Runs of single components

    The estimator and the alert timers fed with a stream of inputs, as the
    loop feeds them one iteration after the other. *)

(** The estimator over a stream of (eye distance, face width)
    measurements: the [distance_cm] of every iteration. *)
Fixpoint estimator_run (c : Calibration) (prev : option Q)
    (inputs : list (option Q * option Z)) : list (option Q) :=
  match inputs with
  | [] => []
  | (p, fw) :: rest =>
      let r := estimate_distance c prev p fw in
      fst r :: estimator_run c (snd r) rest
  end.

(** A sample of a condition stream: the clock and the condition. *)
Definition Sample : Type := Q * bool.



(** The duration of the visible segments of a stream of (clock, face
    detected) samples closed at [close], each segment truncated to whole
    seconds; [open] is the start of the segment in progress. *)
Fixpoint segments_seconds (open : option Q) (fs : list (Q * bool)) (close : Q) : Z :=
  match fs with
  | [] => match open with Some s => py_int (close - s) | None => 0 end
  | (t, true) :: rest =>
      segments_seconds (match open with Some s => Some s | None => Some t end) rest close
  | (t, false) :: rest =>
      match open with Some s => py_int (t - s) | None => 0 end
      + segments_seconds None rest close
  end.

(** The same without truncation. *)
Fixpoint segments_exact (open : option Q) (fs : list (Q * bool)) (close : Q) : Q :=
  match fs with
  | [] => match open with Some s => (close - s)%Q | None => 0%Q end
  | (t, true) :: rest =>
      segments_exact (match open with Some s => Some s | None => Some t end) rest close
  | (t, false) :: rest =>
      ((match open with Some s => t - s | None => 0 end)
       + segments_exact None rest close)%Q
  end.

(** The sum of a column over all keys of a table. *)
Definition column_total (m : gmap string Z) : Z :=
  map_fold (fun _ v acc => v + acc) 0 m.

(** ** Sample inputs used by the examples *)

Definition demo_config : Config :=
  mkConfig 6 (508 # 10) true true true true true
           (70 # 100) (8 # 100) (55 # 100) (122 # 100) 1.

Definition demo_calibration : Calibration :=
  mkCalibration None None None 700 (63 # 10).

(** A frame with the body turned (shoulder span 50 px against a face of
    100 px), the head low over the shoulders and a fingertip on the mouth. *)
Definition demo_hand : Hand := repeat (mkLandmark (1 # 2) (6 # 10) 0) 21.

Definition demo_turned_raw :=
  raw_posture_flags demo_config demo_calibration None
    [(300, 280, 10, 8); (340, 280, 10, 8)] None
    (mkGeometry 50 0 0)
    (Some (320, 290)) (Some (320, 290)) (Some (320, 300)%Q)
    (Some ((295, 300), (345, 300))) (Some 100)
    (Some (300, 280, 40, 20)) None (Some [demo_hand]) (Some (640, 480)).

Definition demo_turned_flags : Flags :=
  fst (compute_posture_flags demo_config demo_calibration None
         [(300, 280, 10, 8); (340, 280, 10, 8)] None
         (mkGeometry 50 0 0)
         (Some (320, 290)) (Some (320, 290)) (Some (320, 300)%Q)
         (Some ((295, 300), (345, 300))) (Some 100)
         (Some (300, 280, 40, 20)) None (Some [demo_hand]) (Some (640, 480))).

(** ** Reasoning about computations *)

(** [wp m Q E w]: run from [w], [m] returns a value and a world that
    satisfy [Q], or raises in a world that satisfies [E]. *)
Definition wp {A} (m : M A) (Q : A -> World -> Prop) (E : World -> Prop)
    (w : World) : Prop :=
  match m w with
  | (Ok a, w') => Q a w'
  | (Raised, w') => E w'
  end.

(** [frame R m]: whatever [m] does and however it ends, the world it
    leaves is related by [R] to the one it started from. *)
Definition frame {A} (R : World -> World -> Prop) (m : M A) : Prop :=
  forall w, R w (snd (m w)).

(** The fields of the aggregator that carry the visible-time and
    bad-posture-time accumulators and their watermarks. *)
Definition core (a : Agg) : option Q * Z * option Q * Z * Z * Z :=
  (visible_start a, visible_seconds a, slouch_session_start a,
   slouch_accum_seconds a, saved_visible_seconds a, saved_slouch_seconds a).

(** Two worlds agree on a projection of the application object. *)
Definition same_on {X} (p : App -> X) (w w' : World) : Prop :=
  p (app w') = p (app w).

(** [safe P m]: from a world that satisfies [P], [m] returns (it does not
    raise) in a world that satisfies [P]. *)
Definition safe {A} (P : World -> Prop) (m : M A) : Prop :=
  forall w, P w -> wp m (fun _ => P) (fun _ => False) w.

(** The store is connected and no statement is scripted to fail. *)
Definition healthy (w : World) : Prop :=
  exists d, store w = Some d /\ fault d = None.

(** A row of [distance_log] (or its absence) stands for the samples [S]
    merged into it so far: it holds their number and their mean. *)
Definition represents (row : option (option Q * option Z)) (S : list Q) : Prop :=
  match row with
  | None => S = []
  | Some (Some avg, Some n) => n = Z.of_nat (length S) /\ (avg == mean S)%Q
  | Some _ => False
  end.

(** A healthy store and an application object that satisfy [F]. *)
Definition healthy_with (F : Db -> App -> Prop) (w : World) : Prop :=
  exists d, store w = Some d /\ fault d = None /\ F d (app w).

(** The daily distance row and the pending daily buffer, with the
    estimator enabled. *)
Definition distance_pending (x : gmap string (option Q * option Z)) (ps : Q) (pc : Z)
    (d : Db) (s : App) : Prop :=
  distance_log (working d) = x
  /\ pending_distance_sum (agg s) = ps
  /\ pending_distance_count (agg s) = pc
  /\ enable_distance (cfg s) = true.

(** The daily distance table after a flush, in the open transaction and
    durably, with the pending daily buffer emptied. *)
Definition distance_merged (x : gmap string (option Q * option Z)) (d : Db) (s : App)
    : Prop :=
  distance_log (working d) = x
  /\ distance_log (committed d) = x
  /\ pending_distance_sum (agg s) = 0%Q
  /\ pending_distance_count (agg s) = 0.

(** The row written for [today] by a merge of the pending buffer. *)
Definition merged_row (x : gmap string (option Q * option Z)) (today : string)
    (ps : Q) (pc : Z) : option Q * option Z :=
  let m := merge_distance_log (x !! today) ps pc in
  (Some (snd (fst m)), Some (snd m)).

(** A world with a healthy store, the estimator enabled and the samples
    [90], [110], [100] waiting in the pending daily buffer, on a day whose
    row stands for the samples [60], [80]. *)
Definition demo_frame (t : Q) (face : bool) : Frame :=
  mkFrame t t "2026-01-01 10" "2026-01-01" "2026-01-01 10" "2026-01-01 10:00:00"
          face None None None None None None None 0 None
          [(300, 280, 10, 8); (340, 280, 10, 8)] None (Some (320, 300)%Q)
          (640, 480) (mkGeometry 0 0 0).

Definition demo_loaded : Loaded := mkLoaded 0 0 None 0 0 0 0.

Definition demo_db : Db := mkDb empty_tables empty_tables None.

Definition demo_world : World :=
  initial_world demo_config demo_calibration 100 demo_loaded (Some demo_db).

Definition demo_pending_db : Db :=
  let t := set_distance_log {[ "2026-01-01" := (Some 70%Q, Some 2) ]} empty_tables in
  mkDb t t None.

Definition demo_pending_world : World :=
  let s := app demo_world in
  mkWorld
    (set_agg (set_pending_distance_sum 300%Q (set_pending_distance_count 3 (agg s))) s)
    (Some demo_pending_db) [].

(** Executions over the sample frames: the user is in view from clock 100
    on; [demo_saved] ends with a periodic save at clock 1090,
    [demo_erased] erases after it, [demo_failed_save] makes the commit of the
    save at clock 120 fail. *)
Definition demo_saved : World :=
  run SAVE_INTERVAL_SEC
      [EvFrame (demo_frame 100 true); EvFrame (demo_frame 1090 true)] demo_world.

Definition demo_erased : World := step SAVE_INTERVAL_SEC EvErase demo_saved.

Definition demo_after_erase : World :=
  step SAVE_INTERVAL_SEC (EvFrame (demo_frame 1116 true)) demo_erased.

Definition demo_before_save : World :=
  run SAVE_INTERVAL_SEC [EvFrame (demo_frame 100 true); EvFault 4] demo_world.

Definition demo_failed_save : World :=
  step SAVE_INTERVAL_SEC (EvFrame (demo_frame 120 true)) demo_before_save.

Definition demo_failed_then_closed : World :=
  step SAVE_INTERVAL_SEC (EvClose 120 "2026-01-01" "2026-01-01 10") demo_failed_save.

(** The durable rows of [screen_time] and [screen_hourly] for the sample
    day and hour. *)
Definition durable_screen_time (w : World) : option Z :=
  match store w with
  | Some d => screen_time (committed d) !! "2026-01-01"
  | None => None
  end.

Definition durable_screen_hourly (w : World) : option Z :=
  match store w with
  | Some d => screen_hourly (committed d) !! "2026-01-01 10"
  | None => None
  end.


(** Clocks that never go back. *)
Fixpoint ascending (clock : Q) (ts : list Q) : bool :=
  match ts with
  | [] => true
  | t :: rest => Qleb clock t && ascending t rest
  end.

(** A stream on which the condition holds at every clock of [ts]. *)
Definition steady (ts : list Q) : list Sample := map (fun t => (t, true)) ts.





(** Flags with a fingertip at the mouth and nothing else. *)
Definition demo_nail_flags : Flags :=
  mkFlags false false false false false false false true false.

Definition demo_nail_first : World :=
  snd (update_posture_state 100 "2026-01-01 10:00:00" demo_nail_flags demo_world).

Definition demo_nail_second : World :=
  snd (update_posture_state 105 "2026-01-01 10:00:05" demo_nail_flags demo_nail_first).

(** ** Invariants of the aggregator *)

(** An open segment started at a positive clock that is not in the future. *)
Definition good_start (t : Q) (o : option Q) : Prop :=
  forall s, o = Some s -> (0 < s)%Q /\ (s <= t)%Q.

Definition opt_le (o : option Z) (x : Z) : Prop :=
  match o with Some v => v <= x | None => True end.

(** At clock [t] the saved watermarks are at most the accumulated totals,
    and so are the optional lower bounds [lv] and [ls] (totals computed
    earlier in an iteration). *)
Definition bounded (t : Q) (lv ls : option Z) (a : Agg) : Prop :=
  good_start t (visible_start a)
  /\ good_start t (slouch_session_start a)
  /\ saved_visible_seconds a <= total_visible_at t a
  /\ saved_slouch_seconds a <= total_slouch_at t a
  /\ opt_le lv (total_visible_at t a)
  /\ opt_le ls (total_slouch_at t a).

Definition watermarks_ok (t : Q) (a : Agg) : Prop := bounded t None None a.

(** A predicate on the application object, read on a world. *)
Definition on_app (PA : App -> Prop) (w : World) : Prop := PA (app w).

(** [preserves P m]: [P] survives [m], however [m] ends. *)
Definition preserves {A} (P : World -> Prop) (m : M A) : Prop :=
  forall w, P w -> P (snd (m w)).

(** Nothing is waiting to be flushed when the totals are [tv] and [cs]. *)
Definition quiet (tv cs : Z) (s : App) : Prop :=
  (Z.max 0 (tv - saved_visible_seconds (agg s)) >? 0) = false
  /\ (Z.max 0 (cs - saved_slouch_seconds (agg s)) >? 0) = false
  /\ (enable_distance (cfg s) && (pending_distance_count (agg s) >? 0)) = false
  /\ (pending_hour_visible_seconds (agg s) >? 0) = false
  /\ (pending_hour_slouch_seconds (agg s) >? 0) = false
  /\ (pending_hour_distance_count (agg s) >? 0) = false.

(** What the blocks of a save establish one after the other. *)
Definition q1 (tv : Z) (s : App) : Prop :=
  (Z.max 0 (tv - saved_visible_seconds (agg s)) >? 0) = false.
Definition q2 (tv cs : Z) (s : App) : Prop :=
  q1 tv s /\ (Z.max 0 (cs - saved_slouch_seconds (agg s)) >? 0) = false.
Definition q3 (tv cs : Z) (s : App) : Prop :=
  q2 tv cs s
  /\ (enable_distance (cfg s) && (pending_distance_count (agg s) >? 0)) = false.

(** The user stays in view from clock 100 to clock 1090. *)
Definition demo_events : list Event :=
  [EvFrame (demo_frame 100 true); EvFrame (demo_frame 1090 true)].

(** ** Visible time and its persisted total *)

(** The open visible segment and the closed visible seconds. *)
Definition vis (s : App) : option Q * Z :=
  (visible_start (agg s), visible_seconds (agg s)).

(** The effect of one sample (clock, face detected) on them. *)
Definition presence (t : Q) (face : bool) (x : option Q * Z) : option Q * Z :=
  if face then (match fst x with Some s => Some s | None => Some t end, snd x)
  else (None, snd x + match fst x with Some s => py_int (t - s) | None => 0 end).

(** The sum of the [screen_time] column in the open transaction is [base]
    plus the saved watermark, the visible-time accumulator is [x], the
    watermark satisfies [k], and (when [sy]) the column is committed. *)
Definition tallied (sy : bool) (base : Z) (x : option Q * Z) (k : Z -> Prop)
    (d : Db) (s : App) : Prop :=
  column_total (screen_time (working d)) = base + saved_visible_seconds (agg s)
  /\ vis s = x
  /\ k (saved_visible_seconds (agg s))
  /\ (sy = true -> screen_time (committed d) = screen_time (working d)).

(** The (clock, face detected) samples of a list of frames. *)
Definition samples_of (fs : list Frame) : list (Q * bool) :=
  map (fun f => (now f, face_detected f)) fs.

(** Frames followed by the closing of the window. *)
Definition session (fs : list Frame) (close : Q) (today hour : string) : list Event :=
  map EvFrame fs ++ [EvClose close today hour].

(** The sum of the [screen_time] column that has been committed. *)
Definition persisted_total (w : World) : option Z :=
  match store w with
  | Some d => Some (column_total (screen_time (committed d)))
  | None => None
  end.

(** In view from clock 100 to clock 101.5, then away until the window is
    closed at clock 200. *)
Definition demo_glance : list Frame :=
  [demo_frame 100 true; demo_frame (203 # 2) false].

(** ** Predicates on the effects *)

(** A predicate on the notifications and log entries made so far. *)
Definition on_effects (PE : list Effect -> Prop) (w : World) : Prop := PE (effects w).

(** The notification of the face-touch category. *)
Definition face_touch_notice : Effect :=
  Notify "Face Touch Detected" "Avoid touching your face.".

(** The face-touch counters have not moved: the session counter is zero and
    today's counter is the one read at start-up, or zero after an erase. *)
Definition face_touch_counters (loaded : Z) (s : App) : Prop :=
  session_face_touch_alerts (bank s) = 0
  /\ (today_face_touch_alerts (bank s) = loaded \/ today_face_touch_alerts (bank s) = 0).

(** ** The nail-biting category over a stream *)

(** The timers, the detected flag and the active set after a stream of
    samples, and the clocks at which a notification was sent. *)
Fixpoint nail_biting_run (ss : list Sample)
    (st : option Q * option Q * bool * gset string)
    : (option Q * option Q * bool * gset string) * list Q :=
  match ss with
  | [] => (st, [])
  | (t, c) :: rest =>
      let r := nail_biting_step t c (fst (fst (fst st))) (snd (fst (fst st))) (snd st) in
      let k := nail_biting_run rest (fst r) in
      (fst k, if snd r then t :: snd k else snd k)
  end.

(** Consecutive notifications of a category with a cooldown: each comes at
    least [d] after the start the timer had, which a notification moves
    [cool] ahead. *)
Fixpoint paced (start d cool : Q) (fires : list Q) : Prop :=
  match fires with
  | [] => True
  | f :: rest => (d <= f - start)%Q /\ paced (f + cool) d cool rest
  end.

(** The 20-20-20 reminder. *)
Definition twenty_notice : Effect :=
  Notify "20-20-20 Reminder" "Look 20ft away for 20 seconds.".

(** An aggregator with an empty session buffer and a world without a
    connection. *)
Definition demo_agg : Agg := initial_agg 100 demo_loaded.
Definition demo_offline : World :=
  initial_world demo_config demo_calibration 100 demo_loaded None.

(** An hour of pending metrics: 40 s in view, 10 s of bad posture and two
    distance samples. *)
Definition demo_hour_app : App :=
  set_agg
    (set_pending_hour_visible_seconds 40
       (set_pending_hour_slouch_seconds 10
          (set_pending_hour_distance_sum 130
             (set_pending_hour_distance_count 2 demo_agg))))
    (initial_app demo_config demo_calibration 100 demo_loaded).

(** ** Face and mouth boxes ([_video_worker], [_stats_worker]) *)

(** [clamp(v, a, b)] *)
Definition clamp (v a b : Z) : Z := Z.max a (Z.min b v).

(** [min(...)] and [max(...)] of a non-empty sequence. *)
Definition list_min (x : Z) (xs : list Z) : Z := fold_left Z.min xs x.
Definition list_max (x : Z) (xs : list Z) : Z := fold_left Z.max xs x.

(** [(int(p.x * img_w), int(p.y * img_h))] *)
Definition landmark_px (img_w img_h : Z) (p : Q * Q) : Point :=
  (py_int (fst p * inject_Z img_w), py_int (snd p * inject_Z img_h)).

(** The face width and the padded face box computed from the face
    landmarks; [None] without landmarks. *)
Definition face_extent (lm : list (Q * Q)) (img_w img_h : Z) : option (Z * Box) :=
  match map (landmark_px img_w img_h) lm with
  | [] => None
  | p :: r =>
      let xs_min := list_min (fst p) (map fst r) in
      let xs_max := list_max (fst p) (map fst r) in
      let ys_min := list_min (snd p) (map snd r) in
      let ys_max := list_max (snd p) (map snd r) in
      let face_width := xs_max - xs_min in
      let min_x := Z.max 0 xs_min in
      let max_x := Z.min img_w xs_max in
      let min_y := Z.max 0 ys_min in
      let max_y := Z.min img_h ys_max in
      let pad_x := py_int ((4 # 100) * inject_Z (max_x - min_x) + 1) in
      let pad_y := py_int ((6 # 100) * inject_Z (max_y - min_y) + 1) in
      let fx := clamp (min_x - pad_x) 0 (img_w - 1) in
      let fy := clamp (min_y - pad_y) 0 (img_h - 1) in
      let fw := clamp (max_x + pad_x) 0 img_w - fx in
      let fh := clamp (max_y + pad_y) 0 img_h - fy in
      Some (face_width, (fx, fy, fw, fh))
  end.

Definition MOUTH_IDX : list nat := [13; 14; 78; 308; 311; 312]%nat.

(** The mouth landmarks that exist, in pixels. *)
Definition mouth_points (lm : list (Q * Q)) (img_w img_h : Z) : list Point :=
  map (landmark_px img_w img_h) (omap (fun i => lm !! i) MOUTH_IDX).

(** The mouth box: the extent of the mouth landmarks with a pad of 10. *)
Definition mouth_extent (lm : list (Q * Q)) (img_w img_h : Z) : option Box :=
  match mouth_points lm img_w img_h with
  | [] => None
  | p :: r =>
      let min_x := list_min (fst p) (map fst r) in
      let max_x := list_max (fst p) (map fst r) in
      let min_y := list_min (snd p) (map snd r) in
      let max_y := list_max (snd p) (map snd r) in
      let mw := max_x - min_x in
      let mh := max_y - min_y in
      let pad := 10 in
      Some (min_x - pad, min_y - pad, mw + 2 * pad, mh + 2 * pad)
  end.

(** A face spread over the middle of a 640 x 480 image. *)
Definition demo_landmarks : list (Q * Q) :=
  [(4 # 10, 3 # 10); (6 # 10, 3 # 10); (5 # 10, 7 # 10)]%Q.

(** ** Pinned graphs *)

Definition MAX_PINNED_GRAPHS : nat := 3.

(** [list(dict.fromkeys(l))]: the first occurrence of every name, in
    order; [seen] holds the names met so far. *)
Fixpoint fromkeys (seen l : list string) : list string :=
  match l with
  | [] => []
  | x :: r =>
      if bool_decide (x ∈ seen) then fromkeys seen r
      else x :: fromkeys (x :: seen) r
  end.

(** [__init__]: [list(dict.fromkeys(self.pinned_graphs))[:MAX_PINNED_GRAPHS]] *)
Definition init_pinned (configured : list string) : list string :=
  take MAX_PINNED_GRAPHS (fromkeys [] configured).

(** [list.remove(name)]: the first occurrence goes. *)
Fixpoint list_remove (name : string) (l : list string) : list string :=
  match l with
  | [] => []
  | x :: r => if bool_decide (x = name) then r else x :: list_remove name r
  end.

(** [_pin_graph(name)] and [_unpin_graph(name)], on [self.pinned_graphs]. *)
Definition pin_graph (name : string) (l : list string) : list string :=
  if bool_decide (name ∈ l) then l
  else if (MAX_PINNED_GRAPHS <=? length l)%nat then l
  else l ++ [name].

Definition unpin_graph (name : string) (l : list string) : list string :=
  if bool_decide (name ∈ l) then list_remove name l else l.

(** ** Calendar month navigation ([_change_calendar_month]) *)

(** [while new_month < 1: new_month += 12; new_year -= 1], at most [fuel]
    turns. *)
Fixpoint month_up (fuel : nat) (month year : Z) : Z * Z :=
  if month <? 1 then
    match fuel with
    | O => (month, year)
    | S k => month_up k (month + 12) (year - 1)
    end
  else (month, year).

(** [while new_month > 12: new_month -= 12; new_year += 1] *)
Fixpoint month_down (fuel : nat) (month year : Z) : Z * Z :=
  if month >? 12 then
    match fuel with
    | O => (month, year)
    | S k => month_down k (month - 12) (year + 1)
    end
  else (month, year).

(** The new [calendar_month] and [calendar_year]; nothing changes while
    one of them is unset.  The loops get more turns than they can use. *)
Definition change_calendar_month (delta : Z) (cal : option Z * option Z)
    : option Z * option Z :=
  match cal with
  | (Some month, Some year) =>
      let new_month := month + delta in
      let r1 := month_up (Z.to_nat (1 - new_month)) new_month year in
      let r2 := month_down (Z.to_nat (fst r1)) (fst r1) (snd r1) in
      (Some (fst r2), Some (snd r2))
  | _ => cal
  end.

(** ** Chart smoothing ([_smooth_line]) *)

(** [np.convolve(arr, [0.25, 0.5, 0.25], mode="same")]: every value with
    its two neighbours, a missing neighbour counting as 0; [prev] is the
    value before the list. *)
Fixpoint convolve_same (prev : Q) (l : list Q) : list Q :=
  match l with
  | [] => []
  | x :: rest =>
      ((25 # 100) * prev + (5 # 10) * x + (25 # 100) * hd 0 rest)%Q
      :: convolve_same x rest
  end.

(** [_smooth_line(values)]: short series are returned as they are; the
    two ends are replaced by the mean of the end value and its neighbour. *)
Definition smooth_line (values : list Q) : list Q :=
  let n := length values in
  if (n <? 3)%nat then values
  else
    let smoothed := convolve_same 0 values in
    let smoothed := <[0%nat := ((nth 0 values 0 + nth 1 values 0) / 2)%Q]> smoothed in
    <[(n - 1)%nat := ((nth (n - 1) values 0 + nth (n - 2) values 0) / 2)%Q]> smoothed.

(** ** Period aggregates ([_aggregate_screen_time] and its siblings)

    The two dates reach the store as their ISO strings, which the store
    compares byte by byte. *)

(** [date BETWEEN lo AND hi] *)
Definition between_dates (lo hi k : string) : bool :=
  String.leb lo k && String.leb k hi.

(** The rows whose date lies in the range. *)
Definition rows_between {V} (m : gmap string V) (lo hi : string) : gmap string V :=
  filter (fun kv => between_dates lo hi (fst kv) = true) m.

(** [SELECT SUM(col) ... WHERE date BETWEEN ? AND ?]: NULL without rows. *)
Definition sum_between (m : gmap string Z) (lo hi : string) : option Z :=
  let rows := rows_between m lo hi in
  if decide (rows = ∅) then None else Some (column_total rows).

(** [res if res else 0] *)
Definition or_zero (res : option Z) : Z :=
  match res with
  | Some v => if truthyZ v then v else 0
  | None => 0
  end.

Definition aggregate_screen_time (start_iso end_iso : string) : M Z :=
  try_except
    (c <- has_cursor ;;
     if c then
       res <- query (fun t => sum_between (screen_time t) start_iso end_iso) ;;
       ret (or_zero res)
     else ret 0)
    (log_exc ;;; ret 0).

Definition aggregate_posture_time (start_iso end_iso : string) : M Z :=
  try_except
    (c <- has_cursor ;;
     if c then
       res <- query (fun t => sum_between (posture_time t) start_iso end_iso) ;;
       ret (or_zero res)
     else ret 0)
    (log_exc ;;; ret 0).

(** The loop over the fetched rows of [distance_log]. *)
Definition distance_sum_count (rows : gmap string (option Q * option Z)) : Q * Z :=
  map_fold
    (fun _ row acc =>
       let avg_val := default 0%Q (fst row) in
       let cnt_val := default 0 (snd row) in
       ((fst acc + avg_val * inject_Z cnt_val)%Q, snd acc + cnt_val))
    (0%Q, 0) rows.

Definition aggregate_distance_sum_count (start_iso end_iso : string) : M (Q * Z) :=
  try_except
    (c <- has_cursor ;;
     if c then
       rows <- query (fun t => rows_between (distance_log t) start_iso end_iso) ;;
       ret (distance_sum_count rows)
     else ret (0%Q, 0))
    (log_exc ;;; ret (0%Q, 0)).

Definition aggregate_avg_distance (start_iso end_iso : string) : M (option Q) :=
  try_except
    (r <- aggregate_distance_sum_count start_iso end_iso ;;
     ret (if snd r >? 0 then Some (fst r / inject_Z (snd r))%Q else None))
    (log_exc ;;; ret None).

(** A store holding 990 s of screen time for 2026-01-01. *)
Definition demo_day_tables : Tables :=
  set_screen_time {[ "2026-01-01" := 990 ]} empty_tables.

(** ** Card calibration ([_run_card_calibration], [confirm]) *)

Definition REAL_CARD_WIDTH_CM : Q := (856 # 100)%Q.
Definition ASSUMED_CALIB_DISTANCE_CM : Q := 70%Q.

(** The loop over the bounding rectangles of the contours: the widest
    rectangle that is wider than high and wider than 8 pixels. *)
Definition best_card_width (rects : list Box) : Z :=
  fold_left
    (fun best_w rect =>
       let '(_, _, w, h) := rect in
       if (w >? best_w) && (w >? h) && (w >? 8) then w else best_w)
    rects 0.

(** What [confirm] writes into the calibration dictionary, with the card
    width in camera pixels; [None] stands for the three ways out that
    leave the dictionary alone (no contour, no clear width, an
    exception). *)
Definition card_calibration (pw : Z) (rects : list Box) (cal : Calibration)
    : option (Calibration * Q) :=
  match rects with
  | [] => None
  | _ :: _ =>
      let best_w := best_card_width rects in
      if best_w <=? 0 then None
      else if pw =? 0 then None
      else
        let scale := (640 / inject_Z pw)%Q in
        let pixel_card_cam := (inject_Z best_w * scale)%Q in
        let focal := (pixel_card_cam * ASSUMED_CALIB_DISTANCE_CM / REAL_CARD_WIDTH_CM)%Q in
        Some (mkCalibration (Some focal)
                (Some (default (63 # 10)%Q (calib_real_ipd_cm cal)))
                (calib_neutral cal) (focal_length cal) (real_ipd_cm cal),
              pixel_card_cam)
  end.

(** Contours seen in the calibration box: noise, a tall edge and the card. *)
Definition demo_contours : list Box :=
  [(3, 4, 5, 2); (10, 2, 20, 40); (6, 12, 45, 28)].

(** ** Calendar dates and the period ranges ([_compute_period_ranges])

    [datetime.date] with the arithmetic the function uses: [replace],
    which checks the fields, adding and subtracting a [timedelta] of whole
    days, which raises outside years 1 to 9999, and [weekday], Monday
    being 0.  A [None] stands for the exception the library raises. *)

Record Date := mkDate { d_year : Z; d_month : Z; d_day : Z }.

Definition is_leap (y : Z) : bool :=
  (y mod 4 =? 0) && (negb (y mod 100 =? 0) || (y mod 400 =? 0)).

Definition days_in_month (y m : Z) : Z :=
  if m =? 2 then (if is_leap y then 29 else 28)
  else if (m =? 4) || (m =? 6) || (m =? 9) || (m =? 11) then 30
  else 31.

Definition days_before_year (y : Z) : Z :=
  let y1 := y - 1 in y1 * 365 + y1 / 4 - y1 / 100 + y1 / 400.

Definition DAYS_BEFORE_MONTH : list Z :=
  [0; 0; 31; 59; 90; 120; 151; 181; 212; 243; 273; 304; 334].

Definition days_before_month (y m : Z) : Z :=
  nth (Z.to_nat m) DAYS_BEFORE_MONTH 0
  + (if (2 <? m) && is_leap y then 1 else 0).

Definition toordinal (d : Date) : Z :=
  days_before_year (d_year d) + days_before_month (d_year d) (d_month d) + d_day d.

Definition weekday (d : Date) : Z := (toordinal d + 6) mod 7.

Definition check_date_fields (y m d : Z) : bool :=
  (1 <=? y) && (y <=? 9999) && (1 <=? m) && (m <=? 12)
  && (1 <=? d) && (d <=? days_in_month y m).

Definition valid_date (d : Date) : Prop :=
  check_date_fields (d_year d) (d_month d) (d_day d) = true.

Definition mk_date (y m d : Z) : option Date :=
  if check_date_fields y m d then Some (mkDate y m d) else None.

(** [d.replace(day=...)] and [d.replace(month=..., day=...)]. *)
Definition replace_day (d : Date) (day : Z) : option Date :=
  mk_date (d_year d) (d_month d) day.
Definition replace_month_day (d : Date) (month day : Z) : option Date :=
  mk_date (d_year d) month day.

Definition next_day (d : Date) : Date :=
  if d_day d <? days_in_month (d_year d) (d_month d)
  then mkDate (d_year d) (d_month d) (d_day d + 1)
  else if d_month d <? 12 then mkDate (d_year d) (d_month d + 1) 1
  else mkDate (d_year d + 1) 1 1.

Definition prev_day (d : Date) : Date :=
  if 1 <? d_day d then mkDate (d_year d) (d_month d) (d_day d - 1)
  else if 1 <? d_month d
       then mkDate (d_year d) (d_month d - 1)
                   (days_in_month (d_year d) (d_month d - 1))
  else mkDate (d_year d - 1) 12 31.

Definition shift_days (k : Z) (d : Date) : Date :=
  if 0 <=? k then Nat.iter (Z.to_nat k) next_day d
  else Nat.iter (Z.to_nat (- k)) prev_day d.

(** [d + timedelta(days=k)]; [d - timedelta(days=k)] is [add_days (- k) d]. *)
Definition add_days (k : Z) (d : Date) : option Date :=
  let r := shift_days k d in
  if (1 <=? d_year r) && (d_year r <=? 9999) then Some r else None.

Definition of_date {A} (o : option A) : M A :=
  fun w => match o with
           | Some a => (Ok a, w)
           | None => (Raised, w)
           end.

(** [today] and [today'] are the two readings of [date.today()], in the
    body and in the handler; [current_view_start] is the attribute. *)
Definition compute_period_ranges (period : string) (use_view_start : bool)
    (current_view_start : option Date) (today today' : Date)
    : M (Date * Date * Date * Date) :=
  try_except
    (let view := if use_view_start then current_view_start else None in
     let reference := default today view in
     if String.eqb period "Day" then
       prev_start <- of_date (add_days (-1) reference) ;;
       ret (reference, reference, prev_start, prev_start)
     else if String.eqb period "Week" then
       curr_start <- match view with
                     | Some v => ret v
                     | None => of_date (add_days (- weekday reference) reference)
                     end ;;
       curr_end <- of_date (add_days 6 curr_start) ;;
       prev_end <- of_date (add_days (-1) curr_start) ;;
       prev_start <- of_date (add_days (-6) prev_end) ;;
       ret (curr_start, curr_end, prev_start, prev_end)
     else if String.eqb period "Month" then
       let ref_month := match view with Some v => v | None => reference end in
       curr_start <- of_date (replace_day ref_month 1) ;;
       d28 <- of_date (replace_day curr_start 28) ;;
       d32 <- of_date (add_days 4 d28) ;;
       next_month <- of_date (replace_day d32 1) ;;
       curr_end <- of_date (add_days (-1) next_month) ;;
       prev_end <- of_date (add_days (-1) curr_start) ;;
       prev_start <- of_date (replace_day prev_end 1) ;;
       ret (curr_start, curr_end, prev_start, prev_end)
     else if String.eqb period "Year" then
       let ref_year := match view with Some v => v | None => reference end in
       curr_start <- of_date (replace_month_day ref_year 1 1) ;;
       curr_end <- of_date (replace_month_day curr_start 12 31) ;;
       prev_end <- of_date (add_days (-1) curr_start) ;;
       prev_start <- of_date (replace_month_day prev_end 1 1) ;;
       ret (curr_start, curr_end, prev_start, prev_end)
     else
       prev_start <- of_date (add_days (-1) reference) ;;
       ret (reference, reference, prev_start, prev_start))
    (log_exc ;;;
     prev <- of_date (add_days (-1) today') ;;
     ret (today', today', prev, prev)).

(** The date the ranges are computed for. *)
Definition reference_date (use_view_start : bool)
    (current_view_start : option Date) (today : Date) : Date :=
  default today (if use_view_start then current_view_start else None).

(** A month and a day that exist, whatever the year. *)
Definition calendar_date (d : Date) : Prop :=
  1 <= d_month d <= 12 /\ 1 <= d_day d <= days_in_month (d_year d) (d_month d).

(** The first day of the month after month [m] of year [y]. *)
Definition next_month_first (y m : Z) : Date :=
  if m <? 12 then mkDate y (m + 1) 1 else mkDate (y + 1) 1 1.

Definition demo_today : Date := mkDate 2024 3 14.

(** ** The height of the video row ([_apply_video_height_constraints])

    The attributes the function reads and writes, the heights Tk reports
    for the window, the main frame and the toolbar ([None] while the
    toolbar does not exist), and whether [self.main] exists yet. *)

Definition DASHBOARD_MIN_HEIGHT : Z := 260.
Definition DASHBOARD_WINDOW_RATIO : Q := (1 # 3)%Q.
Definition TOP_MAX_HEIGHT_RATIO : Q := (66 # 100)%Q.

Record Layout := mkLayout {
  layout_resize_active : bool;
  last_video_layout_height : option Z;
  last_dashboard_height : option Z
}.

(** The arithmetic between the guards and the widget updates: the final
    video height, the dashboard height and the window height they were
    computed for. *)
Definition video_layout (requested_height window_height main_height toolbar_height : Z)
    : Z * Z * Z :=
  let requested_height := Z.max 120 requested_height in
  let window_height :=
    if window_height <=? 1
    then Z.max main_height (requested_height + DASHBOARD_MIN_HEIGHT + toolbar_height + 120)
    else window_height in
  let min_total := toolbar_height + requested_height + DASHBOARD_MIN_HEIGHT in
  let window_height := if window_height <? min_total then min_total else window_height in
  let dashboard_target :=
    Z.max DASHBOARD_MIN_HEIGHT (py_int (inject_Z window_height * DASHBOARD_WINDOW_RATIO)) in
  let max_dashboard := Z.max (window_height - toolbar_height - 120) DASHBOARD_MIN_HEIGHT in
  let dashboard_height := Z.min dashboard_target max_dashboard in
  let available_for_top := Z.max (window_height - toolbar_height - dashboard_height) 120 in
  let max_top_height := py_int (inject_Z window_height * TOP_MAX_HEIGHT_RATIO) in
  let max_top_height := if max_top_height <=? 0 then available_for_top else max_top_height in
  let final_height := Z.min (Z.min requested_height max_top_height) available_for_top in
  let final_height := Z.max 120 final_height in
  (final_height, dashboard_height, window_height).

Definition apply_video_height_constraints (requested_height : Z) (has_main : bool)
    (window_height main_height : Z) (toolbar : option Z) (l : Layout) : Z * Layout :=
  if layout_resize_active l then
    (match last_video_layout_height l with
     | Some fallback => fallback
     | None => Z.max 120 requested_height
     end, l)
  else if negb has_main then (Z.max 120 requested_height, l)
  else
    let '(final_height, dashboard_height, _) :=
      video_layout requested_height window_height main_height (default 0 toolbar) in
    (final_height,
     mkLayout false (Some final_height) (Some dashboard_height)).

(** [__init__]: no layout has been applied. *)
Definition init_layout : Layout := mkLayout false None None.

(** ** The hourly visible seconds

    What the [screen_hourly] table (in the open transaction) and the
    hourly buffer hold together. *)
Definition hourly_visible (d : Db) (s : App) : Z :=
  column_total (screen_hourly (working d)) + pending_hour_visible_seconds (agg s).

(** They hold [n] seconds and the total seen by the previous iteration
    is [p]. *)
Definition hour_tallied (n p : Z) (d : Db) (s : App) : Prop :=
  hourly_visible d s = n /\ _prev_total_visible (agg s) = p.

(** The hourly seconds of a world, 0 without a connection. *)
Definition hourly_visible_of (w : World) : Z :=
  match store w with
  | Some d => hourly_visible d (app w)
  | None => 0
  end.

(** ** Further sample inputs *)

(** The eye measurement gives no estimate: there is none, it is at most
    2 px, or the calibration lacks the reference length or the focal
    length. *)
Definition no_eye_estimate (c : Calibration) (p : option Q) : Prop :=
  forall x, p = Some x ->
            (x <= 2)%Q \/ (calib_get_real_ipd c == 0)%Q \/ (calib_get_focal c == 0)%Q.

(** The clock read by the third iteration is behind that of the second,
    which saved. *)
Definition demo_clock_back : list Event :=
  [EvFrame (demo_frame 100 true); EvFrame (demo_frame 120 true);
   EvFrame (demo_frame 110 true)].

(** A frame that shows the user with the body turned away. *)
Definition demo_turned_frame (t : Q) : Frame :=
  mkFrame t t "2026-01-01 10" "2026-01-01" "2026-01-01 10" "2026-01-01 10:00:00"
          true (Some (320, 290)) (Some 100) (Some (320, 300)%Q)
          (Some ((295, 300), (345, 300))) (Some (300, 280, 40, 20)) None None 0 None
          [(300, 280, 10, 8); (340, 280, 10, 8)] None (Some (320, 300)%Q)
          (640, 480) (mkGeometry 50 0 0).

(** The user is seen turned away at clock 100, no face is seen at clocks
    200 and 250 ([demo_away]), and the user is seen turned away again at
    clock 300 ([demo_back]). *)
Definition demo_away : World :=
  run SAVE_INTERVAL_SEC
      [EvFrame (demo_turned_frame 100); EvFrame (demo_frame 200 false);
       EvFrame (demo_frame 250 false)] demo_world.

Definition demo_back : World :=
  step SAVE_INTERVAL_SEC (EvFrame (demo_turned_frame 300)) demo_away.

(** Fifteen landmarks, of which the last two are mouth landmarks. *)
Definition demo_mouth_landmarks : list (Q * Q) :=
  (repeat (5 # 10, 5 # 10) 14 ++ [(6 # 10, 7 # 10)])%Q.

(** The application after a first frame that shows the user, at clock
    100: a visible segment is open and nothing is saved. *)
Definition demo_in_view : App :=
  app (step SAVE_INTERVAL_SEC (EvFrame (demo_frame 100 true)) demo_world).

(* ================================================================== *)
(** * Properties *)

(** ** Arithmetic of the embedding *)

Lemma Qleb_iff (a b : Q) : Qleb a b = true <-> (a <= b)%Q.
Proof. apply Qle_bool_iff. Qed.

Lemma Qgeb_iff (a b : Q) : Qgeb a b = true <-> (b <= a)%Q.
Proof. apply Qle_bool_iff. Qed.

Lemma Qgtb_iff (a b : Q) : Qgtb a b = true <-> (b < a)%Q.
Proof.
  unfold Qgtb. rewrite negb_true_iff, <- not_true_iff_false, Qle_bool_iff.
  split; [apply Qnot_le_lt | apply Qlt_not_le].
Qed.

Lemma Qltb_iff (a b : Q) : Qltb a b = true <-> (a < b)%Q.
Proof. apply (Qgtb_iff b a). Qed.

Lemma Qgtb_false_iff (a b : Q) : Qgtb a b = false <-> (a <= b)%Q.
Proof. unfold Qgtb. rewrite negb_false_iff. apply Qle_bool_iff. Qed.

Lemma Qgeb_false_iff (a b : Q) : Qgeb a b = false <-> (a < b)%Q.
Proof.
  unfold Qgeb. rewrite <- not_true_iff_false, Qle_bool_iff.
  split; [apply Qnot_le_lt | apply Qlt_not_le].
Qed.

Lemma truthyQ_pos (q : Q) : (0 < q)%Q -> truthyQ q = true.
Proof.
  intros H. unfold truthyQ. rewrite negb_true_iff, <- not_true_iff_false, Qeq_bool_iff.
  intros E. rewrite E in H. exact (Qlt_irrefl _ H).
Qed.

Lemma truthyQ_iff (q : Q) : truthyQ q = true <-> ~ (q == 0)%Q.
Proof.
  unfold truthyQ. rewrite negb_true_iff, <- not_true_iff_false, Qeq_bool_iff. tauto.
Qed.

(** Truncation keeps the sign and the order. *)
Lemma py_int_nonneg (q : Q) : (0 <= q)%Q -> 0 <= py_int q.
Proof.
  destruct q as [n d]. unfold Qle, py_int. simpl. intros H.
  apply Z.quot_pos; lia.
Qed.

Lemma py_int_mono (a b : Q) : (a <= b)%Q -> py_int a <= py_int b.
Proof.
  destruct a as [n1 d1], b as [n2 d2]. unfold Qle, py_int. simpl. intros H.
  rewrite <- (Z.quot_mul_cancel_r n1 (Z.pos d1) (Z.pos d2)) by lia.
  rewrite <- (Z.quot_mul_cancel_r n2 (Z.pos d2) (Z.pos d1)) by lia.
  rewrite (Z.mul_comm (Z.pos d2) (Z.pos d1)).
  apply Z.quot_le_mono; lia.
Qed.

Lemma gtb_true (x y : Z) : y < x -> (x >? y) = true.
Proof. intros H. apply Z.gtb_lt. exact H. Qed.

Lemma gtb_false (x y : Z) : x <= y -> (x >? y) = false.
Proof. intros H. rewrite Z.gtb_ltb. apply Z.ltb_ge. exact H. Qed.

Lemma py_int_inject (z : Z) : py_int (inject_Z z) = z.
Proof. unfold py_int. simpl. apply Z.quot_1_r. Qed.

(** ** Frame handoff *)

(** The queue created by the application holds at most one item, and an
    offer never makes it longer than that. *)
Lemma offer_frame_single_slot {F : Type} (f : F) (q : Queue (option F)) :
  maxsize q = 1 -> (length (items q) <= 1)%nat ->
  maxsize (offer_frame f q) = 1 /\ (length (items (offer_frame f q)) <= 1)%nat.
Proof.
  intros Hm Hl. unfold offer_frame, put_nowait, full. rewrite Hm.
  destruct (items q) as [|x [|y r]] eqn:E; simpl in *; try lia;
    rewrite ?E; simpl; auto.
Qed.

(** C9, as the claim states it, fails: a frame offered to a full slot does
    not replace the stored one. *)
Lemma C9_counterexample :
  let q := offer_frame 1%nat (@frame_queue nat) in
  full q = true /\ items (offer_frame 2%nat q) <> [Some 2%nat].
Proof. split; [reflexivity | discriminate]. Qed.

(** C9 (amended): the handoff is a single slot; an offer into the empty
    slot stores the frame; an offer into the full slot returns at once,
    drops the new frame and keeps the stored one; only the end-of-stream
    marker replaces a stored item; the consumer empties the slot. *)
Theorem C9_single_slot_keeps_stored_frame {F : Type} (f : F) (q : Queue (option F)) :
  maxsize q = 1 -> (length (items q) <= 1)%nat ->
  (length (items (offer_frame f q)) <= 1)%nat
  /\ (items q = [] -> items (offer_frame f q) = [Some f])
  /\ (forall x, items q = [x] ->
        full q = true
        /\ put_nowait (Some f) q = None
        /\ offer_frame f q = q
        /\ items (offer_end q) = [None]
        /\ take_frame q = (Some x, mkQueue 1 [])).
Proof.
  intros Hm Hl. split; [apply offer_frame_single_slot; assumption|].
  destruct q as [m its]. simpl in *. subst m. split.
  - intros ->. reflexivity.
  - intros x ->. repeat split.
Qed.

Lemma C9_single_slot_witness :
  items (offer_frame 7%nat (mkQueue 1 [Some 3%nat])) = [Some 3%nat]
  /\ items (offer_frame 7%nat (mkQueue 1 ([] : list (option nat)))) = [Some 7%nat].
Proof.
  pose proof (C9_single_slot_keeps_stored_frame 7%nat (mkQueue 1 [Some 3%nat])
                eq_refl (le_n 1)) as [_ [_ H1]].
  pose proof (C9_single_slot_keeps_stored_frame 7%nat (mkQueue 1 ([] : list (option nat)))
                eq_refl (le_S _ _ (le_n 0))) as [_ [H2 _]].
  destruct (H1 (Some 3%nat) eq_refl) as [_ [_ [H3 _]]].
  split; [rewrite H3; reflexivity | apply H2; reflexivity].
Defined.

(** ** Distance estimator *)

Lemma smooth_fixed (d s : Q) : (s == d)%Q -> (smooth (Some s) d == d)%Q.
Proof. intros E. unfold smooth, BETA. rewrite E. ring. Qed.

(** The filter closes 60% of the gap to the new sample at every step. *)
Lemma smooth_gap (d s : Q) : (smooth (Some s) d - d == (4 # 10) * (s - d))%Q.
Proof. unfold smooth, BETA. ring. Qed.

Lemma estimate_fallback (c : Calibration) (prev : option Q) (p : option Q) (fw : Z) :
  8 < fw -> no_eye_estimate c p ->
  estimate_distance c prev p (Some fw)
  = (Some (smooth prev (raw_face_distance c fw)),
     Some (smooth prev (raw_face_distance c fw))).
Proof.
  intros H Hp. unfold estimate_distance.
  assert (E8 : (fw >? 8) = true) by lia.
  destruct p as [x|]; [|cbn; rewrite E8; reflexivity].
  destruct (truthyQ x && Qgtb x 2) eqn:E1; [|cbn; rewrite E8; reflexivity].
  apply andb_true_iff in E1 as [_ E1]. apply Qgtb_iff in E1.
  destruct (truthyQ (calib_get_real_ipd c) && truthyQ (calib_get_focal c)) eqn:E2;
    [|cbn; rewrite E8; reflexivity].
  apply andb_true_iff in E2 as [E2 E3].
  apply truthyQ_iff in E2. apply truthyQ_iff in E3.
  destruct (Hp x eq_refl) as [L|[L|L]];
    [exfalso; exact (Qlt_not_le _ _ E1 L) | contradiction | contradiction].
Qed.

(** With a constant face width and no usable eye measurement the output
    after [k] further iterations differs from the raw estimate by
    [0.4^(k+1)] times the initial gap. *)
Lemma estimator_run_fallback (c : Calibration) (fw : Z) (ps : list (option Q)) :
  8 < fw -> Forall (no_eye_estimate c) ps ->
  forall (s : Q) (k : nat) (o : option Q),
    nth_error (estimator_run c (Some s) (map (fun p => (p, Some fw)) ps)) k = Some o ->
    exists d, o = Some d
      /\ (d - raw_face_distance c fw
          == (4 # 10) ^ Z.of_nat (S k) * (s - raw_face_distance c fw))%Q.
Proof.
  intros Hfw Hps. induction Hps as [|p ps Hp Hps IH]; intros s k o Hnth.
  - destruct k; discriminate.
  - cbn [map estimator_run] in Hnth.
    rewrite (estimate_fallback c (Some s) p fw Hfw Hp) in Hnth. cbn [fst snd] in Hnth.
    destruct k as [|k]; cbn [nth_error] in Hnth.
    + injection Hnth as <-. eexists; split; [reflexivity|].
      cbv [smooth BETA]. change ((4 # 10) ^ Z.of_nat 1)%Q with (4 # 10)%Q. ring.
    + destruct (IH _ k o Hnth) as [d [-> Hd]].
      exists d; split; [reflexivity|].
      rewrite Hd, smooth_gap.
      replace (Z.of_nat (S (S k))) with (Z.of_nat (S k) + 1) by lia.
      rewrite Qpower_plus by discriminate. change ((4 # 10) ^ 1)%Q with (4 # 10)%Q. ring.
Qed.

(** C6: with a calibration whose reference length and focal length are
    set (non-zero), an eye measurement above 2 px gives the raw estimate
    [real_ipd_cm * focal_length / p]; whenever the eye measurement gives no
    estimate (there is none, it is at most 2 px, or the calibration lacks
    the reference or the focal length) a face width above 8 px gives
    [14 * focal_length / face_width_px]; the output is
    [0.6 * new + (1 - 0.6) * previous], the first sample seeding the
    filter.  With a face width of 100 px and a focal length of 700 the raw
    estimate is 98 cm, 98 cm is a fixed point of the filter, and on every
    stream of iterations whose eye measurements give no estimate the output
    is 98 cm from the first iteration on. *)
Theorem C6_distance_estimate (c : Calibration) (prev : option Q) :
  (forall (p : Q) (fw : option Z),
      (2 < p)%Q ->
      ~ (calib_get_real_ipd c == 0)%Q -> ~ (calib_get_focal c == 0)%Q ->
      let raw := (calib_get_real_ipd c * calib_get_focal c / p)%Q in
      estimate_distance c prev (Some p) fw
      = (Some (smooth prev raw), Some (smooth prev raw)))
  /\ (forall (p : option Q) (fw : Z),
      8 < fw -> no_eye_estimate c p ->
      let raw := (14 * calib_get_focal c / inject_Z fw)%Q in
      estimate_distance c prev p (Some fw)
      = (Some (smooth prev raw), Some (smooth prev raw)))
  /\ (forall d : Q, smooth None d = d)
  /\ (forall d s : Q, smooth (Some s) d = ((6 # 10) * d + (1 - (6 # 10)) * s)%Q)
  /\ ((calib_get_focal c == 700)%Q ->
      (raw_face_distance c 100 == 98)%Q
      /\ (forall s : Q, (s == 98)%Q -> (smooth (Some s) (raw_face_distance c 100) == 98)%Q)
      /\ (forall (ps : list (option Q)) (k : nat) (o : option Q),
            Forall (no_eye_estimate c) ps ->
            nth_error (estimator_run c None (map (fun p => (p, Some 100)) ps)) k = Some o ->
            exists d, o = Some d /\ (d == 98)%Q)).
Proof.
  split; [|split; [|split; [|split]]].
  - intros p fw Hp Hr Hf raw. unfold estimate_distance.
    assert (Tp : truthyQ p = true).
    { apply truthyQ_pos. apply Qlt_trans with 2%Q; [reflexivity | exact Hp]. }
    assert (Gp : Qgtb p 2 = true) by (apply Qgtb_iff; exact Hp).
    rewrite Tp, Gp. simpl.
    rewrite (proj2 (truthyQ_iff _) Hr), (proj2 (truthyQ_iff _) Hf). reflexivity.
  - intros p fw Hfw Hp raw. apply estimate_fallback; assumption.
  - reflexivity.
  - reflexivity.
  - intros Hfocal.
    assert (Hraw : (raw_face_distance c 100 == 98)%Q).
    { unfold raw_face_distance, AVG_FACE_CM. rewrite Hfocal. reflexivity. }
    split; [exact Hraw|]. split.
    + intros s Hs. rewrite smooth_fixed; [exact Hraw|]. rewrite Hs, Hraw. reflexivity.
    + intros ps k o Hps Hnth. destruct Hps as [|p ps Hp Hps]; [destruct k; discriminate|].
      cbn [map estimator_run] in Hnth.
      rewrite (estimate_fallback c None p 100 ltac:(lia) Hp) in Hnth.
      cbn [fst snd smooth] in Hnth. destruct k as [|k]; cbn [nth_error] in Hnth.
      * injection Hnth as <-. eexists; split; [reflexivity | exact Hraw].
      * destruct (estimator_run_fallback c 100 ps ltac:(lia) Hps _ k o Hnth)
          as [d [-> Hd]].
        exists d; split; [reflexivity|].
        assert (E : (d == raw_face_distance c 100)%Q).
        { assert (E0 : (d - raw_face_distance c 100 == 0)%Q) by (rewrite Hd; ring).
          transitivity ((d - raw_face_distance c 100) + raw_face_distance c 100)%Q;
            [ring | rewrite E0; ring]. }
        rewrite E. exact Hraw.
Qed.

Lemma C6_distance_estimate_witness :
  estimate_distance demo_calibration None (Some 63%Q) None
  = (Some ((63 # 10) * 700 / 63)%Q, Some ((63 # 10) * 700 / 63)%Q)
  /\ estimate_distance demo_calibration (Some 90%Q) (Some 1%Q) (Some 100)
     = (Some ((6 # 10) * (14 * 700 / inject_Z 100) + (1 - (6 # 10)) * 90)%Q,
        Some ((6 # 10) * (14 * 700 / inject_Z 100) + (1 - (6 # 10)) * 90)%Q)
  /\ (exists d,
        nth_error (estimator_run demo_calibration None
                     (map (fun p => (p, Some 100)) [Some 1%Q; Some 0%Q; None; Some 2%Q])) 3
        = Some (Some d)
        /\ (d == 98)%Q).
Proof.
  split; [|split].
  - destruct (C6_distance_estimate demo_calibration None) as [H _].
    apply (H 63%Q None); [reflexivity | discriminate | discriminate].
  - destruct (C6_distance_estimate demo_calibration (Some 90%Q)) as [_ [H _]].
    apply (H (Some 1%Q) 100); [lia|].
    intros x [= <-]. left. discriminate.
  - destruct (C6_distance_estimate demo_calibration None) as [_ [_ [_ [_ H]]]].
    destruct (H ltac:(reflexivity)) as [_ [_ Hrun]].
    destruct (Hrun [Some 1%Q; Some 0%Q; None; Some 2%Q] 3%nat
                (nth 3 (estimator_run demo_calibration None
                          (map (fun p => (p, Some 100))
                             [Some 1%Q; Some 0%Q; None; Some 2%Q])) None))
      as [d [Ed Hd]].
    + repeat (constructor;
                [intros x E; first [discriminate E | injection E as <-; left; discriminate]|]).
      constructor.
    + vm_compute. reflexivity.
    + exists d. split; [|exact Hd]. rewrite <- Ed. vm_compute. reflexivity.
Defined.

(** ** Posture classifier *)

Lemma suppress_turned (angle : Q) (f : Flags) :
  body_turned f = true ->
  suppress angle f
  = mkFlags false false false false false true false (nail_biting f) (face_touch f).
Proof. intros H. unfold suppress. rewrite H. reflexivity. Qed.

Lemma suppress_body_turned (angle : Q) (f : Flags) :
  body_turned (suppress angle f) = body_turned f.
Proof.
  unfold suppress. destruct (body_turned f) eqn:E; simpl; [reflexivity|].
  destruct (Qgtb (Qabs angle) 15); simpl; congruence.
Qed.

Lemma suppress_behaviour (angle : Q) (f : Flags) :
  nail_biting (suppress angle f) = nail_biting f
  /\ face_touch (suppress angle f) = face_touch f.
Proof.
  unfold suppress. destruct (body_turned f); simpl; [auto|].
  destruct (Qgtb (Qabs angle) 15); simpl; auto.
Qed.

(** The sample frame: before the last block the head is flagged as too low
    and a fingertip is at the mouth; the body is turned. *)
Example demo_turned_raw_flags :
  exists f angle b,
    demo_turned_raw = inr (f, angle, b)
    /\ body_turned f = true /\ vertical_bad f = true
    /\ neck_short_bad f = true /\ nail_biting f = true.
Proof. vm_compute. do 3 eexists. repeat split. Qed.

(** C5: whenever the classifier returns [body_turned = true], the six
    posture flags it returns are false whatever was computed for them, and
    the two behaviour flags are returned as computed. *)
Theorem C5_body_turned_clears_posture_flags
    (c : Config) (cal : Calibration) (depth_baseline : option Q)
    (eyes : list Box) (last_fb : option Box) (g : Geometry)
    (nose head : option Point) (sm : option (Q * Q))
    (ds : option (Point * Point)) (fw : option Z)
    (mb fb : option Box) (hl : option (list Hand)) (isz : option (Z * Z)) :
  let out := fst (compute_posture_flags c cal depth_baseline eyes last_fb g
                    nose head sm ds fw mb fb hl isz) in
  body_turned out = true ->
  eye_tilt_bad out = false /\ vertical_bad out = false /\ depth_bad out = false
  /\ head_twist_bad out = false /\ neck_short_bad out = false
  /\ horizontal_offset_bad out = false
  /\ exists raw angle b,
       raw_posture_flags c cal depth_baseline eyes last_fb g
         nose head sm ds fw mb fb hl isz = inr (raw, angle, b)
       /\ nail_biting out = nail_biting raw
       /\ face_touch out = face_touch raw.
Proof.
  intros out. subst out. unfold compute_posture_flags.
  destruct (raw_posture_flags c cal depth_baseline eyes last_fb g
              nose head sm ds fw mb fb hl isz) as [b | [[raw angle] b]];
    cbn [fst]; intros H.
  - discriminate H.
  - rewrite suppress_body_turned in H.
    rewrite (suppress_turned angle raw H). cbn.
    repeat split. exists raw, angle, b. repeat split.
Qed.

Lemma C5_body_turned_witness :
  body_turned demo_turned_flags = true
  /\ vertical_bad demo_turned_flags = false
  /\ neck_short_bad demo_turned_flags = false
  /\ nail_biting demo_turned_flags = true.
Proof.
  assert (H : body_turned demo_turned_flags = true) by (vm_compute; reflexivity).
  pose proof (C5_body_turned_clears_posture_flags demo_config demo_calibration None
                [(300, 280, 10, 8); (340, 280, 10, 8)] None
                (mkGeometry 50 0 0)
                (Some (320, 290)) (Some (320, 290)) (Some (320, 300)%Q)
                (Some ((295, 300), (345, 300))) (Some 100)
                (Some (300, 280, 40, 20)) None (Some [demo_hand]) (Some (640, 480)) H)
    as [_ [Hv [_ [_ [Hn _]]]]].
  split; [exact H|]. split; [exact Hv|]. split; [exact Hn|].
  vm_compute. reflexivity.
Defined.

(** ** Rules for computations *)

Lemma wp_snd {A} (m : M A) (P : World -> Prop) (w : World) :
  wp m (fun _ => P) P w -> P (snd (m w)).
Proof. unfold wp. destruct (m w) as [[a|] w']; auto. Qed.

Lemma wp_mono {A} (m : M A) (Q Q' : A -> World -> Prop) (E E' : World -> Prop) w :
  wp m Q E w ->
  (forall a w', Q a w' -> Q' a w') -> (forall w', E w' -> E' w') ->
  wp m Q' E' w.
Proof. unfold wp. destruct (m w) as [[a|] w']; auto. Qed.

Lemma wp_ret {A} (a : A) Q E w : Q a w -> wp (ret a) Q E w.
Proof. auto. Qed.

Lemma wp_bind {A B} (m : M A) (k : A -> M B) Q E w :
  wp m (fun a w' => wp (k a) Q E w') E w -> wp (bind m k) Q E w.
Proof. unfold wp, bind. destruct (m w) as [[a|] w']; auto. Qed.

Lemma wp_seq {A B} (m : M A) (k : A -> M B) Q1 E1 Q E w :
  wp m Q1 E1 w ->
  (forall a w', Q1 a w' -> wp (k a) Q E w') ->
  (forall w', E1 w' -> E w') ->
  wp (bind m k) Q E w.
Proof. intros H HQ HE. apply wp_bind. eapply wp_mono; eauto. Qed.

Lemma wp_try {A} (m h : M A) Q E w :
  wp m Q (fun w' => wp h Q E w') w -> wp (try_except m h) Q E w.
Proof. unfold wp, try_except. destruct (m w) as [[a|] w']; auto. Qed.

Lemma wp_gets {A} (f : App -> A) Q E w : Q (f (app w)) w -> wp (gets f) Q E w.
Proof. auto. Qed.

Lemma wp_modify (f : App -> App) Q E w :
  Q tt (set_app (f (app w)) w) -> wp (modify f) Q E w.
Proof. auto. Qed.

Lemma wp_modify_agg (f : Agg -> Agg) Q E w :
  Q tt (set_app (set_agg (f (agg (app w))) (app w)) w) -> wp (modify_agg f) Q E w.
Proof. auto. Qed.

Lemma wp_emit (e : Effect) Q E w :
  Q tt (set_effects (e :: effects w) w) -> wp (emit e) Q E w.
Proof. auto. Qed.

Lemma wp_has_cursor Q E w :
  Q (match store w with Some _ => true | None => false end) w -> wp has_cursor Q E w.
Proof. auto. Qed.

Lemma wp_when (b : bool) (m : M unit) Q E w :
  (b = true -> wp m Q E w) -> (b = false -> Q tt w) -> wp (when b m) Q E w.
Proof. intros H1 H2. destruct b; simpl; [apply H1 | apply wp_ret, H2]; reflexivity. Qed.

(** A statement on a healthy store runs. *)
Lemma wp_execute {A} (f : Tables -> A * Tables) Q E w d :
  store w = Some d -> fault d = None ->
  Q (fst (f (working d)))
    (set_store (Some (mkDb (committed d) (snd (f (working d))) None)) w) ->
  wp (execute f) Q E w.
Proof. intros Hs Hf H. unfold wp, execute. rewrite Hs, Hf. exact H. Qed.

Lemma wp_commit Q E w d :
  store w = Some d -> fault d = None ->
  Q tt (set_store (Some (mkDb (working d) (working d) None)) w) ->
  wp commit Q E w.
Proof. intros Hs Hf H. unfold wp, commit. rewrite Hs, Hf. exact H. Qed.

Lemma frame_wp {A} (R : World -> World -> Prop) (m : M A) w :
  frame R m -> wp m (fun _ w' => R w w') (R w) w.
Proof. intros H. specialize (H w). unfold wp. destruct (m w) as [[a|] w']; exact H. Qed.

(** Frames compose along the structure of a computation when the relation
    is a preorder. *)
Section Frames.
Variable R : World -> World -> Prop.
Hypothesis R_refl : forall w, R w w.
Hypothesis R_trans : forall w1 w2 w3, R w1 w2 -> R w2 w3 -> R w1 w3.

Lemma frame_ret {A} (a : A) : frame R (ret a).
Proof. intros w. apply R_refl. Qed.

Lemma frame_bind {A B} (m : M A) (k : A -> M B) :
  frame R m -> (forall a, frame R (k a)) -> frame R (bind m k).
Proof.
  intros Hm Hk w. unfold bind. specialize (Hm w).
  destruct (m w) as [[a|] w']; simpl in *; [|exact Hm].
  eapply R_trans; [exact Hm | apply Hk].
Qed.

Lemma frame_try {A} (m h : M A) :
  frame R m -> frame R h -> frame R (try_except m h).
Proof.
  intros Hm Hh w. unfold try_except. specialize (Hm w).
  destruct (m w) as [[a|] w']; simpl in *; [exact Hm|].
  eapply R_trans; [exact Hm | apply Hh].
Qed.

Lemma frame_when (b : bool) (m : M unit) : frame R m -> frame R (when b m).
Proof. destruct b; simpl; [auto | intros _; apply frame_ret]. Qed.

Lemma frame_gets {A} (f : App -> A) : frame R (gets f).
Proof. intros w. apply R_refl. Qed.

Lemma frame_has_cursor : frame R has_cursor.
Proof. intros w. apply R_refl. Qed.

Lemma frame_if {A} (b : bool) (m1 m2 : M A) :
  frame R m1 -> frame R m2 -> frame R (if b then m1 else m2).
Proof. destruct b; auto. Qed.

Lemma frame_for_each {A} (xs : list A) (body : A -> M unit) :
  (forall x, frame R (body x)) -> frame R (for_each xs body).
Proof.
  intros H. induction xs as [|x r IH]; simpl; [apply frame_ret|].
  apply frame_bind; auto.
Qed.
End Frames.

(** Computations that leave a projection of the application object alone. *)
Section SameOn.
Context {X : Type} (p : App -> X).

Lemma same_on_refl w : same_on p w w.
Proof. reflexivity. Qed.

Lemma same_on_trans w1 w2 w3 : same_on p w1 w2 -> same_on p w2 w3 -> same_on p w1 w3.
Proof. unfold same_on. congruence. Qed.

Lemma so_ret {A} (a : A) : frame (same_on p) (ret a).
Proof. apply frame_ret, same_on_refl. Qed.

Lemma so_bind {A B} (m : M A) (k : A -> M B) :
  frame (same_on p) m -> (forall a, frame (same_on p) (k a)) ->
  frame (same_on p) (bind m k).
Proof. apply frame_bind, same_on_trans. Qed.

Lemma so_try {A} (m h : M A) :
  frame (same_on p) m -> frame (same_on p) h -> frame (same_on p) (try_except m h).
Proof. apply frame_try, same_on_trans. Qed.

Lemma so_when (b : bool) (m : M unit) :
  frame (same_on p) m -> frame (same_on p) (when b m).
Proof. apply frame_when, same_on_refl. Qed.

Lemma so_gets {A} (f : App -> A) : frame (same_on p) (gets f).
Proof. apply frame_gets, same_on_refl. Qed.

Lemma so_has_cursor : frame (same_on p) has_cursor.
Proof. apply frame_has_cursor, same_on_refl. Qed.

Lemma so_for_each {A} (xs : list A) (body : A -> M unit) :
  (forall x, frame (same_on p) (body x)) -> frame (same_on p) (for_each xs body).
Proof. apply frame_for_each; [apply same_on_refl | apply same_on_trans]. Qed.

Lemma so_execute {A} (f : Tables -> A * Tables) : frame (same_on p) (execute f).
Proof.
  intros w. unfold execute. destruct (store w) as [d|]; [|reflexivity].
  destruct (fault d) as [[|n]|]; reflexivity.
Qed.

Lemma so_commit : frame (same_on p) commit.
Proof.
  intros w. unfold commit. destruct (store w) as [d|]; [|reflexivity].
  destruct (fault d) as [[|n]|]; reflexivity.
Qed.

Lemma so_emit (e : Effect) : frame (same_on p) (emit e).
Proof. intros w. reflexivity. Qed.

Lemma so_conn_close : frame (same_on p) conn_close.
Proof. intros w. unfold conn_close. destruct (store w); reflexivity. Qed.

Lemma so_modify (f : App -> App) :
  (forall s, p (f s) = p s) -> frame (same_on p) (modify f).
Proof. intros H w. unfold same_on. simpl. apply H. Qed.
End SameOn.

(** Breaks a goal [frame (same_on p) m] down along [m]; what is left are
    the updates of the application object. *)
Ltac frames :=
  repeat
    (intros;
     lazymatch goal with
     | |- frame _ (ret _) => apply so_ret
     | |- frame _ (bind _ _) => apply so_bind
     | |- frame _ (try_except _ _) => apply so_try
     | |- frame _ (when _ _) => apply so_when
     | |- frame _ (gets _) => apply so_gets
     | |- frame _ has_cursor => apply so_has_cursor
     | |- frame _ (for_each _ _) => apply so_for_each
     | |- frame _ (execute _) => apply so_execute
     | |- frame _ (query _) => apply so_execute
     | |- frame _ (update _) => apply so_execute
     | |- frame _ commit => apply so_commit
     | |- frame _ (emit _) => apply so_emit
     | |- frame _ log_exc => apply so_emit
     | |- frame _ (notify_os _ _) => apply so_emit
     | |- frame _ conn_close => apply so_conn_close
     | |- frame _ (modify _) => apply so_modify
     | |- frame _ (modify_agg _) => apply so_modify
     | |- frame _ (modify_bank _) => apply so_modify
     | |- frame _ (if ?b then _ else _) => destruct b
     | |- frame _ (match ?x with _ => _ end) => destruct x
     | |- frame _ (let (_, _) := ?x in _) => destruct x
     end).

(** ** Data erase *)

Lemma execute_data_erase_keeps_calibration :
  frame (same_on (fun s => (calib s, cfg s))) execute_data_erase.
Proof.
  unfold execute_data_erase, delete_from. frames; reflexivity.
Qed.

(** On a healthy store the erase leaves seven empty, committed tables. *)
Lemma execute_data_erase_empties w d :
  store w = Some d -> fault d = None ->
  store (snd (execute_data_erase w)) = Some (mkDb empty_tables empty_tables None).
Proof.
  intros Hs Hf. destruct d as [cm wk fl]. simpl in Hf. subst fl.
  destruct w as [s st ef]. simpl in Hs. subst st. reflexivity.
Qed.

(** C8: a data erase on a working store deletes every row of the seven
    tables, in the open transaction and durably, and whatever happens to
    the store (no connection, a failing statement) the calibration profile
    of the application (the calibration dictionary with its focal length,
    reference distance and neutral baseline, and the two attributes read
    from it) is the one it was before. *)
Theorem C8_erase_empties_tables_keeps_calibration
    (s : App) (cm wk : Tables) (ef : list Effect) (w : World) :
  store (snd (execute_data_erase (mkWorld s (Some (mkDb cm wk None)) ef)))
  = Some (mkDb empty_tables empty_tables None)
  /\ calib (app (snd (execute_data_erase w))) = calib (app w)
  /\ focal_length (calib (app (snd (execute_data_erase w)))) = focal_length (calib (app w))
  /\ real_ipd_cm (calib (app (snd (execute_data_erase w)))) = real_ipd_cm (calib (app w))
  /\ calib_neutral (calib (app (snd (execute_data_erase w)))) = calib_neutral (calib (app w)).
Proof.
  split; [apply (execute_data_erase_empties _ (mkDb cm wk None)); reflexivity|].
  pose proof (execute_data_erase_keeps_calibration w) as H.
  unfold same_on in H. injection H as Hc _. rewrite Hc. repeat split.
Qed.

(** Computations that cannot raise and keep a predicate. *)
Section Safe.
Variable P : World -> Prop.

Lemma sf_ret {A} (a : A) : safe P (ret a).
Proof. intros w H. exact H. Qed.

Lemma sf_bind {A B} (m : M A) (k : A -> M B) :
  safe P m -> (forall a, safe P (k a)) -> safe P (bind m k).
Proof.
  intros Hm Hk w H. apply wp_bind. eapply wp_mono; [apply Hm, H | | auto].
  intros a w' H'. apply Hk, H'.
Qed.

Lemma sf_try {A} (m h : M A) : safe P m -> safe P (try_except m h).
Proof.
  intros Hm w H. apply wp_try. eapply wp_mono; [apply Hm, H | auto | contradiction].
Qed.

Lemma sf_when (b : bool) (m : M unit) : safe P m -> safe P (when b m).
Proof. destruct b; simpl; [auto | intros _; apply sf_ret]. Qed.

Lemma sf_gets {A} (f : App -> A) : safe P (gets f).
Proof. intros w H. exact H. Qed.

Lemma sf_has_cursor : safe P has_cursor.
Proof. intros w H. exact H. Qed.

Lemma sf_for_each {A} (xs : list A) (body : A -> M unit) :
  (forall x, safe P (body x)) -> safe P (for_each xs body).
Proof.
  intros H. induction xs as [|x r IH]; simpl; [apply sf_ret|].
  apply sf_bind; auto.
Qed.

Lemma sf_wp {A} (m : M A) (E : World -> Prop) w :
  safe P m -> P w -> wp m (fun _ => P) E w.
Proof. intros H Hw. eapply wp_mono; [apply H, Hw | auto | contradiction]. Qed.

Lemma sf_snd {A} (m : M A) w : safe P m -> P w -> P (snd (m w)).
Proof.
  intros H Hw. specialize (H w Hw). unfold wp in H.
  destruct (m w) as [[a|] w']; [exact H | contradiction].
Qed.
End Safe.

(** Breaks a goal [safe P m] down to the statements, updates and effects
    of [m]. *)
Ltac safe_split :=
  repeat
    (intros;
     lazymatch goal with
     | |- safe _ (ret _) => apply sf_ret
     | |- safe _ (bind _ _) => apply sf_bind
     | |- safe _ (try_except _ _) => apply sf_try
     | |- safe _ (when _ _) => apply sf_when
     | |- safe _ (gets _) => apply sf_gets
     | |- safe _ has_cursor => apply sf_has_cursor
     | |- safe _ (for_each _ _) => apply sf_for_each
     | |- safe _ (if ?b then _ else _) => destruct b
     | |- safe _ (match ?x with _ => _ end) => destruct x
     | |- safe _ (let (_, _) := ?x in _) => destruct x
     end).

(** A statement, update or effect met by [safe_split], for a predicate of
    the form [healthy_with F]. *)
Ltac healthy_leaf :=
  let s := fresh "s" in let st := fresh "st" in let ef := fresh "ef" in
  let cm := fresh "cm" in let wk := fresh "wk" in let fl := fresh "fl" in
  let Hs := fresh "Hs" in let Hf := fresh "Hf" in let HF := fresh "HF" in
  intros [s st ef] ([cm wk fl] & Hs & Hf & HF);
  simpl in Hs, Hf; subst st fl;
  unfold wp; cbn -[Z.add Z.max Qplus Qmult Qdiv Qminus];
  eexists; split; [reflexivity|]; split; [reflexivity|];
  cbn -[Z.add Z.max Qplus Qmult Qdiv Qminus] in HF |- *;
  try tauto; try (intuition congruence).

Ltac healthy_safe := safe_split; try healthy_leaf.

(** The exceptional side of a [wp_seq] step. *)
Ltac exc_post :=
  first [ intros ? HE; exact HE | intros ? HE; contradiction HE ].

(** ** Daily distance merge *)

Lemma lenQ_app (l1 l2 : list Q) : (lenQ (l1 ++ l2) == lenQ l1 + lenQ l2)%Q.
Proof.
  unfold lenQ. rewrite length_app, Nat2Z.inj_add, inject_Z_plus. reflexivity.
Qed.

Lemma sumQ_app (l1 l2 : list Q) : (sumQ (l1 ++ l2) == sumQ l1 + sumQ l2)%Q.
Proof.
  induction l1 as [|x l IH]; simpl; [ring|]. rewrite IH. ring.
Qed.

Lemma lenQ_pos (l : list Q) : l <> [] -> (0 < lenQ l)%Q.
Proof.
  intros H. destruct l as [|x l]; [congruence|].
  unfold lenQ. rewrite <- (Zlt_Qlt 0). simpl length. lia.
Qed.

(** The mean times the number of samples is their sum, also for no sample
    at all (the model's [0 / 0] is [0]). *)
Lemma mean_times_len (l : list Q) : (mean l * lenQ l == sumQ l)%Q.
Proof.
  destruct l as [|x l]; [reflexivity|].
  unfold mean. field. intros E.
  pose proof (lenQ_pos (x :: l) ltac:(discriminate)) as H. rewrite E in H.
  exact (Qlt_irrefl _ H).
Qed.

(** The weighted merge of a row that stands for [S] with pending samples
    [P] stands for [S ++ P]. *)
Lemma merge_distance_log_represents row (S P : list Q) (psum : Q) :
  represents row S -> P <> [] -> (psum == sumQ P)%Q ->
  let m := merge_distance_log row psum (Z.of_nat (length P)) in
  snd m = Z.of_nat (length (S ++ P))
  /\ (snd (fst m) == mean (S ++ P))%Q
  /\ (fst (fst m) == sumQ (S ++ P))%Q.
Proof.
  intros Hrow HP Hsum.
  assert (Hold : exists avg n, n = Z.of_nat (length S) /\ (avg * inject_Z n == sumQ S)%Q
            /\ merge_distance_log row psum (Z.of_nat (length P))
               = merge_distance_log (Some (Some avg, Some n)) psum (Z.of_nat (length P))).
  { destruct row as [[[avg|] [n|]]|]; simpl in Hrow; try contradiction.
    - destruct Hrow as [Hn Havg]. exists avg, n. repeat split; [exact Hn|].
      rewrite Havg, Hn. apply mean_times_len.
    - subst S. exists 0%Q, 0. repeat split. }
  destruct Hold as (avg & n & Hn & Havg & ->).
  unfold merge_distance_log. cbn [fst snd].
  assert (Hlen : n + Z.of_nat (length P) = Z.of_nat (length (S ++ P))).
  { rewrite length_app. lia. }
  assert (Hpos : (n + Z.of_nat (length P) >? 0) = true).
  { apply Z.gtb_lt. destruct P; [congruence|]. simpl length. lia. }
  rewrite Hpos. split; [exact Hlen|].
  assert (Hs : (avg * inject_Z n + psum == sumQ (S ++ P))%Q).
  { rewrite sumQ_app, Havg, Hsum. reflexivity. }
  split; [|exact Hs].
  rewrite Hs, Hlen. reflexivity.
Qed.

Lemma save_screen_time_keeps_distance mirror today cv x ps pc :
  safe (healthy_with (distance_pending x ps pc)) (save_screen_time mirror today cv).
Proof.
  unfold save_screen_time, select_screen_time, replace_screen_time, query, update,
    modify_agg, distance_pending.
  healthy_safe. destruct mirror; cbn; tauto.
Qed.

Lemma save_posture_time_keeps_distance mirror today cs x ps pc :
  safe (healthy_with (distance_pending x ps pc)) (save_posture_time mirror today cs).
Proof.
  unfold save_posture_time, select_posture_time, replace_posture_time, query, update,
    modify_agg, distance_pending.
  healthy_safe. destruct mirror; cbn; tauto.
Qed.

Lemma flush_hourly_keeps_distance_log hk x :
  safe (healthy_with (fun d _ => distance_log (working d) = x))
       (flush_hourly_metrics hk false).
Proof.
  unfold flush_hourly_metrics, select_screen_hourly, replace_screen_hourly,
    select_posture_hourly, replace_posture_hourly, select_distance_hourly,
    replace_distance_hourly, query, update, modify_agg, log_exc, emit, commit.
  healthy_safe.
Qed.

Lemma save_distance_log_merges mirror today x ps pc w :
  healthy_with (distance_pending x ps pc) w -> 0 < pc ->
  wp (save_distance_log mirror today)
     (fun r w' =>
        r = true
        /\ healthy_with (fun d s =>
             distance_log (working d) = <[today := merged_row x today ps pc]> x
             /\ pending_distance_sum (agg s) = 0%Q
             /\ pending_distance_count (agg s) = 0) w')
     (fun _ => False) w.
Proof.
  destruct w as [s st ef]. intros ([cm wk fl] & Hs & Hf & Hx & Hps & Hpc & Hen) Hpos.
  simpl in Hs, Hf, Hx, Hps, Hpc, Hen. subst st fl.
  unfold wp, save_distance_log, bind, gets. cbn [app].
  rewrite Hen, Hpc. replace (pc >? 0) with true by (symmetry; apply Z.gtb_lt; lia).
  cbn -[merge_distance_log]. rewrite Hps, Hx.
  split; [reflexivity|]. eexists. split; [reflexivity|]. split; [reflexivity|].
  unfold merged_row. destruct mirror; cbn -[merge_distance_log]; repeat split.
Qed.

Lemma commit_after_merge x w :
  healthy_with (fun d s =>
    distance_log (working d) = x
    /\ pending_distance_sum (agg s) = 0%Q /\ pending_distance_count (agg s) = 0) w ->
  wp commit (fun _ => healthy_with (distance_merged x)) (fun _ => False) w.
Proof.
  destruct w as [s st ef]. intros ([cm wk fl] & Hs & Hf & Hx & Hps & Hpc).
  simpl in Hs, Hf. subst st fl. unfold wp, commit. cbn.
  eexists. split; [reflexivity|]. split; [reflexivity|]. repeat split; assumption.
Qed.

Lemma flush_hourly_keeps_pending hk x :
  safe (healthy_with (fun d s =>
          distance_log (working d) = x
          /\ pending_distance_sum (agg s) = 0%Q /\ pending_distance_count (agg s) = 0))
       (flush_hourly_metrics hk false).
Proof.
  unfold flush_hourly_metrics, select_screen_hourly, replace_screen_hourly,
    select_posture_hourly, replace_posture_hourly, select_distance_hourly,
    replace_distance_hourly, query, update, modify_agg, log_exc, emit, commit.
  healthy_safe.
Qed.

(** A periodic flush on a healthy store with pending distance samples
    leaves today's merged row committed and the pending buffer empty. *)
Lemma periodic_save_merges now today hour cv cs x ps pc w :
  healthy_with (distance_pending x ps pc) w -> 0 < pc ->
  healthy_with (distance_merged (<[today := merged_row x today ps pc]> x))
    (snd (periodic_save now today hour cv cs w)).
Proof.
  intros Hw Hpos. apply wp_snd. unfold periodic_save. apply wp_try.
  eapply wp_seq; [apply sf_wp; [apply save_screen_time_keeps_distance | exact Hw] | | exc_post].
  cbn beta. intros c1 w1 H1.
  eapply wp_seq; [apply sf_wp; [apply save_posture_time_keeps_distance | exact H1] | | exc_post].
  cbn beta. intros c2 w2 H2.
  eapply wp_seq; [apply save_distance_log_merges; eassumption | | exc_post].
  cbn beta. intros c3 w3 [-> H3].
  eapply wp_seq; [apply sf_wp; [apply flush_hourly_keeps_pending | exact H3] | | exc_post].
  cbn beta. intros h w4 H4.
  replace (c1 || c2 || true || h) with true by (destruct c1, c2, h; reflexivity).
  cbn [when].
  eapply wp_seq; [apply commit_after_merge; exact H4 | | exc_post].
  cbn beta. intros _ w5 H5. unfold modify_agg. apply wp_modify.
  destruct w5 as [s5 st5 ef5]. destruct H5 as (d5 & Hs5 & Hf5 & HF5).
  exists d5. split; [exact Hs5|]. split; [exact Hf5|]. exact HF5.
Qed.

Lemma final_save_merges today hour x ps pc w :
  healthy_with (distance_pending x ps pc) w -> 0 < pc ->
  wp (final_save today hour)
     (fun _ => healthy_with (distance_merged (<[today := merged_row x today ps pc]> x)))
     (fun _ => False) w.
Proof.
  intros Hw Hpos. unfold final_save. apply wp_try.
  eapply wp_seq; [apply sf_wp; [apply sf_gets | exact Hw] | | exc_post].
  cbn beta. intros a0 w0 H0.
  eapply wp_seq; [apply sf_wp; [apply save_screen_time_keeps_distance | exact H0] | | exc_post].
  cbn beta. intros c1 w1 H1.
  eapply wp_seq; [apply sf_wp; [apply sf_gets | exact H1] | | exc_post].
  cbn beta. intros a1 w1' H1'.
  eapply wp_seq; [apply sf_wp; [apply save_posture_time_keeps_distance | exact H1'] | | exc_post].
  cbn beta. intros c2 w2 H2.
  eapply wp_seq; [apply save_distance_log_merges; eassumption | | exc_post].
  cbn beta. intros c3 w3 [-> H3].
  eapply wp_seq; [apply sf_wp; [apply flush_hourly_keeps_pending | exact H3] | | exc_post].
  cbn beta. intros h w4 H4.
  replace (c1 || c2 || true || h) with true by (destruct c1, c2, h; reflexivity).
  cbn [when].
  eapply wp_mono; [apply commit_after_merge; exact H4 | auto | intros ? []].
Qed.

(** Closing the window does the same merge before the connection goes. *)
Lemma on_close_merges now today hour x ps pc w :
  healthy_with (distance_pending x ps pc) w -> 0 < pc ->
  healthy_with (distance_merged (<[today := merged_row x today ps pc]> x))
    (snd (on_close now today hour w)).
Proof.
  intros Hw Hpos. apply wp_snd. unfold on_close.
  eapply wp_seq
    with (Q1 := fun _ => healthy_with
                  (distance_merged (<[today := merged_row x today ps pc]> x)))
         (E1 := fun _ => False); [| | contradiction].
  - apply wp_try.
    eapply wp_seq with (Q1 := fun _ => healthy_with (distance_pending x ps pc))
                       (E1 := fun _ => False); [| | intros ? []].
    + unfold modify_agg. apply wp_modify.
      destruct w as [s st ef]. destruct Hw as (d & Hs & Hf & H1 & H2 & H3 & H4).
      exists d. split; [exact Hs|]. split; [exact Hf|].
      cbn in H2, H3, H4 |- *. unfold close_segments.
      destruct (visible_start (agg s)) as [vs|]; [destruct (truthyQ vs)|];
        cbn; (destruct (slouch_session_start (agg s)); cbn; repeat split; assumption).
    + cbn beta. intros _ w1 H1. apply wp_bind, wp_has_cursor.
      destruct H1 as (d & Hs & Hf & H1). rewrite Hs. cbn [when].
      eapply wp_mono;
        [apply (final_save_merges today hour x ps pc);
           [exists d; auto | exact Hpos] | auto | intros ? []].
  - cbn beta. intros _ w1 (d & Hs & Hf & H1 & H2 & H3 & H4).
    unfold wp, conn_close. rewrite Hs. destruct w1 as [s1 st1 ef1]. cbn.
    eexists. split; [reflexivity|]. split; [exact Hf|]. cbn. repeat split; assumption.
Qed.

(** C1: every flush of pending distance samples into today's
    [distance_log] row, by the periodic save or at shutdown, stores the
    average [(old_avg * old_count + pending_sum) / (old_count +
    pending_count)] with the count [old_count + pending_count]; when the
    row stood for the samples [S] and the pending buffer holds the samples
    [P], the stored row stands for [S ++ P]: it holds their exact weighted
    mean (in the exact arithmetic of the model).  Merging the averages of
    two groups this way gives the mean of the whole sequence. *)
Theorem C1_daily_distance_weighted_mean
    (w : World) (d : Db) (S P : list Q) (now : Q) (today hour : string) (cv cs : Z) :
  store w = Some d -> fault d = None ->
  enable_distance (cfg (app w)) = true ->
  represents (distance_log (working d) !! today) S ->
  P <> [] ->
  pending_distance_count (agg (app w)) = Z.of_nat (length P) ->
  (pending_distance_sum (agg (app w)) == sumQ P)%Q ->
  let old_avg := match distance_log (working d) !! today with
                 | Some (Some a, _) => a | _ => 0%Q end in
  let old_count := match distance_log (working d) !! today with
                   | Some (_, Some n) => n | _ => 0 end in
  let stored (w' : World) :=
    exists d' avg n,
      store w' = Some d'
      /\ distance_log (committed d') !! today = Some (Some avg, Some n)
      /\ avg = ((old_avg * inject_Z old_count + pending_distance_sum (agg (app w)))
                / inject_Z (old_count + pending_distance_count (agg (app w))))%Q
      /\ n = old_count + pending_distance_count (agg (app w))
      /\ n = Z.of_nat (length (S ++ P))
      /\ (avg == mean (S ++ P))%Q
      /\ pending_distance_count (agg (app w')) = 0 in
  stored (snd (periodic_save now today hour cv cs w))
  /\ stored (snd (on_close now today hour w))
  /\ (forall l1 l2 : list Q,
        (snd (fst (merge_distance_log
                     (Some (Some (mean l1), Some (Z.of_nat (length l1))))
                     (mean l2 * lenQ l2) (Z.of_nat (length l2))))
         == mean (l1 ++ l2))%Q).
Proof.
  intros Hs Hf Hen Hrep HP Hpc Hps old_avg old_count stored.
  set (x := distance_log (working d)) in *.
  set (ps := pending_distance_sum (agg (app w))) in *.
  set (pc := pending_distance_count (agg (app w))) in *.
  assert (Hw : healthy_with (distance_pending x ps pc) w).
  { exists d. unfold distance_pending. repeat split; auto. }
  assert (Hpos : 0 < pc).
  { rewrite Hpc. destruct P; [congruence|]. simpl length. lia. }
  assert (Hall : forall w', healthy_with
             (distance_merged (<[today := merged_row x today ps pc]> x)) w' -> stored w').
  { intros w' (d' & Hs' & _ & _ & Hc & _ & Hz).
    pose proof (merge_distance_log_represents (x !! today) S P ps Hrep HP Hps) as Hm.
    rewrite <- Hpc in Hm. cbn zeta in Hm. destruct Hm as (Hn & Havg & _).
    unfold stored. eexists d', _, _. split; [exact Hs'|].
    split; [rewrite Hc; apply lookup_insert_eq|].
    assert (Hgt : (old_count + pc >? 0) = true).
    { fold x in old_count. unfold old_count.
      unfold merge_distance_log in Hn. cbn [snd] in Hn.
      apply Z.gtb_lt. rewrite Hn, length_app. destruct P; [congruence|].
      simpl length. lia. }
    split.
    { unfold merge_distance_log. cbn [fst snd]. fold old_count old_avg.
      fold x in old_count, old_avg. fold old_count old_avg. rewrite Hgt. reflexivity. }
    split; [reflexivity|]. split; [exact Hn|]. split; [exact Havg | exact Hz]. }
  split; [apply Hall, periodic_save_merges; assumption|].
  split; [apply Hall, on_close_merges; assumption|].
  intros l1 l2. destruct l2 as [|y l2].
  - unfold merge_distance_log. cbn [fst snd length]. rewrite app_nil_r.
    destruct l1 as [|z l1].
    + reflexivity.
    + assert (Hne : z :: l1 <> []) by discriminate.
      revert Hne. generalize (z :: l1). intros l Hne.
      replace (Z.of_nat (length l) + Z.of_nat 0 >? 0) with true
        by (symmetry; apply Z.gtb_lt; destruct l; [congruence | simpl length; lia]).
      change (Z.of_nat 0) with 0. rewrite Z.add_0_r.
      change (inject_Z (Z.of_nat (length l))) with (lenQ l).
      rewrite mean_times_len, (mean_times_len []). unfold mean.
      change (sumQ []) with 0%Q. rewrite Qplus_0_r. reflexivity.
  - apply (merge_distance_log_represents
             (Some (Some (mean l1), Some (Z.of_nat (length l1)))) l1 (y :: l2)).
    + split; reflexivity.
    + discriminate.
    + apply mean_times_len.
Qed.

Lemma C1_daily_distance_witness :
  exists d' avg,
    store (snd (periodic_save 120 "2026-01-01" "2026-01-01 10" 0 0 demo_pending_world))
    = Some d'
    /\ distance_log (committed d') !! "2026-01-01" = Some (Some avg, Some 5)
    /\ (avg == 88)%Q.
Proof.
  assert (Hrep : represents
            (distance_log (working demo_pending_db) !! "2026-01-01") [60%Q; 80%Q]).
  { vm_compute. split; reflexivity. }
  destruct (C1_daily_distance_weighted_mean demo_pending_world demo_pending_db
              [60%Q; 80%Q] [90%Q; 110%Q; 100%Q] 120 "2026-01-01" "2026-01-01 10" 0 0
              eq_refl eq_refl eq_refl Hrep ltac:(discriminate) eq_refl ltac:(reflexivity))
    as [(d' & avg & n & Hs & Hrow & _ & _ & Hn & Havg & _) _].
  exists d', avg. split; [exact Hs|]. split.
  - rewrite Hrow, Hn. reflexivity.
  - rewrite Havg. reflexivity.
Defined.

(** The weighted merge is not the average of two averages: one sample of
    10 cm merged with the samples 20 cm and 30 cm gives 20 cm, not 17.5 cm. *)
Example merge_is_weighted :
  (snd (fst (merge_distance_log (Some (Some 10%Q, Some 1%Z)) 50%Q 2%Z)) == 20)%Q
  /\ ~ (snd (fst (merge_distance_log (Some (Some 10%Q, Some 1%Z)) 50%Q 2%Z))
        == (10 + 25) / 2)%Q.
Proof. split; [reflexivity | discriminate]. Qed.

(** ** The panic button and the accumulators *)

(** The fields the erase resets, on a store that works (or is absent). *)
Lemma erase_agg_resets (a : Agg) :
  let a' := erase_agg a in
  visible_seconds a' = 0 /\ slouch_accum_seconds a' = 0
  /\ saved_visible_seconds a' = 0 /\ saved_slouch_seconds a' = 0
  /\ pending_hour_visible_seconds a' = 0 /\ pending_hour_slouch_seconds a' = 0
  /\ pending_hour_distance_sum a' = 0%Q /\ pending_hour_distance_count a' = 0
  /\ pending_distance_sum a' = 0%Q /\ pending_distance_count a' = 0
  /\ distance_sum_total a' = 0%Q /\ distance_count_total a' = 0
  /\ distances_buffer a' = []
  /\ visible_start a' = visible_start a
  /\ slouch_session_start a' = slouch_session_start a
  /\ _prev_total_visible a' = _prev_total_visible a
  /\ _prev_total_slouch a' = _prev_total_slouch a.
Proof. repeat split. Qed.

Lemma execute_data_erase_resets (s : App) (cm wk : Tables) (ef : list Effect) :
  let w' := snd (execute_data_erase (mkWorld s (Some (mkDb cm wk None)) ef)) in
  agg (app w') = erase_agg (agg s) /\ active_alerts (bank (app w')) = ∅.
Proof. split; reflexivity. Qed.

(** C10, evaluated on the code: the user is in view since clock 100, a
    periodic save at clock 1090 stores 990 s, the data is erased (tables
    empty, accumulators and watermarks zero) and the next save, 26 s later,
    stores 1016 s for the day: the segment in progress ([visible_start]) is
    not reset by the erase, so the time before the erase comes back. *)
Theorem C10_erase_keeps_open_segment :
  durable_screen_time demo_saved = Some 990
  /\ store demo_erased = Some (mkDb empty_tables empty_tables None)
  /\ visible_seconds (agg (app demo_erased)) = 0
  /\ saved_visible_seconds (agg (app demo_erased)) = 0
  /\ pending_hour_visible_seconds (agg (app demo_erased)) = 0
  /\ visible_start (agg (app demo_erased)) = Some 100%Q
  /\ durable_screen_time demo_after_erase = Some 1016.
Proof. vm_compute. repeat split. Qed.

(** ** A save whose commit fails *)

(** The hourly flush on its own (hour rollover) keeps its buffers when its
    commit fails: the buffers are zeroed after the commit. *)
Lemma flush_hourly_commit_failure (s : App) (cm wk : Tables) (ef : list Effect) (hk : string) :
  0 < pending_hour_visible_seconds (agg s) ->
  pending_hour_slouch_seconds (agg s) <= 0 ->
  pending_hour_distance_count (agg s) <= 0 ->
  let r := flush_hourly_metrics (Some hk) true
             (mkWorld s (Some (mkDb cm wk (Some 2%nat))) ef) in
  fst r = Ok false /\ app (snd r) = s.
Proof.
  intros H1 H2 H3. unfold flush_hourly_metrics, try_except, bind, has_cursor, gets.
  cbn -[Z.gtb].
  rewrite (gtb_true _ _ H1), (gtb_false _ _ H2), (gtb_false _ _ H3).
  cbn. split; reflexivity.
Qed.

(** C2, evaluated on the code: 20 s of screen time are unsaved when the
    periodic save runs at clock 120 and its commit raises.  The exception
    is logged and nothing is durable, but the visible-time watermark has
    moved to 20 and the hourly buffer has been zeroed: the delta is not
    pending any more.  If the window is closed right away the last flush
    finds nothing to save and the 20 s are lost. *)
Theorem C2_failed_commit_moves_watermark :
  saved_visible_seconds (agg (app demo_before_save)) = 0
  /\ _unsaved_visible_seconds 120 (agg (app demo_before_save)) = 20
  /\ effects demo_failed_save = [LogExc]
  /\ durable_screen_time demo_failed_save = None
  /\ durable_screen_hourly demo_failed_save = None
  /\ saved_visible_seconds (agg (app demo_failed_save)) = 20
  /\ _unsaved_visible_seconds 120 (agg (app demo_failed_save)) = 0
  /\ pending_hour_visible_seconds (agg (app demo_failed_save)) = 0
  /\ durable_screen_time demo_failed_then_closed = None
  /\ durable_screen_hourly demo_failed_then_closed = None.
Proof. vm_compute. repeat split. Qed.

(** ** Alert timers *)

















(** C7: the claim fails on the loop for "Off Task - Body Turned".  The
    user is seen turned away at clock 100, no face is seen at clocks 200
    and 250, and the user is seen turned away again at clock 300.  With a
    notification delay of 6 s and an appear delay of 1 s nothing is sent or
    shown up to clock 250, and at clock 300, the first evaluation since
    clock 100, the notification is sent and the label shown: the timers
    started at clock 100 were kept through the frames without a face,
    on which [_update_posture_state] is not called. *)
Theorem C7_stale_timer_notifies :
  delay_seconds (cfg (app demo_world)) = 6
  /\ active_alert_appear_seconds (cfg (app demo_world)) = 1%Q
  /\ effects demo_away = []
  /\ active_alerts (bank (app demo_away)) = ∅
  /\ _body_turned (bank (app demo_away)) = mkDebounce (Some 100%Q) (Some 100%Q) false
  /\ effects demo_back = [Notify "Off Task" "Body turned away from screen."]
  /\ active_alerts (bank (app demo_back)) = {[ L_BODY_TURNED ]}.
Proof. vm_compute. repeat split. Qed.

(** The nail-biting category is outside the rule of the delay-driven
    categories: with a notification delay of 6 s and an appear delay of
    1 s it is in the active set at the very first evaluation that sees the
    condition, and its notification is sent after 5 s. *)
Lemma nail_biting_shown_at_once :
  delay_seconds (cfg (app demo_world)) = 6
  /\ active_alert_appear_seconds (cfg (app demo_world)) = 1%Q
  /\ active_alerts (bank (app demo_nail_first)) = {[ L_NAIL ]}
  /\ effects demo_nail_first = []
  /\ effects demo_nail_second = [Notify "Nail Biting Detected" "Stop biting your nails."].
Proof. vm_compute. repeat split. Qed.



(** ** Watermarks and totals *)

(** Computations that preserve a predicate on the application object. *)
Section Preserves.
Variable PA : App -> Prop.

Lemma pv_frames {A} (m : M A) :
  frame (fun w w' => on_app PA w -> on_app PA w') m -> preserves (on_app PA) m.
Proof. intros H w. apply H. Qed.

Lemma pv_ret {A} (a : A) : preserves (on_app PA) (ret a).
Proof. intros w H. exact H. Qed.

Lemma pv_bind {A B} (m : M A) (k : A -> M B) :
  preserves (on_app PA) m -> (forall a, preserves (on_app PA) (k a)) ->
  preserves (on_app PA) (bind m k).
Proof.
  intros Hm Hk w H. unfold bind. specialize (Hm w H).
  destruct (m w) as [[a|] w']; simpl in *; [apply Hk, Hm | exact Hm].
Qed.

Lemma pv_try {A} (m h : M A) :
  preserves (on_app PA) m -> preserves (on_app PA) h ->
  preserves (on_app PA) (try_except m h).
Proof.
  intros Hm Hh w H. unfold try_except. specialize (Hm w H).
  destruct (m w) as [[a|] w']; simpl in *; [exact Hm | apply Hh, Hm].
Qed.

Lemma pv_when (b : bool) (m : M unit) :
  preserves (on_app PA) m -> preserves (on_app PA) (when b m).
Proof. destruct b; simpl; [auto | intros _; apply pv_ret]. Qed.

Lemma pv_gets {A} (f : App -> A) : preserves (on_app PA) (gets f).
Proof. intros w H. exact H. Qed.

Lemma pv_has_cursor : preserves (on_app PA) has_cursor.
Proof. intros w H. exact H. Qed.

Lemma pv_execute {A} (f : Tables -> A * Tables) : preserves (on_app PA) (execute f).
Proof.
  intros w H. unfold execute. destruct (store w) as [d|]; [|exact H].
  destruct (fault d) as [[|n]|]; exact H.
Qed.

Lemma pv_commit : preserves (on_app PA) commit.
Proof.
  intros w H. unfold commit. destruct (store w) as [d|]; [|exact H].
  destruct (fault d) as [[|n]|]; exact H.
Qed.

Lemma pv_emit (e : Effect) : preserves (on_app PA) (emit e).
Proof. intros w H. exact H. Qed.

Lemma pv_conn_close : preserves (on_app PA) conn_close.
Proof. intros w H. unfold conn_close. destruct (store w); exact H. Qed.

Lemma pv_for_each {A} (xs : list A) (body : A -> M unit) :
  (forall x, preserves (on_app PA) (body x)) -> preserves (on_app PA) (for_each xs body).
Proof.
  intros H. induction xs as [|x r IH]; simpl; [apply pv_ret|].
  apply pv_bind; auto.
Qed.

Lemma pv_modify (f : App -> App) :
  (forall s, PA s -> PA (f s)) -> preserves (on_app PA) (modify f).
Proof. intros H w Hw. apply H, Hw. Qed.

Lemma pv_same_on {A X} (p : App -> X) (m : M A) :
  (forall s s', p s' = p s -> PA s -> PA s') ->
  frame (same_on p) m -> preserves (on_app PA) m.
Proof. intros Hp Hm w Hw. exact (Hp _ _ (Hm w) Hw). Qed.

Lemma pv_wp {A} (m : M A) w :
  preserves (on_app PA) m -> on_app PA w -> wp m (fun _ => on_app PA) (on_app PA) w.
Proof.
  intros H Hw. specialize (H w Hw). unfold wp.
  destruct (m w) as [[a|] w']; exact H.
Qed.
End Preserves.

(** Breaks a goal [preserves (on_app PA) m] down to the updates of the
    application object in [m]. *)
Ltac pres :=
  repeat
    (intros;
     lazymatch goal with
     | |- preserves _ (ret _) => apply pv_ret
     | |- preserves _ (bind _ _) => apply pv_bind
     | |- preserves _ (try_except _ _) => apply pv_try
     | |- preserves _ (when _ _) => apply pv_when
     | |- preserves _ (gets _) => apply pv_gets
     | |- preserves _ has_cursor => apply pv_has_cursor
     | |- preserves _ (for_each _ _) => apply pv_for_each
     | |- preserves _ (execute _) => apply pv_execute
     | |- preserves _ (query _) => apply pv_execute
     | |- preserves _ (update _) => apply pv_execute
     | |- preserves _ commit => apply pv_commit
     | |- preserves _ (emit _) => apply pv_emit
     | |- preserves _ log_exc => apply pv_emit
     | |- preserves _ (notify_os _ _) => apply pv_emit
     | |- preserves _ conn_close => apply pv_conn_close
     | |- preserves _ (modify _) => apply pv_modify
     | |- preserves _ (modify_agg _) => apply pv_modify
     | |- preserves _ (modify_bank _) => apply pv_modify
     | |- preserves _ (if ?b then _ else _) => destruct b
     | |- preserves _ (match ?x with _ => _ end) => destruct x
     | |- preserves _ (let (_, _) := ?x in _) => destruct x
     end).

Lemma good_start_mono t t' o : good_start t o -> (t <= t')%Q -> good_start t' o.
Proof. intros H Ht s Hs. destruct (H s Hs). split; [assumption | lra]. Qed.

Lemma total_visible_at_mono t t' a :
  good_start t (visible_start a) -> (t <= t')%Q ->
  total_visible_at t a <= total_visible_at t' a.
Proof.
  intros H Ht. unfold total_visible_at.
  destruct (visible_start a) as [vs|]; [|lia].
  destruct (truthyQ vs); [|lia].
  assert (py_int (t - vs) <= py_int (t' - vs)) by (apply py_int_mono; lra). lia.
Qed.

Lemma total_slouch_at_mono t t' a :
  good_start t (slouch_session_start a) -> (t <= t')%Q ->
  total_slouch_at t a <= total_slouch_at t' a.
Proof.
  intros H Ht. unfold total_slouch_at.
  destruct (slouch_session_start a) as [vs|]; [|lia].
  destruct (truthyQ vs); [|lia].
  assert (py_int (t - vs) <= py_int (t' - vs)) by (apply py_int_mono; lra). lia.
Qed.

Lemma opt_le_trans o x y : opt_le o x -> x <= y -> opt_le o y.
Proof. destruct o; simpl; [lia | auto]. Qed.

Lemma bounded_mono t t' lv ls a :
  bounded t lv ls a -> (t <= t')%Q -> bounded t' lv ls a.
Proof.
  intros (Hv & Hs & H1 & H2 & H3 & H4) Ht.
  pose proof (total_visible_at_mono t t' a Hv Ht).
  pose proof (total_slouch_at_mono t t' a Hs Ht).
  split; [eapply good_start_mono; eassumption|].
  split; [eapply good_start_mono; eassumption|].
  split; [lia|]. split; [lia|].
  split; eapply opt_le_trans; eassumption.
Qed.

Lemma bounded_weaken t lv ls a : bounded t lv ls a -> watermarks_ok t a.
Proof.
  intros (Hv & Hs & H1 & H2 & _ & _). unfold watermarks_ok, bounded. simpl. tauto.
Qed.

Lemma bounded_core t lv ls a a' : core a' = core a -> bounded t lv ls a -> bounded t lv ls a'.
Proof.
  unfold core. intros E. injection E as E1 E2 E3 E4 E5 E6.
  unfold bounded, total_visible_at, total_slouch_at.
  rewrite E1, E2, E3, E4, E5, E6. auto.
Qed.

(** Stages of the loop that do not touch the accumulators and watermarks. *)
Ltac unfold_statements :=
  unfold select_screen_time, replace_screen_time, select_posture_time,
    replace_posture_time, select_distance_log, replace_distance_log,
    select_screen_hourly, replace_screen_hourly, select_posture_hourly,
    replace_posture_hourly, select_distance_hourly, replace_distance_hourly,
    insert_alert, delete_from, query, update, log_exc, notify_os.

Ltac break_matches :=
  repeat match goal with
         | |- context [if ?b then _ else _] => destruct b
         | |- context [match ?x with _ => _ end] => destruct x
         end.

Ltac core_leaf :=
  intros; try unfold record_sample; cbn; break_matches; reflexivity.

Lemma emit_alert_core {X} (p : App -> X) ts msg : frame (same_on p) (emit_alert ts msg).
Proof. unfold emit_alert. unfold_statements. frames. Qed.

Lemma flush_hourly_metrics_core hk ac :
  frame (same_on (fun s => core (agg s))) (flush_hourly_metrics hk ac).
Proof.
  unfold flush_hourly_metrics. unfold_statements. frames; core_leaf.
Qed.

Lemma hour_rollover_core f : frame (same_on (fun s => core (agg s))) (hour_rollover f).
Proof.
  unfold hour_rollover.
  frames; try (intros; apply flush_hourly_metrics_core); core_leaf.
Qed.

Lemma twenty_reminder_core f : frame (same_on (fun s => core (agg s))) (twenty_reminder f).
Proof. unfold twenty_reminder. unfold_statements. frames; core_leaf. Qed.

Lemma account_visible_core f : frame (same_on (fun s => core (agg s))) (account_visible f).
Proof. unfold account_visible. frames; core_leaf. Qed.

Lemma account_slouch_core f : frame (same_on (fun s => core (agg s))) (account_slouch f).
Proof. unfold account_slouch. frames; core_leaf. Qed.

Lemma partial_frame_core f : frame (same_on (fun s => core (agg s))) (partial_frame f).
Proof.
  unfold partial_frame. frames; try (intros; apply emit_alert_core); core_leaf.
Qed.

Lemma distance_stage_core f : frame (same_on (fun s => core (agg s))) (distance_stage f).
Proof.
  unfold distance_stage. frames; try (intros; apply emit_alert_core); core_leaf.
Qed.

Lemma py_int_zero (q : Q) : (q == 0)%Q -> py_int q = 0.
Proof.
  destruct q as [n d]. unfold Qeq, py_int. simpl. intros H.
  assert (n = 0) by lia. subst n. reflexivity.
Qed.

Lemma py_int_self (t : Q) : py_int (t - t) = 0.
Proof. apply py_int_zero. ring. Qed.

Lemma good_start_truthy t o s : good_start t o -> o = Some s -> truthyQ s = true.
Proof. intros H E. apply truthyQ_pos. destruct (H s E). assumption. Qed.

Lemma good_start_elapsed t o s : good_start t o -> o = Some s -> 0 <= py_int (t - s).
Proof. intros H E. destruct (H s E). apply py_int_nonneg. lra. Qed.

Lemma good_start_none t : good_start t None.
Proof. intros s E. discriminate. Qed.

Lemma good_start_now t : (0 < t)%Q -> good_start t (Some t).
Proof. intros H s E. injection E as <-. split; [exact H | lra]. Qed.

(** A segment that opens now adds nothing yet. *)
Lemma bounded_open_visible t lv ls a :
  (0 < t)%Q -> bounded t lv ls a -> visible_start a = None ->
  bounded t lv ls (set_visible_start (Some t) a).
Proof.
  intros Ht (Hv & Hs & H1 & H2 & H3 & H4) E.
  unfold bounded, total_visible_at, total_slouch_at in *. rewrite E in *.
  cbn. rewrite (truthyQ_pos t Ht), py_int_self.
  split; [apply good_start_now, Ht|]. tauto.
Qed.

Lemma bounded_open_slouch t lv ls a :
  (0 < t)%Q -> bounded t lv ls a -> slouch_session_start a = None ->
  bounded t lv ls (set_slouch_session_start (Some t) a).
Proof.
  intros Ht (Hv & Hs & H1 & H2 & H3 & H4) E.
  unfold bounded, total_visible_at, total_slouch_at in *. rewrite E in *.
  cbn. rewrite (truthyQ_pos t Ht), py_int_self.
  split; [exact Hv|]. split; [apply good_start_now, Ht|]. tauto.
Qed.

(** A segment that closes now moves its elapsed time into the accumulator. *)
Lemma bounded_close_visible t lv ls a vs :
  bounded t lv ls a -> visible_start a = Some vs ->
  bounded t lv ls
    (set_visible_start None (set_visible_seconds (visible_seconds a + py_int (t - vs)) a)).
Proof.
  intros (Hv & Hs & H1 & H2 & H3 & H4) E.
  pose proof (good_start_truthy _ _ _ Hv E) as Tr.
  unfold bounded, total_visible_at, total_slouch_at in *. rewrite E, Tr in *.
  cbn. rewrite Z.add_0_r.
  split; [apply good_start_none|]. tauto.
Qed.

Lemma bounded_close_slouch t lv ls a s :
  bounded t lv ls a -> slouch_session_start a = Some s ->
  bounded t lv ls
    (set_slouch_session_start None
       (set_slouch_accum_seconds (slouch_accum_seconds a + py_int (t - s)) a)).
Proof.
  intros (Hv & Hs & H1 & H2 & H3 & H4) E.
  pose proof (good_start_truthy _ _ _ Hs E) as Tr.
  unfold bounded, total_visible_at, total_slouch_at in *. rewrite E, Tr in *.
  cbn. rewrite Z.add_0_r.
  split; [exact Hv|]. split; [apply good_start_none|]. tauto.
Qed.

Lemma bounded_self t lv ls a :
  bounded t lv ls a ->
  bounded t (Some (visible_seconds a)) (Some (slouch_accum_seconds a)) a.
Proof.
  intros (Hv & Hs & H1 & H2 & H3 & H4).
  unfold bounded, total_visible_at, total_slouch_at in *. cbn [opt_le].
  split; [exact Hv|]. split; [exact Hs|]. split; [exact H1|]. split; [exact H2|].
  split.
  - destruct (visible_start a) as [vs|] eqn:E; [|lia].
    rewrite (good_start_truthy _ _ _ Hv eq_refl).
    pose proof (good_start_elapsed _ _ _ Hv eq_refl). lia.
  - destruct (slouch_session_start a) as [vs|] eqn:E; [|lia].
    rewrite (good_start_truthy _ _ _ Hs eq_refl).
    pose proof (good_start_elapsed _ _ _ Hs eq_refl). lia.
Qed.

(** The watermark may move up to a total computed earlier. *)
Lemma bounded_save_visible t tv ls a :
  bounded t (Some tv) ls a -> bounded t (Some tv) ls (set_saved_visible_seconds tv a).
Proof.
  intros (Hv & Hs & H1 & H2 & H3 & H4).
  unfold bounded, total_visible_at, total_slouch_at in *. cbn in *. tauto.
Qed.

Lemma bounded_save_slouch t lv cs a :
  bounded t lv (Some cs) a -> bounded t lv (Some cs) (set_saved_slouch_seconds cs a).
Proof.
  intros (Hv & Hs & H1 & H2 & H3 & H4).
  unfold bounded, total_visible_at, total_slouch_at in *. cbn in *. tauto.
Qed.

(** The erase zeroes accumulators and watermarks together. *)
Lemma bounded_erase t a : watermarks_ok t a -> watermarks_ok t (erase_agg a).
Proof.
  intros Hb. pose proof (bounded_self _ _ _ _ Hb) as (Hv & Hs & _ & _ & H3 & H4).
  unfold watermarks_ok, bounded. cbn [opt_le] in *.
  change (visible_start (erase_agg a)) with (visible_start a).
  change (slouch_session_start (erase_agg a)) with (slouch_session_start a).
  change (saved_visible_seconds (erase_agg a)) with 0.
  change (saved_slouch_seconds (erase_agg a)) with 0.
  change (total_visible_at t (erase_agg a))
    with (0 + match visible_start a with
              | Some vs => if truthyQ vs then py_int (t - vs) else 0
              | None => 0
              end).
  change (total_slouch_at t (erase_agg a))
    with (0 + match slouch_session_start a with
              | Some vs => if truthyQ vs then py_int (t - vs) else 0
              | None => 0
              end).
  unfold total_visible_at, total_slouch_at in H3, H4.
  split; [exact Hv|]. split; [exact Hs|]. split; [lia|]. split; [lia|]. auto.
Qed.

(** From a frame on [core] to the preservation of [bounded]. *)
Lemma core_preserves {A} t lv ls (m : M A) :
  frame (same_on (fun s => core (agg s))) m ->
  preserves (on_app (fun s => bounded t lv ls (agg s))) m.
Proof.
  apply pv_same_on. intros s s' E. apply bounded_core. exact E.
Qed.

Lemma track_presence_bounded f lv ls :
  (0 < now f)%Q ->
  preserves (on_app (fun s => bounded (now f) lv ls (agg s))) (track_presence f).
Proof.
  intros Ht. unfold track_presence. pres.
  - intros s H. cbn. apply (bounded_core _ _ _
      (if truthy_time (visible_start (agg s)) then agg s
       else set_visible_start (Some (now f))
              (set_session_start (Some (now f))
                 (set_session_count (_session_count (agg s) + 1) (agg s)))));
      [destruct (truthy_time (visible_start (agg s))); reflexivity|].
    destruct (visible_start (agg s)) as [vs|] eqn:E.
    + pose proof H as (Hv & _). unfold truthy_time.
      rewrite (good_start_truthy _ _ _ Hv E). exact H.
    + cbn [truthy_time].
      apply (bounded_core _ _ _ (set_visible_start (Some (now f)) (agg s)));
        [reflexivity|]. apply bounded_open_visible; assumption.
  - intros s H. cbn. destruct (slouch_session_start (agg s)) as [v|] eqn:E; [|exact H].
    apply bounded_close_slouch; assumption.
  - intros s H. exact H.
  - intros s H. cbn. destruct (visible_start (agg s)) as [vs|] eqn:E; [|exact H].
    pose proof H as (Hv & _). rewrite (good_start_truthy _ _ _ Hv E).
    eapply bounded_core; [|apply (bounded_close_visible _ _ _ _ vs H E)].
    reflexivity.
Qed.

Lemma update_posture_state_bounded t ts fl lv ls :
  (0 < t)%Q ->
  preserves (on_app (fun s => bounded t lv ls (agg s))) (update_posture_state t ts fl).
Proof.
  intros Ht. unfold update_posture_state.
  pres; try (intros; apply core_preserves, emit_alert_core);
    try (intros s H; exact H).
  intros s H. cbn.
  destruct (_ && _); destruct (slouch_session_start (agg s)) as [v|] eqn:E;
    try exact H.
  - apply bounded_open_slouch; assumption.
  - apply bounded_close_slouch; assumption.
Qed.

Lemma posture_stage_bounded f lv ls :
  (0 < now_posture f)%Q ->
  preserves (on_app (fun s => bounded (now_posture f) lv ls (agg s))) (posture_stage f).
Proof.
  intros Ht. unfold posture_stage.
  pres; try (intros; apply update_posture_state_bounded; assumption).
  intros s H. exact H.
Qed.

Lemma save_screen_time_bounded mirror today t tv ls :
  preserves (on_app (fun s => bounded t (Some tv) ls (agg s)))
            (save_screen_time mirror today tv).
Proof.
  unfold save_screen_time. unfold_statements. pres.
  intros s H. cbn.
  eapply bounded_core; [|apply (bounded_save_visible _ _ _ _ H)].
  destruct mirror; reflexivity.
Qed.

Lemma save_posture_time_bounded mirror today t lv cs :
  preserves (on_app (fun s => bounded t lv (Some cs) (agg s)))
            (save_posture_time mirror today cs).
Proof.
  unfold save_posture_time. unfold_statements. pres.
  intros s H. cbn.
  eapply bounded_core; [|apply (bounded_save_slouch _ _ _ _ H)].
  destruct mirror; reflexivity.
Qed.

Lemma save_distance_log_core mirror today :
  frame (same_on (fun s => core (agg s))) (save_distance_log mirror today).
Proof. unfold save_distance_log. unfold_statements. frames; core_leaf. Qed.

Lemma periodic_save_bounded now today hour t tv cs :
  preserves (on_app (fun s => bounded t (Some tv) (Some cs) (agg s)))
            (periodic_save now today hour tv cs).
Proof.
  unfold periodic_save. pres.
  - apply save_screen_time_bounded.
  - apply save_posture_time_bounded.
  - apply core_preserves, save_distance_log_core.
  - apply core_preserves, flush_hourly_metrics_core.
  - intros s H. exact H.
Qed.

Lemma execute_data_erase_bounded t :
  preserves (on_app (fun s => watermarks_ok t (agg s))) execute_data_erase.
Proof.
  unfold execute_data_erase. unfold_statements. pres.
  - intros s H. apply bounded_erase, H.
  - intros s H. exact H.
Qed.

Lemma bounded_with_visible t lv ls a :
  bounded t lv ls a -> bounded t (Some (total_visible_at t a)) ls a.
Proof.
  intros (Hv & Hs & H1 & H2 & H3 & H4). unfold bounded. cbn [opt_le].
  repeat (split; [assumption|]). split; [lia | assumption].
Qed.

Lemma bounded_with_slouch t lv ls a :
  bounded t lv ls a -> bounded t lv (Some (total_slouch_at t a)) a.
Proof.
  intros (Hv & Hs & H1 & H2 & H3 & H4). unfold bounded. cbn [opt_le].
  repeat (split; [assumption|]). lia.
Qed.

(** The total returned by the accounting step is a lower bound of the
    total from then on. *)
Lemma account_visible_spec f lv ls w :
  on_app (fun s => bounded (now f) lv ls (agg s)) w ->
  wp (account_visible f)
     (fun tv => on_app (fun s => bounded (now f) (Some tv) ls (agg s)))
     (fun _ => False) w.
Proof.
  intros H. unfold account_visible, wp, bind, gets, modify_agg, modify, ret, on_app in *.
  cbn. eapply bounded_core; [|exact (bounded_with_visible _ _ _ _ H)].
  destruct (_ >? _); reflexivity.
Qed.

Lemma account_slouch_spec f lv ls w :
  on_app (fun s => bounded (now f) lv ls (agg s)) w ->
  wp (account_slouch f)
     (fun cs => on_app (fun s => bounded (now f) lv (Some cs) (agg s)))
     (fun _ => False) w.
Proof.
  intros H. unfold account_slouch, wp, bind, gets, modify_agg, modify, ret, on_app in *.
  cbn. eapply bounded_core; [|exact (bounded_with_slouch _ _ _ _ H)].
  destruct (_ >? _); reflexivity.
Qed.

(** One step of [wp] along a stage that preserves the current predicate. *)
Ltac wp_stage lemma H :=
  eapply wp_seq; [eapply pv_wp; [| exact H]; lemma | cbn beta | cbn beta].

Ltac fin_by Hfin :=
  let w := fresh "w" in let H := fresh "H" in intros w H; exact (Hfin _ _ _ H).

(** One loop iteration keeps the watermarks below the totals, whether its
    statements succeed or raise. *)
Lemma stats_iteration_watermarks interval f t w :
  (0 < t)%Q -> (t <= now f)%Q -> (now f <= now_posture f)%Q ->
  watermarks_ok t (agg (app w)) ->
  watermarks_ok (now_posture f) (agg (app (snd (stats_iteration interval f w)))).
Proof.
  intros Ht H1 H2 Hw.
  assert (Hnow : (0 < now f)%Q) by lra.
  assert (Hnp : (0 < now_posture f)%Q) by lra.
  set (Fin := on_app (fun s => watermarks_ok (now_posture f) (agg s))).
  assert (Hfin : forall lv ls w', on_app (fun s => bounded (now f) lv ls (agg s)) w' -> Fin w').
  { intros lv ls w' H. eapply bounded_weaken, bounded_mono; [exact H | exact H2]. }
  assert (Hfin' : forall lv ls w',
             on_app (fun s => bounded (now_posture f) lv ls (agg s)) w' -> Fin w').
  { intros lv ls w' H. eapply bounded_weaken, H. }
  change (Fin (snd (stats_iteration interval f w))).
  apply wp_snd. unfold stats_iteration. apply wp_try.
  apply wp_mono with (Q := fun _ => Fin) (E := Fin); [| auto | intros w' H; exact H].
  assert (H0 : on_app (fun s => bounded (now f) None None (agg s)) w).
  { eapply bounded_mono; [exact Hw | exact H1]. }

  wp_stage ltac:(apply core_preserves, hour_rollover_core) H0;
    [intros _ w1 Hw1 | fin_by Hfin].
  wp_stage ltac:(apply core_preserves, twenty_reminder_core) Hw1;
    [intros _ w2 Hw2 | fin_by Hfin].
  wp_stage ltac:(apply track_presence_bounded; exact Hnow) Hw2;
    [intros _ w3 Hw3 | fin_by Hfin].
  eapply wp_seq; [exact (account_visible_spec _ _ _ _ Hw3) | cbn beta | intros ? []].
  intros tv w4 Hw4.
  wp_stage ltac:(apply core_preserves, partial_frame_core) Hw4;
    [intros _ w5 Hw5 | fin_by Hfin].
  eapply wp_seq; [exact (account_slouch_spec _ _ _ _ Hw5) | cbn beta | intros ? []].
  intros cs w6 Hw6.
  assert (Hw6' : on_app (fun s => bounded (now_posture f) (Some tv) (Some cs) (agg s)) w6).
  { eapply bounded_mono; [exact Hw6 | exact H2]. }
  wp_stage ltac:(apply posture_stage_bounded; exact Hnp) Hw6';
    [intros _ w7 Hw7 | fin_by Hfin'].
  wp_stage ltac:(apply core_preserves, distance_stage_core) Hw7;
    [intros _ w8 Hw8 | fin_by Hfin'].
  wp_stage ltac:(apply pv_gets) Hw8; [intros a w9 Hw9 | fin_by Hfin'].
  wp_stage ltac:(apply pv_has_cursor) Hw9; [intros cur w10 Hw10 | fin_by Hfin'].
  eapply wp_mono; [eapply pv_wp; [| exact Hw10]; apply pv_when, periodic_save_bounded
                  | intros ?; fin_by Hfin' | fin_by Hfin'].
Qed.

Lemma bounded_close_segments t lv ls a :
  bounded t lv ls a -> bounded t lv ls (close_segments t a).
Proof.
  intros H. unfold close_segments.
  assert (H' : bounded t lv ls
            match visible_start a with
            | Some vs =>
                if truthyQ vs
                then set_visible_start None
                       (set_visible_seconds (visible_seconds a + py_int (t - vs)) a)
                else a
            | None => a
            end).
  { destruct (visible_start a) as [vs|] eqn:E; [|exact H].
    pose proof H as (Hv & _). rewrite (good_start_truthy _ _ _ Hv E).
    apply bounded_close_visible; assumption. }
  revert H'. generalize (match visible_start a with
                         | Some vs =>
                             if truthyQ vs
                             then set_visible_start None
                                    (set_visible_seconds
                                       (visible_seconds a + py_int (t - vs)) a)
                             else a
                         | None => a
                         end).
  intros a' H'. destruct (slouch_session_start a') as [s|] eqn:E; [|exact H'].
  apply bounded_close_slouch; assumption.
Qed.

Lemma final_save_watermarks today hour t w :
  watermarks_ok t (agg (app w)) ->
  watermarks_ok t (agg (app (snd (final_save today hour w)))).
Proof.
  intros Hw.
  set (Fin := on_app (fun s => watermarks_ok t (agg s))).
  assert (Hfin : forall lv ls w', on_app (fun s => bounded t lv ls (agg s)) w' -> Fin w').
  { intros lv ls w' H. eapply bounded_weaken, H. }
  change (Fin (snd (final_save today hour w))).
  apply wp_snd. unfold final_save. apply wp_try.
  apply wp_mono with (Q := fun _ => Fin) (E := Fin); [| auto | intros w' H; exact H].
  apply wp_bind, wp_gets.
  pose proof (bounded_self _ _ _ _ Hw) as H0.
  change (on_app (fun s => bounded t (Some (visible_seconds (agg (app w))))
                             (Some (slouch_accum_seconds (agg (app w)))) (agg s)) w) in H0.
  wp_stage ltac:(apply save_screen_time_bounded) H0; [intros c1 w1 Hw1 | fin_by Hfin].
  apply wp_bind, wp_gets.
  pose proof (bounded_self _ _ _ _ Hw1) as H1.
  change (on_app (fun s => bounded t (Some (visible_seconds (agg (app w1))))
                             (Some (slouch_accum_seconds (agg (app w1)))) (agg s)) w1) in H1.
  wp_stage ltac:(apply save_posture_time_bounded) H1; [intros c2 w2 Hw2 | fin_by Hfin].
  wp_stage ltac:(apply core_preserves, save_distance_log_core) Hw2;
    [intros c3 w3 Hw3 | fin_by Hfin].
  wp_stage ltac:(apply core_preserves, flush_hourly_metrics_core) Hw3;
    [intros h w4 Hw4 | fin_by Hfin].
  eapply wp_mono; [eapply pv_wp; [| exact Hw4]; apply pv_when, pv_commit
                  | intros ?; fin_by Hfin | fin_by Hfin].
Qed.

Lemma on_close_watermarks t today hour w :
  watermarks_ok t (agg (app w)) ->
  watermarks_ok t (agg (app (snd (on_close t today hour w)))).
Proof.
  intros Hw.
  set (Fin := on_app (fun s => watermarks_ok t (agg s))).
  change (Fin (snd (on_close t today hour w))).
  apply wp_snd. unfold on_close.
  eapply wp_seq with (Q1 := fun _ => Fin) (E1 := Fin).
  - apply wp_try.
    apply wp_mono with (Q := fun _ => Fin) (E := Fin); [| auto | intros w' H; exact H].
    unfold modify_agg. apply wp_bind, wp_modify.
    assert (H1 : Fin (set_app (set_agg (close_segments t (agg (app w))) (app w)) w)).
    { apply bounded_close_segments, Hw. }
    revert H1. generalize (set_app (set_agg (close_segments t (agg (app w))) (app w)) w).
    intros w1 H1. apply wp_bind, wp_has_cursor.
    destruct (store w1); cbn [when]; [|exact H1].
    apply wp_mono with (Q := fun _ => Fin) (E := Fin); [| auto | auto].
    pose proof (final_save_watermarks today hour t w1 H1) as H2.
    unfold wp. destruct (final_save today hour w1) as [[[]|] w2]; exact H2.
  - intros _ w1 H1. apply pv_wp; [apply pv_conn_close | exact H1].
  - intros w1 H1. exact H1.
Qed.

(** Every step of an execution keeps the watermarks below the totals. *)
Lemma run_watermarks interval (evs : list Event) :
  forall (w : World) (clock : Q),
    (0 < clock)%Q -> well_timed clock evs = true ->
    watermarks_ok clock (agg (app w)) ->
    watermarks_ok (clock_after clock evs) (agg (app (run interval evs w))).
Proof.
  induction evs as [|e evs IH]; intros w clock Hc Ht Hw; [exact Hw|].
  destruct e as [f | | c | n | t today hour]; cbn [run clock_after well_timed] in *.
  - apply andb_true_iff in Ht as [Ht Ht3]. apply andb_true_iff in Ht as [Ht1 Ht2].
    apply Qleb_iff in Ht1, Ht2.
    apply IH; [lra | exact Ht3|]. cbn [step].
    apply (stats_iteration_watermarks interval f clock); assumption.
  - apply IH; [exact Hc | exact Ht|]. cbn [step].
    apply (execute_data_erase_bounded clock w Hw).
  - apply IH; [exact Hc | exact Ht | exact Hw].
  - apply IH; [exact Hc | exact Ht|]. cbn [step]. unfold arm_fault.
    destruct (store w); exact Hw.
  - apply andb_true_iff in Ht as [Ht1 _]. apply Qleb_iff in Ht1. cbn [step].
    apply on_close_watermarks. eapply bounded_mono; [exact Hw | exact Ht1].
Qed.

(** ** A flush with nothing to flush *)

Lemma max0_quiet (x y : Z) : (Z.max 0 (x - y) >? 0) = false <-> x <= y.
Proof. rewrite Z.gtb_ltb, Z.ltb_ge. lia. Qed.

Lemma flush_hourly_quiet hk ac w :
  (pending_hour_visible_seconds (agg (app w)) >? 0) = false ->
  (pending_hour_slouch_seconds (agg (app w)) >? 0) = false ->
  (pending_hour_distance_count (agg (app w)) >? 0) = false ->
  flush_hourly_metrics hk ac w = (Ok false, w).
Proof.
  intros H1 H2 H3. unfold flush_hourly_metrics, try_except, bind, has_cursor, gets.
  destruct hk as [hk|]; [|reflexivity].
  destruct (store w); cbn [negb]; [|reflexivity].
  rewrite H1, H2, H3. reflexivity.
Qed.

(** With nothing pending the save block issues no statement and leaves the
    world as it is. *)
Lemma periodic_save_quiet now today hour tv cs w :
  quiet tv cs (app w) -> periodic_save now today hour tv cs w = (Ok tt, w).
Proof.
  intros (H1 & H2 & H3 & H4 & H5 & H6).
  unfold periodic_save, try_except, bind.
  unfold save_screen_time at 1. unfold bind, gets. rewrite H1. cbn [ret].
  unfold save_posture_time at 1. unfold bind, gets. rewrite H2. cbn [ret].
  unfold save_distance_log at 1. unfold bind, gets. rewrite H3. cbn [ret].
  rewrite (flush_hourly_quiet _ _ _ H4 H5 H6). reflexivity.
Qed.

Ltac open_healthy :=
  let s := fresh "s" in let st := fresh "st" in let ef := fresh "ef" in
  let cm := fresh "cm" in let wk := fresh "wk" in let fl := fresh "fl" in
  let Hs := fresh "Hs" in let Hf := fresh "Hf" in
  intros [s st ef] ([cm wk fl] & Hs & Hf & ?);
  simpl in Hs, Hf; subst st fl.

Ltac close_healthy :=
  eexists; split; [reflexivity|]; split; [reflexivity|].

Lemma save_screen_time_settles mirror today tv w :
  healthy w ->
  wp (save_screen_time mirror today tv)
     (fun _ => healthy_with (fun _ s => q1 tv s)) (fun _ => False) w.
Proof.
  revert w. intros [s st ef] ([cm wk fl] & Hs & Hf). simpl in Hs, Hf. subst st fl.
  unfold wp, save_screen_time, bind, gets. cbn [app].
  destruct (Z.max 0 (tv - saved_visible_seconds (agg s)) >? 0) eqn:E.
  - cbn. close_healthy. unfold q1. cbn. destruct mirror; cbn; apply max0_quiet; lia.
  - cbn. close_healthy. exact E.
Qed.

Lemma save_posture_time_settles mirror today tv cs w :
  healthy_with (fun _ s => q1 tv s) w ->
  wp (save_posture_time mirror today cs)
     (fun _ => healthy_with (fun _ s => q2 tv cs s)) (fun _ => False) w.
Proof.
  revert w. open_healthy.
  unfold wp, save_posture_time, bind, gets. cbn [app].
  destruct (Z.max 0 (cs - saved_slouch_seconds (agg s)) >? 0) eqn:E.
  - cbn. close_healthy. unfold q2, q1 in *. cbn in *.
    destruct mirror; cbn; (split; [assumption | apply max0_quiet; lia]).
  - cbn. close_healthy. split; assumption.
Qed.

Lemma save_distance_log_settles mirror today tv cs w :
  healthy_with (fun _ s => q2 tv cs s) w ->
  wp (save_distance_log mirror today)
     (fun _ => healthy_with (fun _ s => q3 tv cs s)) (fun _ => False) w.
Proof.
  revert w. open_healthy.
  unfold wp, save_distance_log, bind, gets. cbn [app].
  destruct (enable_distance (cfg s) && (pending_distance_count (agg s) >? 0)) eqn:E.
  - cbn -[merge_distance_log]. close_healthy. unfold q3, q2, q1 in *.
    destruct mirror; cbn -[merge_distance_log] in *;
      (split; [assumption | apply andb_false_r]).
  - cbn. close_healthy. split; assumption.
Qed.

Lemma flush_hourly_settles hk tv cs w :
  healthy_with (fun _ s => q3 tv cs s) w ->
  wp (flush_hourly_metrics (Some hk) false)
     (fun _ => healthy_with (fun _ s => quiet tv cs s)) (fun _ => False) w.
Proof.
  revert w. open_healthy.
  unfold wp, flush_hourly_metrics, try_except, bind, gets, has_cursor. cbn [app store negb].
  unfold q3, q2, q1 in *.
  destruct (pending_hour_visible_seconds (agg s) >? 0) eqn:E1;
    destruct (pending_hour_slouch_seconds (agg s) >? 0) eqn:E2;
    destruct (pending_hour_distance_count (agg s) >? 0) eqn:E3;
    cbn; close_healthy; unfold quiet; cbn; tauto.
Qed.

(** After a save on a healthy store nothing is pending any more. *)
Lemma periodic_save_settles now today hour tv cs w :
  healthy w ->
  healthy_with (fun _ s => quiet tv cs s) (snd (periodic_save now today hour tv cs w)).
Proof.
  intros Hw. apply wp_snd. unfold periodic_save. apply wp_try.
  eapply wp_seq; [apply save_screen_time_settles; exact Hw | cbn beta | intros ? []].
  intros c1 w1 H1.
  eapply wp_seq; [apply save_posture_time_settles; exact H1 | cbn beta | intros ? []].
  intros c2 w2 H2.
  eapply wp_seq; [apply save_distance_log_settles; exact H2 | cbn beta | intros ? []].
  intros c3 w3 H3.
  eapply wp_seq; [apply flush_hourly_settles; exact H3 | cbn beta | intros ? []].
  intros h w4 H4. destruct (c1 || c2 || c3 || h); cbn [when]; [|exact H4].
  revert w4 H4. open_healthy. unfold wp. cbn. close_healthy. assumption.
Qed.

(** C3 (amended): along every execution (loop iterations, erases, settings
    changes, store failures, shutdown, each run to its end before the
    next) whose clocks are positive and do not go back, the saved
    watermark of the visible-time accumulator and of the bad-posture-time
    accumulator is at most the accumulated total, now and at any later
    clock, so the unsaved delta [max(0, total - watermark)] is the plain
    difference; and a save that follows a save on a working store, with the
    same totals and no new sample, issues no statement and leaves the world
    (store and application object) as it is. *)
Theorem C3_watermarks_below_totals
    (interval : Q) (c : Config) (cal : Calibration) (t0 : Q) (ld : Loaded)
    (db : option Db) (evs : list Event) :
  (0 < t0)%Q -> well_timed t0 evs = true ->
  let a := agg (app (run interval evs (initial_world c cal t0 ld db))) in
  (forall t : Q,
      (clock_after t0 evs <= t)%Q ->
      saved_visible_seconds a <= total_visible_at t a
      /\ saved_slouch_seconds a <= total_slouch_at t a
      /\ _unsaved_visible_seconds t a = total_visible_at t a - saved_visible_seconds a
      /\ _unsaved_slouch_seconds t a = total_slouch_at t a - saved_slouch_seconds a)
  /\ (forall (w : World) (now now' : Q) (today hour today' hour' : string) (tv cs : Z),
        healthy w ->
        let w1 := snd (periodic_save now today hour tv cs w) in
        periodic_save now' today' hour' tv cs w1 = (Ok tt, w1)).
Proof.
  intros Ht0 Htimed a. split.
  - intros t Ht.
    assert (H0 : watermarks_ok t0 (agg (app (initial_world c cal t0 ld db)))).
    { unfold watermarks_ok, bounded, total_visible_at, total_slouch_at. cbn.
      split; [apply good_start_none|]. split; [apply good_start_none|].
      split; [lia|]. split; [lia|]. split; exact I. }
    pose proof (run_watermarks interval evs _ t0 Ht0 Htimed H0) as H.
    fold a in H. pose proof (bounded_mono _ _ _ _ _ H Ht) as (_ & _ & H1 & H2 & _).
    unfold _unsaved_visible_seconds, _unsaved_slouch_seconds. lia.
  - intros w now now' today hour today' hour' tv cs Hw w1.
    apply periodic_save_quiet.
    destruct (periodic_save_settles now today hour tv cs w Hw) as (d & _ & _ & H).
    exact H.
Qed.

Lemma C3_watermarks_witness :
  (let a := agg (app (run SAVE_INTERVAL_SEC demo_events
                        (initial_world demo_config demo_calibration 100 demo_loaded
                           (Some demo_db)))) in
   saved_visible_seconds a <= total_visible_at 2000 a)
  /\ (let w1 := snd (periodic_save 120 "2026-01-01" "2026-01-01 10" 20 0 demo_pending_world) in
      periodic_save 121 "2026-01-01" "2026-01-01 10" 20 0 w1 = (Ok tt, w1)).
Proof.
  assert (H0 : (0 < 100)%Q) by reflexivity.
  assert (Ht : well_timed 100 demo_events = true) by (vm_compute; reflexivity).
  pose proof (C3_watermarks_below_totals SAVE_INTERVAL_SEC demo_config demo_calibration
                100 demo_loaded (Some demo_db) demo_events H0 Ht) as H.
  cbv zeta in H. destruct H as [H1 H2]. split.
  - cbv zeta. refine (proj1 (H1 2000%Q _)).
    vm_compute. discriminate.
  - refine (H2 demo_pending_world 120%Q 121%Q "2026-01-01" "2026-01-01 10"
              "2026-01-01" "2026-01-01 10" 20 0 _).
    exists demo_pending_db. split; reflexivity.
Defined.

(** C3, as the claim states it (at every point in every execution), fails
    when the clock steps back: the user is in view from clock 100, the
    iteration at clock 120 saves 20 s and moves the watermark to 20, and
    the next iteration reads clock 110, at which the accumulated total is
    10 s; the unsaved delta is 0 only because it is clamped. *)
Lemma C3_counterexample :
  let a := agg (app (run SAVE_INTERVAL_SEC demo_clock_back demo_world)) in
  well_timed 100 demo_clock_back = false
  /\ saved_visible_seconds a = 20
  /\ total_visible_at 110 a = 10
  /\ _unsaved_visible_seconds 110 a = 0.
Proof. vm_compute. repeat split. Qed.

(** ** Visible seconds and flush timing *)

Lemma column_total_insert (m : gmap string Z) (k : string) (d : Z) :
  column_total (<[k := default 0 (m !! k) + d]> m) = column_total m + d.
Proof.
  unfold column_total.
  assert (Hc : forall z1 z2 y : Z, z1 + (z2 + y) = z2 + (z1 + y))
    by (intros; lia).
  destruct (m !! k) as [v|] eqn:E; cbn [default].
  - rewrite <- (insert_delete_eq m k (v + d)).
    rewrite map_fold_insert_L; [| intros; apply Hc | apply lookup_delete_eq].
    rewrite (map_fold_delete_L _ 0 k v m); [lia | intros; apply Hc | exact E].
  - rewrite map_fold_insert_L; [lia | intros; apply Hc | exact E].
Qed.

Ltac tally_leaf :=
  let s := fresh "s" in let st := fresh "st" in let ef := fresh "ef" in
  let cm := fresh "cm" in let wk := fresh "wk" in let fl := fresh "fl" in
  let Hs := fresh "Hs" in let Hf := fresh "Hf" in
  let H1 := fresh "H1" in let H2 := fresh "H2" in
  let H3 := fresh "H3" in let H4 := fresh "H4" in
  intros; unfold safe;
  intros [s st ef] ([cm wk fl] & Hs & Hf & H1 & H2 & H3 & H4);
  simpl in Hs, Hf; subst st fl;
  unfold wp; cbn -[Z.add Z.max Qplus Qmult Qdiv Qminus];
  eexists; split; [reflexivity|]; split; [reflexivity|];
  try unfold record_sample;
  unfold tallied, vis in *;
  cbn -[Z.add Z.max Qplus Qmult Qdiv Qminus] in H1, H2, H3, H4 |- *;
  break_matches;
  cbn -[Z.add Z.max Qplus Qmult Qdiv Qminus];
  (split; [exact H1|]; split; [exact H2|]; split; [exact H3|]);
  first [exact H4 | intros _; reflexivity].

Ltac tally := safe_split; try tally_leaf.

Lemma emit_alert_tally sy base x k ts msg :
  safe (healthy_with (tallied sy base x k)) (emit_alert ts msg).
Proof. unfold emit_alert. unfold_statements. tally. Qed.

Lemma flush_hourly_tally sy base x k hk ac :
  safe (healthy_with (tallied sy base x k)) (flush_hourly_metrics hk ac).
Proof. unfold flush_hourly_metrics. unfold_statements. unfold emit. tally. Qed.

Lemma hour_rollover_tally sy base x k f :
  safe (healthy_with (tallied sy base x k)) (hour_rollover f).
Proof.
  unfold hour_rollover. tally; try (intros; apply flush_hourly_tally).
Qed.

Lemma twenty_reminder_tally sy base x k f :
  safe (healthy_with (tallied sy base x k)) (twenty_reminder f).
Proof. unfold twenty_reminder. unfold_statements. tally. Qed.

Lemma account_visible_tally sy base x k f :
  safe (healthy_with (tallied sy base x k)) (account_visible f).
Proof. unfold account_visible. tally. Qed.

Lemma account_slouch_tally sy base x k f :
  safe (healthy_with (tallied sy base x k)) (account_slouch f).
Proof. unfold account_slouch. tally. Qed.

Lemma partial_frame_tally sy base x k f :
  safe (healthy_with (tallied sy base x k)) (partial_frame f).
Proof.
  unfold partial_frame. unfold_statements. tally; try (intros; apply emit_alert_tally).
Qed.

Lemma distance_stage_tally sy base x k f :
  safe (healthy_with (tallied sy base x k)) (distance_stage f).
Proof.
  unfold distance_stage. unfold_statements. tally; try (intros; apply emit_alert_tally).
Qed.

Lemma update_posture_state_tally sy base x k t ts fl :
  safe (healthy_with (tallied sy base x k)) (update_posture_state t ts fl).
Proof.
  unfold update_posture_state. unfold_statements. tally; try (intros; apply emit_alert_tally).
Qed.

Lemma posture_stage_tally sy base x k f :
  safe (healthy_with (tallied sy base x k)) (posture_stage f).
Proof.
  unfold posture_stage. safe_split; cbv zeta; tally; try (intros; apply update_posture_state_tally).
Qed.

Lemma save_posture_time_tally sy base x k mirror today cs :
  safe (healthy_with (tallied sy base x k)) (save_posture_time mirror today cs).
Proof. unfold save_posture_time. unfold_statements. tally. Qed.

Lemma save_distance_log_tally sy base x k mirror today :
  safe (healthy_with (tallied sy base x k)) (save_distance_log mirror today).
Proof. unfold save_distance_log. unfold_statements. tally. Qed.

(** The daily screen-time block: the column total follows the watermark,
    which ends at [tv] or stays where it was, at or above [tv]. *)
Lemma save_screen_time_tally base x k mirror today tv w :
  healthy_with (tallied true base x k) w ->
  wp (save_screen_time mirror today tv)
     (fun c1 => healthy_with (tallied (negb c1) base x (fun v => tv <= v /\ (v = tv \/ k v))))
     (fun _ => False) w.
Proof.
  revert w. intros [s st ef] ([cm wk fl] & Hs & Hf & H1 & H2 & H3 & H4).
  simpl in Hs, Hf. subst st fl.
  unfold wp, save_screen_time, bind, gets. cbn [app].
  destruct (Z.max 0 (tv - saved_visible_seconds (agg s)) >? 0) eqn:E.
  - apply Z.gtb_lt in E.
    unfold select_screen_time, replace_screen_time, query, update, modify_agg.
    cbn -[Z.add Z.max]. close_healthy. unfold tallied, vis in *.
    cbn -[Z.add Z.max] in H1, H2 |- *.
    split; [|split; [|split]].
    + destruct mirror; cbn -[Z.add Z.max]; rewrite column_total_insert; lia.
    + destruct mirror; exact H2.
    + destruct mirror; cbn; lia.
    + discriminate.
  - apply max0_quiet in E. cbn. close_healthy.
    split; [exact H1|]. split; [exact H2|]. split; [|exact H4]. tauto.
Qed.

Lemma commit_tally sy base x k :
  safe (healthy_with (tallied sy base x k)) commit.
Proof. tally_leaf. Qed.

Lemma commit_syncs sy base x k w :
  healthy_with (tallied sy base x k) w ->
  wp commit (fun _ => healthy_with (tallied true base x k)) (fun _ => False) w.
Proof.
  revert w. intros [s st ef] ([cm wk fl] & Hs & Hf & H1 & H2 & H3 & H4).
  simpl in Hs, Hf. subst st fl. unfold wp, commit. cbn. close_healthy.
  split; [exact H1|]. split; [exact H2|]. split; [exact H3|]. reflexivity.
Qed.

Lemma tallied_weaken sy base x (k k' : Z -> Prop) w :
  (forall v, k v -> k' v) ->
  healthy_with (tallied sy base x k) w -> healthy_with (tallied sy base x k') w.
Proof.
  intros Hk (d & Hs & Hf & H1 & H2 & H3 & H4).
  exists d. split; [exact Hs|]. split; [exact Hf|].
  split; [exact H1|]. split; [exact H2|]. split; [apply Hk, H3 | exact H4].
Qed.

(** The save block keeps the tally and leaves the column committed. *)
Lemma periodic_save_tally base x k now today hour tv cs w :
  healthy_with (tallied true base x k) w ->
  wp (periodic_save now today hour tv cs)
     (fun _ => healthy_with (tallied true base x (fun v => tv <= v /\ (v = tv \/ k v))))
     (fun _ => False) w.
Proof.
  intros Hw. unfold periodic_save. apply wp_try.
  eapply wp_mono with (E := fun _ => False); [| intros a w' H; exact H | intros ? []].
  eapply wp_seq; [apply save_screen_time_tally; exact Hw | cbn beta | exc_post].
  intros c1 w1 H1.
  eapply wp_seq; [apply sf_wp; [apply save_posture_time_tally | exact H1]
                 | cbn beta | exc_post].
  intros c2 w2 H2.
  eapply wp_seq; [apply sf_wp; [apply save_distance_log_tally | exact H2]
                 | cbn beta | exc_post].
  intros c3 w3 H3.
  eapply wp_seq; [apply sf_wp; [apply flush_hourly_tally | exact H3]
                 | cbn beta | exc_post].
  intros h w4 H4.
  destruct (c1 || c2 || c3 || h) eqn:E; cbn [when].
  - eapply wp_seq; [exact (commit_syncs _ _ _ _ _ H4) | cbn beta | exc_post].
    intros _ w5 H5. apply sf_wp; [unfold modify_agg; tally_leaf | exact H5].
  - destruct c1; [discriminate E|]. exact H4.
Qed.

(** Presence accounting moves the visible-time accumulator by one sample. *)
Lemma track_presence_tally sy base x k f w :
  (forall s, fst x = Some s -> (0 < s)%Q) ->
  healthy_with (tallied sy base x k) w ->
  wp (track_presence f)
     (fun _ => healthy_with (tallied sy base (presence (now f) (face_detected f) x) k))
     (fun _ => False) w.
Proof.
  intros Hx. revert w. intros [s st ef] ([cm wk fl] & Hs & Hf & H1 & H2 & H3 & H4).
  simpl in Hs, Hf. subst st fl. unfold vis in H2. subst x.
  cbn -[Z.add] in H1, H3, H4, Hx.
  unfold wp, track_presence, presence. cbn [fst snd].
  destruct (face_detected f).
  - cbn -[Z.add]. close_healthy. unfold tallied, vis.
    destruct (visible_start (agg s)) as [vs|] eqn:E; cbn -[Z.add].
    + rewrite (truthyQ_pos vs (Hx vs eq_refl)). cbn -[Z.add]. rewrite E. tauto.
    + tauto.
  - cbn -[Z.add]. close_healthy. unfold tallied, vis. cbn -[Z.add].
    destruct (slouch_session_start (agg s)); cbn -[Z.add];
      (destruct (visible_start (agg s)) as [vs|] eqn:E; cbn -[Z.add];
       [rewrite (truthyQ_pos vs (Hx vs eq_refl)); cbn -[Z.add]; tauto
       | rewrite E, Z.add_0_r; tauto]).
Qed.

(** One loop iteration on a working store keeps the tally and moves the
    visible-time accumulator by the sample of its frame. *)
Lemma stats_iteration_tally interval base x f w :
  (forall s, fst x = Some s -> (0 < s)%Q) ->
  healthy_with (tallied true base x (fun _ => True)) w ->
  healthy_with (tallied true base (presence (now f) (face_detected f) x) (fun _ => True))
    (snd (stats_iteration interval f w)).
Proof.
  intros Hx Hw. apply wp_snd. unfold stats_iteration. apply wp_try.
  eapply wp_mono with (E := fun _ => False); [| intros a w' H; exact H | intros ? []].
  eapply wp_seq; [apply sf_wp; [apply hour_rollover_tally | exact Hw] | cbn beta | exc_post].
  intros _ w1 H1.
  eapply wp_seq; [apply sf_wp; [apply twenty_reminder_tally | exact H1] | cbn beta | exc_post].
  intros _ w2 H2.
  eapply wp_seq; [exact (track_presence_tally _ _ _ _ f _ Hx H2) | cbn beta | exc_post].
  intros _ w3 H3.
  eapply wp_seq; [apply sf_wp; [apply account_visible_tally | exact H3] | cbn beta | exc_post].
  intros tv w4 H4.
  eapply wp_seq; [apply sf_wp; [apply partial_frame_tally | exact H4] | cbn beta | exc_post].
  intros _ w5 H5.
  eapply wp_seq; [apply sf_wp; [apply account_slouch_tally | exact H5] | cbn beta | exc_post].
  intros cs w6 H6.
  eapply wp_seq; [apply sf_wp; [apply posture_stage_tally | exact H6] | cbn beta | exc_post].
  intros _ w7 H7.
  eapply wp_seq; [apply sf_wp; [apply distance_stage_tally | exact H7] | cbn beta | exc_post].
  intros _ w8 H8.
  eapply wp_seq; [apply sf_wp; [apply sf_gets | exact H8] | cbn beta | exc_post].
  intros a w9 H9.
  eapply wp_seq; [apply sf_wp; [apply sf_has_cursor | exact H9] | cbn beta | exc_post].
  intros cur w10 H10.
  destruct (Qgtb (now f - last_save_time a) interval && cur); cbn [when]; [|exact H10].
  eapply wp_mono; [exact (periodic_save_tally _ _ _ _ _ _ _ _ _ H10) | | intros ? []].
  cbn beta. intros _ w11 H11. eapply tallied_weaken; [|exact H11]. auto.
Qed.

(** The last flush leaves the watermark at the accumulated total and the
    column committed. *)
Lemma final_save_tally base vsec today hour w :
  healthy_with (tallied true base (None, vsec) (fun v => v <= vsec)) w ->
  wp (final_save today hour)
     (fun _ => healthy_with (tallied true base (None, vsec) (fun v => v = vsec)))
     (fun _ => False) w.
Proof.
  intros Hw. unfold final_save. apply wp_try.
  eapply wp_mono with (E := fun _ => False); [| intros a w' H; exact H | intros ? []].
  apply wp_bind, wp_gets.
  assert (Hv : visible_seconds (agg (app w)) = vsec).
  { destruct Hw as (d & _ & _ & _ & H2 & _). unfold vis in H2. congruence. }
  rewrite Hv.
  eapply wp_seq; [exact (save_screen_time_tally _ _ _ false today vsec _ Hw)
                 | cbn beta | exc_post].
  intros c1 w1 H1.
  assert (H1' : healthy_with (tallied (negb c1) base (None, vsec) (fun v => v = vsec)) w1).
  { eapply tallied_weaken; [|exact H1]. cbn beta. intros v. lia. }
  clear H1.
  eapply wp_seq; [apply sf_wp; [apply sf_gets | exact H1'] | cbn beta | exc_post].
  intros a1 w1' H1.
  eapply wp_seq; [apply sf_wp; [apply save_posture_time_tally | exact H1]
                 | cbn beta | exc_post].
  intros c2 w2 H2.
  eapply wp_seq; [apply sf_wp; [apply save_distance_log_tally | exact H2]
                 | cbn beta | exc_post].
  intros c3 w3 H3.
  eapply wp_seq; [apply sf_wp; [apply flush_hourly_tally | exact H3]
                 | cbn beta | exc_post].
  intros h w4 H4.
  destruct (c1 || c2 || c3 || h) eqn:E; cbn [when].
  - exact (commit_syncs _ _ _ _ _ H4).
  - destruct c1; [discriminate E|]. exact H4.
Qed.

(** Closing the window closes the open segment and leaves the committed
    column at [base] plus the accumulated total. *)
Lemma on_close_tally base x t today hour w :
  good_start t (fst x) ->
  saved_visible_seconds (agg (app w)) <= total_visible_at t (agg (app w)) ->
  healthy_with (tallied true base x (fun _ => True)) w ->
  let vsec := snd x + match fst x with Some s => py_int (t - s) | None => 0 end in
  healthy_with (fun d s =>
      visible_seconds (agg s) = vsec
      /\ column_total (screen_time (committed d)) = base + vsec)
    (snd (on_close t today hour w)).
Proof.
  intros Hg Hsv Hw vsec. apply wp_snd. unfold on_close.
  eapply wp_seq
    with (Q1 := fun _ => healthy_with (tallied true base (None, vsec) (fun v => v = vsec)))
         (E1 := fun _ => False); [| | intros ? []].
  - apply wp_try.
    eapply wp_mono with (E := fun _ => False); [| intros a w' H; exact H | intros ? []].
    unfold modify_agg. apply wp_bind, wp_modify.
    assert (H1 : healthy_with (tallied true base (None, vsec) (fun v => v <= vsec))
                   (set_app (set_agg (close_segments t (agg (app w))) (app w)) w)).
    { destruct w as [s st ef].
      destruct Hw as ([cm wk fl] & Hs & Hf & H1 & H2 & _ & H4).
      simpl in Hs, Hf. subst st fl. unfold vis in H2. subst x. subst vsec.
      cbn -[Z.add] in Hg, Hsv, H1, H4 |- *. close_healthy.
      unfold tallied, vis, close_segments, total_visible_at in *.
      destruct (visible_start (agg s)) as [vs|] eqn:E.
      - rewrite (good_start_truthy _ _ _ Hg eq_refl) in *. cbn -[Z.add].
        destruct (slouch_session_start (agg s)); cbn -[Z.add];
          (split; [exact H1|]; split; [reflexivity|]; split; [lia | exact H4]).
      - destruct (slouch_session_start (agg s)); cbn -[Z.add]; rewrite ?E, Z.add_0_r;
          (split; [exact H1|]; split; [reflexivity|]; split; [lia | exact H4]). }
    revert H1. generalize (set_app (set_agg (close_segments t (agg (app w))) (app w)) w).
    intros w1 H1. apply wp_bind, wp_has_cursor.
    destruct H1 as (d & Hs & Hf & H1). rewrite Hs. cbn [when].
    apply final_save_tally. exists d. auto.
  - cbn beta. intros _ w1 (d & Hs & Hf & H1 & H2 & H3 & H4).
    unfold wp, conn_close. rewrite Hs. destruct w1 as [s1 st1 ef1]. cbn -[Z.add].
    eexists. split; [reflexivity|]. split; [exact Hf|].
    cbn -[Z.add] in H1, H2, H3, H4 |- *.
    unfold vis in H2. injection H2 as _ H2.
    split; [exact H2|]. rewrite (H4 eq_refl), H1, H3. reflexivity.
Qed.

Lemma segments_seconds_step o v t c rest close :
  snd (presence t c (o, v)) + segments_seconds (fst (presence t c (o, v))) rest close
  = v + segments_seconds o ((t, c) :: rest) close.
Proof.
  unfold presence. cbn [segments_seconds fst snd]. destruct c; cbn [fst snd]; lia.
Qed.

(** A session of frames closed at [close], on a working store: the
    accumulator grows by the whole seconds of the visible segments, and
    the committed column ends at [base] plus the accumulator. *)
Lemma session_tally interval close today hour (fs : list Frame) :
  forall (w : World) (clock : Q) (base : Z),
    (0 < clock)%Q -> well_timed clock (session fs close today hour) = true ->
    watermarks_ok clock (agg (app w)) ->
    healthy_with (tallied true base (vis (app w)) (fun _ => True)) w ->
    let w' := run interval (session fs close today hour) w in
    visible_seconds (agg (app w'))
    = visible_seconds (agg (app w))
      + segments_seconds (visible_start (agg (app w))) (samples_of fs) close
    /\ persisted_total w' = Some (base + visible_seconds (agg (app w'))).
Proof.
  induction fs as [|f fs IH]; intros w clock base Hc Ht Hw Hy; unfold session in *;
    cbn [map app run step samples_of well_timed List.app] in *.
  - apply andb_true_iff in Ht as [Ht _]. apply Qleb_iff in Ht.
    pose proof (bounded_mono _ _ _ _ _ Hw Ht) as (Hg & _ & Hsv & _).
    pose proof (on_close_tally base (vis (app w)) close today hour w Hg Hsv Hy) as H.
    cbv zeta in H. destruct H as (d & Hs & _ & H1 & H2). unfold vis in H1, H2.
    cbn [fst snd] in H1, H2. cbn [segments_seconds].
    split; [exact H1|]. unfold persisted_total. rewrite Hs, H2, H1. reflexivity.
  - apply andb_true_iff in Ht as [Ht Ht3]. apply andb_true_iff in Ht as [Ht1 Ht2].
    apply Qleb_iff in Ht1, Ht2.
    assert (Hx : forall s, fst (vis (app w)) = Some s -> (0 < s)%Q).
    { intros s E. destruct Hw as (Hg & _). destruct (Hg s E). assumption. }
    pose proof (stats_iteration_tally interval base _ f w Hx Hy) as H1.
    pose proof (stats_iteration_watermarks interval f clock w Hc Ht1 Ht2 Hw) as H2.
    revert H1 H2. generalize (snd (stats_iteration interval f w)). intros w1 H1 H2.
    assert (Hv : vis (app w1) = presence (now f) (face_detected f) (vis (app w))).
    { destruct H1 as (d & _ & _ & _ & Hv & _). exact Hv. }
    rewrite <- Hv in H1.
    assert (Hnp : (0 < now_posture f)%Q) by lra.
    destruct (IH w1 (now_posture f) base Hnp Ht3 H2 H1) as [E1 E2].
    split; [|exact E2]. rewrite E1.
    pose proof (segments_seconds_step (visible_start (agg (app w)))
                  (visible_seconds (agg (app w))) (now f) (face_detected f)
                  (samples_of fs) close) as St.
    change (visible_start (agg (app w)), visible_seconds (agg (app w)))
      with (vis (app w)) in St.
    rewrite <- Hv in St. exact St.
Qed.

(** Truncation never adds time. *)
Lemma py_int_below (q : Q) : (0 <= q)%Q -> (inject_Z (py_int q) <= q)%Q.
Proof.
  destruct q as [n d]. unfold Qle, py_int. cbn. intros H.
  assert (Hn : 0 <= n) by lia.
  pose proof (Z.mul_quot_le n (Z.pos d) Hn ltac:(lia)). lia.
Qed.

Lemma ascending_weaken (c c' : Q) (l : list Q) :
  (c' <= c)%Q -> ascending c l = true -> ascending c' l = true.
Proof.
  intros Hc. destruct l as [|t l]; [reflexivity|]. cbn [ascending].
  rewrite !andb_true_iff. intros [H1 H2]. split; [|exact H2].
  apply Qleb_iff. apply Qleb_iff in H1. lra.
Qed.

Lemma session_ascending (fs : list Frame) close today hour :
  forall clock,
    well_timed clock (session fs close today hour) = true ->
    ascending clock (map fst (samples_of fs) ++ [close]) = true.
Proof.
  unfold session, samples_of.
  induction fs as [|f fs IH]; intros clock H; cbn [map List.app well_timed ascending fst] in *.
  - apply andb_true_iff in H as [H _]. rewrite H. reflexivity.
  - apply andb_true_iff in H as [H H3]. apply andb_true_iff in H as [H1 H2].
    rewrite H1. cbn [andb].
    apply (ascending_weaken (now_posture f)); [apply Qleb_iff, H2 | apply IH, H3].
Qed.

(** The whole seconds credited for a stream of samples are at most its
    exact visible duration. *)
Lemma segments_seconds_below_exact (l : list (Q * bool)) (close : Q) :
  forall (o : option Q) (clock : Q),
    (forall s, o = Some s -> (s <= clock)%Q) ->
    ascending clock (map fst l ++ [close]) = true ->
    (inject_Z (segments_seconds o l close) <= segments_exact o l close)%Q.
Proof.
  induction l as [|[t c] l IH]; intros o clock Ho Ha;
    cbn [map List.app ascending fst segments_seconds segments_exact] in *.
  - apply andb_true_iff in Ha as [Ha _]. apply Qleb_iff in Ha.
    destruct o as [s|]; [|apply Qle_refl].
    apply py_int_below. specialize (Ho s eq_refl). lra.
  - apply andb_true_iff in Ha as [Ha1 Ha2]. apply Qleb_iff in Ha1.
    destruct c.
    + apply (IH _ t); [|exact Ha2].
      destruct o as [s|]; intros s' E; injection E as <-;
        [specialize (Ho s eq_refl); lra | apply Qle_refl].
    + rewrite inject_Z_plus.
      assert (H1 : (inject_Z (segments_seconds None l close)
                    <= segments_exact None l close)%Q).
      { apply (IH None t); [discriminate | exact Ha2]. }
      destruct o as [s|].
      * assert (H2 : (inject_Z (py_int (t - s)) <= t - s)%Q).
        { apply py_int_below. specialize (Ho s eq_refl). lra. }
        lra.
      * change (inject_Z 0) with 0%Q. lra.
Qed.

(** C4 (as the code has it): for every list of processed frames followed
    by the closing of the window, with clocks that do not go back and a
    working store, the accumulated visible seconds are the sum over the
    visible segments of their durations truncated to whole seconds
    ([int(now - visible_start)] per segment, a segment running from the
    first frame with a face to the first frame without, or to the closing
    of the window), which is at most their exact sum; the committed
    [screen_time] column grows by exactly that amount; and both are the
    same for any two save intervals, that is whenever and however often
    the loop flushes. *)
Theorem C4_visible_total_whole_seconds
    (i1 i2 : Q) (c : Config) (cal : Calibration) (t0 : Q) (ld : Loaded) (d0 : Db)
    (fs : list Frame) (close : Q) (today hour : string) :
  (0 < t0)%Q -> well_timed t0 (session fs close today hour) = true ->
  fault d0 = None -> screen_time (committed d0) = screen_time (working d0) ->
  let final := fun i =>
    run i (session fs close today hour) (initial_world c cal t0 ld (Some d0)) in
  visible_seconds (agg (app (final i1))) = segments_seconds None (samples_of fs) close
  /\ (inject_Z (segments_seconds None (samples_of fs) close)
      <= segments_exact None (samples_of fs) close)%Q
  /\ persisted_total (final i1)
     = Some (column_total (screen_time (committed d0))
             + segments_seconds None (samples_of fs) close)
  /\ visible_seconds (agg (app (final i1))) = visible_seconds (agg (app (final i2)))
  /\ persisted_total (final i1) = persisted_total (final i2).
Proof.
  intros Ht0 Htimed Hf Hsync final.
  assert (H : forall i,
             visible_seconds (agg (app (final i)))
             = segments_seconds None (samples_of fs) close
             /\ persisted_total (final i)
                = Some (column_total (screen_time (committed d0))
                        + segments_seconds None (samples_of fs) close)).
  { intros i.
    assert (H0 : watermarks_ok t0 (agg (app (initial_world c cal t0 ld (Some d0))))).
    { unfold watermarks_ok, bounded, total_visible_at, total_slouch_at. cbn.
      split; [apply good_start_none|]. split; [apply good_start_none|].
      split; [lia|]. split; [lia|]. split; exact I. }
    assert (H1 : healthy_with
                   (tallied true (column_total (screen_time (committed d0)))
                      (vis (app (initial_world c cal t0 ld (Some d0)))) (fun _ => True))
                   (initial_world c cal t0 ld (Some d0))).
    { exists d0. split; [reflexivity|]. split; [exact Hf|].
      unfold tallied. cbn -[Z.add]. rewrite Hsync. repeat split. lia. }
    destruct (session_tally i close today hour fs _ t0 _ Ht0 Htimed H0 H1) as [E1 E2].
    fold (final i) in E1, E2. cbn -[Z.add] in E1. rewrite E2, E1. split; reflexivity. }
  destruct (H i1) as [A1 B1]. destruct (H i2) as [A2 B2].
  split; [exact A1|].
  split; [apply (segments_seconds_below_exact _ _ None t0);
            [discriminate | exact (session_ascending _ _ _ _ _ Htimed)]|].
  split; [exact B1|]. split; congruence.
Qed.

(** C4, the counterexample to the exact sum: a user in view from clock 100
    to clock 101.5 is credited one second, in the accumulator and in the
    committed column, against a visible duration of 1.5 s. *)
Lemma C4_counterexample :
  let w := run SAVE_INTERVAL_SEC (session demo_glance 200 "2026-01-01" "2026-01-01 10")
             demo_world in
  visible_seconds (agg (app w)) = 1
  /\ persisted_total w = Some 1
  /\ (segments_exact None (samples_of demo_glance) 200 == 3 # 2)%Q
  /\ ~ (inject_Z (visible_seconds (agg (app w)))
        == segments_exact None (samples_of demo_glance) 200)%Q.
Proof.
  cbv zeta. split; [vm_compute; reflexivity|]. split; [vm_compute; reflexivity|].
  split; [vm_compute; reflexivity|]. vm_compute. discriminate.
Qed.

Lemma C4_visible_total_witness :
  let final := fun i =>
    run i (session demo_glance 200 "2026-01-01" "2026-01-01 10")
      (initial_world demo_config demo_calibration 100 demo_loaded (Some demo_db)) in
  visible_seconds (agg (app (final SAVE_INTERVAL_SEC)))
  = segments_seconds None (samples_of demo_glance) 200
  /\ (inject_Z (segments_seconds None (samples_of demo_glance) 200)
      <= segments_exact None (samples_of demo_glance) 200)%Q
  /\ persisted_total (final SAVE_INTERVAL_SEC)
     = Some (column_total (screen_time (committed demo_db))
             + segments_seconds None (samples_of demo_glance) 200)
  /\ visible_seconds (agg (app (final SAVE_INTERVAL_SEC)))
     = visible_seconds (agg (app (final 1%Q)))
  /\ persisted_total (final SAVE_INTERVAL_SEC) = persisted_total (final 1%Q).
Proof.
  refine (C4_visible_total_whole_seconds SAVE_INTERVAL_SEC 1%Q demo_config
            demo_calibration 100%Q demo_loaded demo_db demo_glance 200%Q
            "2026-01-01" "2026-01-01 10" _ _ _ _).
  - reflexivity.
  - vm_compute. reflexivity.
  - reflexivity.
  - reflexivity.
Defined.

(** ** The face-touch category *)

(** Computations that preserve a predicate on the effects. *)
Section Effects.
Variable PE : list Effect -> Prop.

Lemma ef_ret {A} (a : A) : preserves (on_effects PE) (ret a).
Proof. intros w H. exact H. Qed.

Lemma ef_bind {A B} (m : M A) (k : A -> M B) :
  preserves (on_effects PE) m -> (forall a, preserves (on_effects PE) (k a)) ->
  preserves (on_effects PE) (bind m k).
Proof.
  intros Hm Hk w H. unfold bind. specialize (Hm w H).
  destruct (m w) as [[a|] w']; simpl in *; [apply Hk, Hm | exact Hm].
Qed.

Lemma ef_try {A} (m h : M A) :
  preserves (on_effects PE) m -> preserves (on_effects PE) h ->
  preserves (on_effects PE) (try_except m h).
Proof.
  intros Hm Hh w H. unfold try_except. specialize (Hm w H).
  destruct (m w) as [[a|] w']; simpl in *; [exact Hm | apply Hh, Hm].
Qed.

Lemma ef_when (b : bool) (m : M unit) :
  preserves (on_effects PE) m -> preserves (on_effects PE) (when b m).
Proof. destruct b; simpl; [auto | intros _; apply ef_ret]. Qed.

Lemma ef_gets {A} (f : App -> A) : preserves (on_effects PE) (gets f).
Proof. intros w H. exact H. Qed.

Lemma ef_has_cursor : preserves (on_effects PE) has_cursor.
Proof. intros w H. exact H. Qed.

Lemma ef_modify (f : App -> App) : preserves (on_effects PE) (modify f).
Proof. intros w H. exact H. Qed.

Lemma ef_execute {A} (f : Tables -> A * Tables) : preserves (on_effects PE) (execute f).
Proof.
  intros w H. unfold execute. destruct (store w) as [d|]; [|exact H].
  destruct (fault d) as [[|n]|]; exact H.
Qed.

Lemma ef_commit : preserves (on_effects PE) commit.
Proof.
  intros w H. unfold commit. destruct (store w) as [d|]; [|exact H].
  destruct (fault d) as [[|n]|]; exact H.
Qed.

Lemma ef_conn_close : preserves (on_effects PE) conn_close.
Proof. intros w H. unfold conn_close. destruct (store w); exact H. Qed.

Lemma ef_for_each {A} (xs : list A) (body : A -> M unit) :
  (forall x, preserves (on_effects PE) (body x)) ->
  preserves (on_effects PE) (for_each xs body).
Proof.
  intros H. induction xs as [|x r IH]; simpl; [apply ef_ret|].
  apply ef_bind; auto.
Qed.

Lemma ef_emit (e : Effect) :
  (forall l, PE l -> PE (e :: l)) -> preserves (on_effects PE) (emit e).
Proof. intros H w Hw. apply H, Hw. Qed.
End Effects.

(** The face-touch timer restarts at every evaluation, so its duration
    test never succeeds. *)
Lemma face_touch_step_silent now cond start since act :
  snd (face_touch_step now cond start since act) = false.
Proof.
  unfold face_touch_step. destruct cond; [|reflexivity].
  set (start1 := match start with
                 | Some s => if Qleb s now then now else s
                 | None => now
                 end).
  assert (H : Qgeb (now - start1) FACE_TOUCH_DURATION = false).
  { apply Qgeb_false_iff. unfold FACE_TOUCH_DURATION. subst start1.
    destruct start as [s|]; [destruct (Qleb s now) eqn:E|].
    - lra.
    - assert (~ (s <= now)%Q).
      { intros H. apply Qleb_iff in H. congruence. }
      apply Qnot_le_lt in H. lra.
    - lra. }
  rewrite H. reflexivity.
Qed.

(** Breaks a goal [preserves P m] down along [m] for a predicate on the
    effects or on the application object; the face-touch block is entered
    with its notification flag known to be false. *)
Ltac walk :=
  repeat
    (intros; cbv beta zeta;
     lazymatch goal with
     | |- preserves _ (when false _) => cbn [when]
     | |- preserves (on_effects _) (ret _) => apply ef_ret
     | |- preserves (on_effects _) (bind _ _) => apply ef_bind
     | |- preserves (on_effects _) (try_except _ _) => apply ef_try
     | |- preserves (on_effects _) (when _ _) => apply ef_when
     | |- preserves (on_effects _) (gets _) => apply ef_gets
     | |- preserves (on_effects _) has_cursor => apply ef_has_cursor
     | |- preserves (on_effects _) (for_each _ _) => apply ef_for_each
     | |- preserves (on_effects _) (execute _) => apply ef_execute
     | |- preserves (on_effects _) (query _) => apply ef_execute
     | |- preserves (on_effects _) (update _) => apply ef_execute
     | |- preserves (on_effects _) commit => apply ef_commit
     | |- preserves (on_effects _) conn_close => apply ef_conn_close
     | |- preserves (on_effects _) (modify _) => apply ef_modify
     | |- preserves (on_effects _) (modify_agg _) => apply ef_modify
     | |- preserves (on_effects _) (modify_bank _) => apply ef_modify
     | |- preserves (on_effects _) (emit _) => apply ef_emit
     | |- preserves (on_effects _) log_exc => apply ef_emit
     | |- preserves (on_effects _) (notify_os _ _) => apply ef_emit
     | |- preserves (on_app _) (ret _) => apply pv_ret
     | |- preserves (on_app _) (bind _ _) => apply pv_bind
     | |- preserves (on_app _) (try_except _ _) => apply pv_try
     | |- preserves (on_app _) (when _ _) => apply pv_when
     | |- preserves (on_app _) (gets _) => apply pv_gets
     | |- preserves (on_app _) has_cursor => apply pv_has_cursor
     | |- preserves (on_app _) (for_each _ _) => apply pv_for_each
     | |- preserves (on_app _) (execute _) => apply pv_execute
     | |- preserves (on_app _) (query _) => apply pv_execute
     | |- preserves (on_app _) (update _) => apply pv_execute
     | |- preserves (on_app _) commit => apply pv_commit
     | |- preserves (on_app _) (emit _) => apply pv_emit
     | |- preserves (on_app _) log_exc => apply pv_emit
     | |- preserves (on_app _) (notify_os _ _) => apply pv_emit
     | |- preserves (on_app _) conn_close => apply pv_conn_close
     | |- preserves (on_app _) (modify _) => apply pv_modify
     | |- preserves (on_app _) (modify_agg _) => apply pv_modify
     | |- preserves (on_app _) (modify_bank _) => apply pv_modify
     | |- preserves _ (match face_touch_step ?a ?b ?c ?d ?e with _ => _ end) =>
         let H := fresh "Hsilent" in
         pose proof (face_touch_step_silent a b c d e) as H;
         destruct (face_touch_step a b c d e) as [? ?];
         cbn [snd] in H; subst
     | |- preserves _ (if ?b then _ else _) => destruct b
     | |- preserves _ (match ?x with _ => _ end) => destruct x
     | |- preserves _ (let (_, _) := ?x in _) => destruct x
     end).

Ltac unfold_stages :=
  unfold final_save, periodic_save, hour_rollover, twenty_reminder, track_presence,
    account_visible, partial_frame, account_slouch, posture_stage, distance_stage,
    update_posture_state, emit_alert, flush_hourly_metrics, save_screen_time,
    save_posture_time, save_distance_log;
  unfold_statements.

Ltac other_notice :=
  let l := fresh "l" in let H := fresh "H" in let HI := fresh "HI" in
  intros l H HI; destruct HI as [HI|HI]; [discriminate HI | exact (H HI)].

Lemma stats_iteration_no_face_touch_notice interval f :
  preserves (on_effects (fun l => ~ In face_touch_notice l)) (stats_iteration interval f).
Proof.
  unfold stats_iteration. unfold_stages. walk; try other_notice.
Qed.

Ltac counters_leaf :=
  let s := fresh "s" in let H := fresh "H" in
  intros s H; try unfold record_sample; unfold face_touch_counters in *;
  cbn in H |- *; break_matches; cbn; first [exact H | tauto].

Lemma stats_iteration_face_touch_counters interval f loaded :
  preserves (on_app (face_touch_counters loaded)) (stats_iteration interval f).
Proof.
  unfold stats_iteration. unfold_stages. walk; try counters_leaf.
Qed.

Lemma on_close_no_face_touch_notice t today hour :
  preserves (on_effects (fun l => ~ In face_touch_notice l)) (on_close t today hour).
Proof. unfold on_close. unfold_stages. walk; try other_notice. Qed.

Lemma on_close_face_touch_counters t today hour loaded :
  preserves (on_app (face_touch_counters loaded)) (on_close t today hour).
Proof. unfold on_close. unfold_stages. walk; try counters_leaf. Qed.

Lemma execute_data_erase_no_face_touch_notice :
  preserves (on_effects (fun l => ~ In face_touch_notice l)) execute_data_erase.
Proof. unfold execute_data_erase. unfold_statements. walk; try other_notice. Qed.

Lemma execute_data_erase_face_touch_counters loaded :
  preserves (on_app (face_touch_counters loaded)) execute_data_erase.
Proof.
  unfold execute_data_erase. unfold_statements. walk; try counters_leaf.
Qed.

(** X1: along every execution of the application (loop iterations on any
    detector results, erases, settings changes, store failures, shutdown)
    the face-touch notification is never sent and the face-touch alert
    counters never go up: [_update_posture_state] restarts the face-touch
    timer at every evaluation, so its 3 s test cannot succeed. *)
Theorem face_touch_never_notifies
    (interval : Q) (c : Config) (cal : Calibration) (t0 : Q) (ld : Loaded)
    (db : option Db) (evs : list Event) :
  let w := run interval evs (initial_world c cal t0 ld db) in
  ~ In face_touch_notice (effects w)
  /\ session_face_touch_alerts (bank (app w)) = 0
  /\ (today_face_touch_alerts (bank (app w)) = ld_face_touch_alerts ld
      \/ today_face_touch_alerts (bank (app w)) = 0).
Proof.
  set (P := fun w => on_effects (fun l => ~ In face_touch_notice l) w
                     /\ on_app (face_touch_counters (ld_face_touch_alerts ld)) w).
  assert (Hstep : forall e w, P w -> P (step interval e w)).
  { intros e w [H1 H2]. destruct e as [f | | c' | n | t today hour]; cbn [step].
    - split; [apply stats_iteration_no_face_touch_notice, H1
             | apply stats_iteration_face_touch_counters, H2].
    - split; [apply execute_data_erase_no_face_touch_notice, H1
             | apply execute_data_erase_face_touch_counters, H2].
    - split; [exact H1 | exact H2].
    - unfold arm_fault. destruct (store w); split; assumption.
    - split; [apply on_close_no_face_touch_notice, H1
             | apply on_close_face_touch_counters, H2]. }
  assert (Hrun : forall evs w, P w -> P (run interval evs w)).
  { clear evs. induction evs as [|e evs IH]; intros w H; [exact H|].
    destruct e; cbn [run]; try (apply IH); apply Hstep, H. }
  intros w.
  assert (H0 : P (initial_world c cal t0 ld db)).
  { split; [intros []|]. split; [reflexivity | left; reflexivity]. }
  destruct (Hrun evs _ H0) as [H1 (H2 & H3)]. auto.
Qed.

(** ** Timers, samples and failures of the loop *)

(** With the condition true at every sample from a running timer, the
    notifications are paced by the 5 s duration and the 60 s cooldown. *)
Lemma nail_biting_steady (ts : list Q) :
  forall (s : Q) (since : option Q) (det : bool) (act : gset string),
    paced s NAIL_BITING_DURATION 60
      (snd (nail_biting_run (steady ts) (Some s, since, det, act))).
Proof.
  induction ts as [|t ts IH]; intros s since det act; [exact I|].
  cbn [steady map nail_biting_run fst snd]. unfold nail_biting_step.
  destruct (Qgeb (t - s) NAIL_BITING_DURATION) eqn:E; cbn [fst snd paced].
  - apply Qgeb_iff in E. split; [exact E|]. apply IH.
  - apply IH.
Qed.

(** X2: nail biting, [_update_posture_state]: with the fingertip seen at
    the mouth at every evaluation from clock [t0] on, the label is in the
    active-alerts set from the first evaluation, no notification is sent
    at that evaluation, the first notification comes at least 5 s after
    [t0] and every later one at least 65 s after the one before it (the
    timer is moved 60 s ahead by a notification); an evaluation without
    the condition clears the timers and the label and sends nothing. *)
Theorem nail_biting_pacing
    (t0 : Q) (ts : list Q) (since : option Q) (det : bool) (act : gset string) :
  let first := nail_biting_step t0 true None since act in
  let r := nail_biting_run ((t0, true) :: steady ts) (None, since, det, act) in
  snd first = false
  /\ L_NAIL ∈ snd (fst first)
  /\ paced t0 NAIL_BITING_DURATION 60 (snd r)
  /\ (forall (t : Q) (start a : option Q),
         nail_biting_step t false start a act
         = (None, None, false, act ∖ {[ L_NAIL ]}, false)).
Proof.
  assert (E : Qgeb (t0 - t0) NAIL_BITING_DURATION = false).
  { apply Qgeb_false_iff. unfold NAIL_BITING_DURATION. lra. }
  assert (F : nail_biting_step t0 true None since act
              = (Some t0, match since with None => Some t0 | Some _ => since end, true,
                 {[ L_NAIL ]} ∪ act, false)).
  { unfold nail_biting_step. rewrite E. reflexivity. }
  cbv zeta. split; [|split; [|split]].
  - rewrite F. reflexivity.
  - rewrite F. cbn [fst snd]. set_solver.
  - cbn [nail_biting_run fst snd]. rewrite F. cbn [fst snd]. apply nail_biting_steady.
  - reflexivity.
Qed.

(** A predicate kept by a computation holds when it returns and when it
    raises. *)
Lemma preserves_wp {A} (P : World -> Prop) (m : M A) w :
  preserves P m -> P w -> wp m (fun _ => P) P w.
Proof.
  intros H Hw. specialize (H w Hw). unfold wp.
  destruct (m w) as [[a|] w']; exact H.
Qed.

Lemma twenty_reminder_fires f w :
  enable_twenty (cfg (app w)) = true ->
  (TWENTY_TWENTY_SEC < now f - last_twenty (agg (app w)))%Q ->
  last_twenty (agg (app (snd (twenty_reminder f w)))) = now f
  /\ In twenty_notice (effects (snd (twenty_reminder f w))).
Proof.
  intros He Hl. apply Qgtb_iff in Hl.
  unfold twenty_reminder, bind, gets, notify_os, emit, modify_agg, modify, has_cursor,
    insert_alert, update, execute, commit.
  cbn [app agg cfg fst snd]. rewrite He, Hl. cbn [andb when].
  destruct w as [s [d|] ef]; cbn; [|split; [reflexivity | left; reflexivity]].
  destruct (fault d) as [[|[|n]]|]; cbn; (split; [reflexivity | left; reflexivity]).
Qed.

Lemma rest_keeps_notice (e : Effect) interval f :
  preserves (on_effects (fun l => In e l))
    (track_presence f ;;;
     total_visible <- account_visible f ;;
     partial_frame f ;;;
     current_slouch_total <- account_slouch f ;;
     posture_stage f ;;;
     distance_stage f ;;;
     a <- gets agg ;;
     cur <- has_cursor ;;
     when (Qgtb (now f - last_save_time a) interval && cur)
       (periodic_save (now f) (today_str f) (save_hour f)
          total_visible current_slouch_total)).
Proof.
  unfold_stages. walk; try (intros; apply in_cons; assumption).
Qed.

(** X3: the 20-20-20 reminder of [_stats_worker]: when the reminder is
    enabled and more than 1200 s have passed since [last_twenty], the
    notification is sent and [last_twenty] becomes the clock of the
    iteration, whatever the store does with the alert row; when at most
    1200 s have passed the block changes nothing; and since the attribute
    is read as 0 before the first reminder, the first processed iteration
    of an application started with the reminder enabled sends it. *)
Theorem twenty_reminder_schedule :
  (forall (f : Frame) (w : World),
      enable_twenty (cfg (app w)) = true ->
      (TWENTY_TWENTY_SEC < now f - last_twenty (agg (app w)))%Q ->
      last_twenty (agg (app (snd (twenty_reminder f w)))) = now f
      /\ In twenty_notice (effects (snd (twenty_reminder f w))))
  /\ (forall (f : Frame) (w : World),
      (now f - last_twenty (agg (app w)) <= TWENTY_TWENTY_SEC)%Q ->
      twenty_reminder f w = (Ok tt, w))
  /\ (forall (interval : Q) (f : Frame) (c : Config) (cal : Calibration) (t0 : Q)
             (ld : Loaded) (db : option Db),
      enable_twenty c = true -> (TWENTY_TWENTY_SEC < now f)%Q ->
      In twenty_notice
         (effects (snd (stats_iteration interval f (initial_world c cal t0 ld db))))).
Proof.
  split; [exact twenty_reminder_fires|]. split.
  - intros f w H. apply Qgtb_false_iff in H.
    unfold twenty_reminder, bind, gets. rewrite H, andb_false_r. reflexivity.
  - intros interval f c cal t0 ld db He Hn.
    set (P := on_effects (fun l => In twenty_notice l)).
    change (P (snd (stats_iteration interval f (initial_world c cal t0 ld db)))).
    apply wp_snd. unfold stats_iteration. apply wp_try.
    apply wp_mono with (Q := fun _ => P) (E := P);
      [| auto | intros w' H; apply in_cons, H].
    eapply wp_seq
      with (Q1 := fun _ w => enable_twenty (cfg (app w)) = true
                             /\ (last_twenty (agg (app w)) == 0)%Q)
           (E1 := fun _ => False); [| | intros ? []].
    { unfold wp. cbn. split; [exact He | reflexivity]. }
    intros _ w1 [He1 Hl1].
    destruct (twenty_reminder_fires f w1) as [_ H1]; [exact He1 | |].
    { rewrite Hl1. unfold Qminus. rewrite Qplus_0_r. exact Hn. }
    eapply wp_seq with (Q1 := fun _ => P) (E1 := P).
    + unfold wp. destruct (twenty_reminder f w1) as [[[]|] w2]; exact H1.
    + intros _ w2 H2. apply preserves_wp; [apply rest_keeps_notice | exact H2].
    + auto.
Qed.

Lemma twenty_reminder_schedule_witness :
  In twenty_notice
     (effects (snd (stats_iteration SAVE_INTERVAL_SEC (demo_frame 2000 true)
                      (initial_world demo_config demo_calibration 100 demo_loaded
                         (Some demo_db))))).
Proof.
  refine (proj2 (proj2 twenty_reminder_schedule) SAVE_INTERVAL_SEC (demo_frame 2000 true)
            demo_config demo_calibration 100%Q demo_loaded (Some demo_db) _ _).
  - reflexivity.
  - reflexivity.
Defined.

(** X4: a distance sample, [_stats_worker]: the sample is appended to the
    session buffer, which never holds more than 600 values (the oldest is
    dropped when a 601st arrives), and it is added to the total, the daily
    pending and the hourly pending sums, whose counts go up by one. *)
Theorem record_sample_window (v : Q) (a : Agg) :
  (length (distances_buffer a) <= 600)%nat ->
  let a' := record_sample v a in
  (length (distances_buffer a') <= 600)%nat
  /\ last (distances_buffer a') = Some v
  /\ ((length (distances_buffer a) < 600)%nat ->
        distances_buffer a' = distances_buffer a ++ [v])
  /\ (length (distances_buffer a) = 600%nat ->
        distances_buffer a' = tl (distances_buffer a) ++ [v])
  /\ pending_distance_count a' = pending_distance_count a + 1
  /\ pending_hour_distance_count a' = pending_hour_distance_count a + 1
  /\ distance_count_total a' = distance_count_total a + 1
  /\ pending_distance_sum a' = (pending_distance_sum a + v)%Q
  /\ pending_hour_distance_sum a' = (pending_hour_distance_sum a + v)%Q
  /\ distance_sum_total a' = (distance_sum_total a + v)%Q.
Proof.
  intros Hlen. cbv zeta. unfold record_sample.
  cbn -[Z.add Qplus Qdiv Nat.ltb].
  assert (Hl : length (distances_buffer a ++ [v]) = S (length (distances_buffer a))).
  { rewrite length_app. cbn. lia. }
  destruct (600 <? length (distances_buffer a ++ [v]))%nat eqn:E.
  - apply Nat.ltb_lt in E.
    assert (H600 : length (distances_buffer a) = 600%nat) by lia.
    destruct (distances_buffer a) as [|x r] eqn:Eb; [cbn in H600; lia|].
    cbn [List.app tl]. split; [cbn in *; rewrite length_app; cbn; lia|].
    split; [apply last_snoc|]. split; [cbn in *; lia|].
    split; [reflexivity|]. repeat split.
  - apply Nat.ltb_ge in E. split; [lia|]. split; [apply last_snoc|].
    split; [reflexivity|]. split; [lia|]. repeat split.
Qed.

Lemma record_sample_window_witness :
  let a' := record_sample 70 demo_agg in
  (length (distances_buffer a') <= 600)%nat
  /\ last (distances_buffer a') = Some 70%Q
  /\ ((length (distances_buffer demo_agg) < 600)%nat ->
        distances_buffer a' = distances_buffer demo_agg ++ [70%Q])
  /\ (length (distances_buffer demo_agg) = 600%nat ->
        distances_buffer a' = tl (distances_buffer demo_agg) ++ [70%Q])
  /\ pending_distance_count a' = pending_distance_count demo_agg + 1
  /\ pending_hour_distance_count a' = pending_hour_distance_count demo_agg + 1
  /\ distance_count_total a' = distance_count_total demo_agg + 1
  /\ pending_distance_sum a' = (pending_distance_sum demo_agg + 70)%Q
  /\ pending_hour_distance_sum a' = (pending_hour_distance_sum demo_agg + 70)%Q
  /\ distance_sum_total a' = (distance_sum_total demo_agg + 70)%Q.
Proof.
  refine (record_sample_window 70%Q demo_agg _). cbn. lia.
Defined.

Lemma smooth_between (s d : Q) :
  ((s <= d)%Q -> (s <= smooth (Some s) d)%Q /\ (smooth (Some s) d <= d)%Q)
  /\ ((d <= s)%Q -> (d <= smooth (Some s) d)%Q /\ (smooth (Some s) d <= s)%Q).
Proof. unfold smooth, BETA. split; intros H; lra. Qed.

(** X5: the distance estimator of [_stats_worker]: without a usable
    measurement (no eye distance above 2 px and no face width above 8 px)
    there is no estimate and the filter keeps its value; an estimate is
    always the new value of the filter; and with a previous value it lies
    between that value and the raw measurement it was computed from, eye
    distance or face width: the filter never overshoots. *)
Theorem estimate_distance_filter (c : Calibration) :
  (forall (prev : option Q) (p : option Q) (fw : option Z),
      (forall x, p = Some x -> (x <= 2)%Q) ->
      (forall x, fw = Some x -> x <= 8) ->
      estimate_distance c prev p fw = (None, prev))
  /\ (forall (prev : option Q) (p : option Q) (fw : option Z) (d : Q) (s' : option Q),
        estimate_distance c prev p fw = (Some d, s') -> s' = Some d)
  /\ (forall (s : Q) (p : option Q) (fw : option Z) (d : Q) (s' : option Q),
        estimate_distance c (Some s) p fw = (Some d, s') ->
        exists raw : Q,
          ((exists x, p = Some x /\ raw = raw_eye_distance c x)
           \/ (exists x, fw = Some x /\ raw = raw_face_distance c x))
          /\ d = smooth (Some s) raw
          /\ ((s <= raw)%Q -> (s <= d)%Q /\ (d <= raw)%Q)
          /\ ((raw <= s)%Q -> (raw <= d)%Q /\ (d <= s)%Q)).
Proof.
  split; [|split].
  - intros prev p fw Hp Hfw. unfold estimate_distance.
    assert (E1 : match p with
                 | Some p0 =>
                     if truthyQ p0 && Qgtb p0 2
                     then if truthyQ (calib_get_real_ipd c) && truthyQ (calib_get_focal c)
                          then (Some (smooth prev (raw_eye_distance c p0)),
                                Some (smooth prev (raw_eye_distance c p0)))
                          else (None, prev)
                     else (None, prev)
                 | None => (None, prev)
                 end = (None, prev)).
    { destruct p as [x|]; [|reflexivity].
      replace (Qgtb x 2) with false
        by (symmetry; apply Qgtb_false_iff, Hp; reflexivity).
      rewrite andb_false_r. reflexivity. }
    cbv zeta. rewrite E1. cbn [fst snd].
    destruct fw as [x|]; [|reflexivity].
    rewrite (gtb_false x 8) by (apply Hfw; reflexivity). reflexivity.
  - intros prev p fw d s' H. unfold estimate_distance in H. cbv zeta in H.
    destruct p as [x|]; cbn [fst snd] in H.
    + destruct (truthyQ x && Qgtb x 2);
        [destruct (truthyQ (calib_get_real_ipd c) && truthyQ (calib_get_focal c))|];
        cbn [fst snd] in H; try (injection H as <- <-; reflexivity);
        (destruct fw as [y|]; [destruct (y >? 8)|]);
        cbn [fst snd] in H; try discriminate H; injection H as <- <-; reflexivity.
    + destruct fw as [y|]; [destruct (y >? 8)|];
        cbn [fst snd] in H; try discriminate H; injection H as <- <-; reflexivity.
  - intros s p fw d s' H. unfold estimate_distance in H. cbv zeta in H.
    assert (G : forall raw, d = smooth (Some s) raw ->
                  d = smooth (Some s) raw
                  /\ ((s <= raw)%Q -> (s <= d)%Q /\ (d <= raw)%Q)
                  /\ ((raw <= s)%Q -> (raw <= d)%Q /\ (d <= s)%Q)).
    { intros raw ->. split; [reflexivity | apply smooth_between]. }
    destruct p as [x|]; cbn [fst snd] in H.
    + destruct (truthyQ x && Qgtb x 2);
        [destruct (truthyQ (calib_get_real_ipd c) && truthyQ (calib_get_focal c))|];
        cbn [fst snd] in H.
      * injection H as <- _. exists (raw_eye_distance c x).
        split; [left; eauto | apply G; reflexivity].
      * destruct fw as [y|]; [destruct (y >? 8)|]; cbn [fst snd] in H;
          try discriminate H.
        injection H as <- _. exists (raw_face_distance c y).
        split; [right; eauto | apply G; reflexivity].
      * destruct fw as [y|]; [destruct (y >? 8)|]; cbn [fst snd] in H;
          try discriminate H.
        injection H as <- _. exists (raw_face_distance c y).
        split; [right; eauto | apply G; reflexivity].
    + destruct fw as [y|]; [destruct (y >? 8)|]; cbn [fst snd] in H;
        try discriminate H.
      injection H as <- _. exists (raw_face_distance c y).
      split; [right; eauto | apply G; reflexivity].
Qed.

Lemma estimate_distance_filter_witness :
  estimate_distance demo_calibration (Some 70%Q) (Some 1%Q) (Some 5) = (None, Some 70%Q).
Proof.
  refine (proj1 (estimate_distance_filter demo_calibration) (Some 70%Q) (Some 1%Q) (Some 5) _ _).
  - intros x E. injection E as <-. discriminate.
  - intros x E. injection E as <-. lia.
Defined.

(** X6: [_flush_hourly_metrics] on a working store: each pending hourly
    buffer that holds something (seconds visible, seconds of bad posture,
    distance sum and count) is added to the row of the hour in its table
    and zeroed, a distance buffer without a sample is left alone, the rows
    of other hours are not touched, nothing is lost or counted twice (row
    plus buffer is the same before and after), and the call reports
    whether it wrote. *)
Theorem flush_hourly_moves_buffers
    (hk : string) (ac : bool) (s : App) (cm wk : Tables) (ef : list Effect) :
  0 <= pending_hour_visible_seconds (agg s) ->
  0 <= pending_hour_slouch_seconds (agg s) ->
  0 <= pending_hour_distance_count (agg s) ->
  let r := flush_hourly_metrics (Some hk) ac (mkWorld s (Some (mkDb cm wk None)) ef) in
  exists cm' wk',
    store (snd r) = Some (mkDb cm' wk' None)
    /\ fst r = Ok ((pending_hour_visible_seconds (agg s) >? 0)
                   || (pending_hour_slouch_seconds (agg s) >? 0)
                   || (pending_hour_distance_count (agg s) >? 0))
    /\ default 0 (screen_hourly wk' !! hk)
       = default 0 (screen_hourly wk !! hk) + pending_hour_visible_seconds (agg s)
    /\ default 0 (posture_hourly wk' !! hk)
       = default 0 (posture_hourly wk !! hk) + pending_hour_slouch_seconds (agg s)
    /\ (forall k, k <> hk ->
          screen_hourly wk' !! k = screen_hourly wk !! k
          /\ posture_hourly wk' !! k = posture_hourly wk !! k
          /\ distance_hourly wk' !! k = distance_hourly wk !! k)
    /\ (0 < pending_hour_distance_count (agg s) ->
          distance_hourly wk' !! hk
          = Some (Some (match distance_hourly wk !! hk with
                        | Some (Some x, _) => x
                        | _ => 0%Q
                        end + pending_hour_distance_sum (agg s))%Q,
                  Some (match distance_hourly wk !! hk with
                        | Some (_, Some m) => m
                        | _ => 0
                        end + pending_hour_distance_count (agg s)))
          /\ pending_hour_distance_sum (agg (app (snd r))) = 0%Q)
    /\ (pending_hour_distance_count (agg s) = 0 ->
          distance_hourly wk' !! hk = distance_hourly wk !! hk
          /\ pending_hour_distance_sum (agg (app (snd r)))
             = pending_hour_distance_sum (agg s))
    /\ pending_hour_visible_seconds (agg (app (snd r))) = 0
    /\ pending_hour_slouch_seconds (agg (app (snd r))) = 0
    /\ pending_hour_distance_count (agg (app (snd r))) = 0
    /\ screen_time wk' = screen_time wk /\ posture_time wk' = posture_time wk
    /\ distance_log wk' = distance_log wk /\ alerts wk' = alerts wk.
Proof.
  intros Hv Hs Hc. cbv zeta.
  unfold flush_hourly_metrics, try_except, bind, has_cursor, gets. cbn [app store negb].
  unfold_statements. unfold execute, commit, modify_agg, modify, when, ret, bind.
  cbn [store fault fst snd working committed].
  destruct (pending_hour_visible_seconds (agg s) >? 0) eqn:E1;
    destruct (pending_hour_slouch_seconds (agg s) >? 0) eqn:E2;
    destruct (pending_hour_distance_count (agg s) >? 0) eqn:E3;
    cbn -[Z.add Qplus];
    rewrite ?Z.gtb_ltb, ?Z.ltb_lt, ?Z.ltb_ge in E1, E2, E3;
    destruct ac; cbn -[Z.add Qplus];
    (eexists; eexists; split; [reflexivity|]; split; [reflexivity|]);
    cbn -[Z.add Qplus]; rewrite ?lookup_insert_eq; cbn [default from_option id];
    (split; [lia|]); (split; [lia|]);
    (split; [intros k Hk; rewrite ?lookup_insert_ne by congruence; auto|]);
    (split; [intros Hpos; try lia; split; reflexivity|]);
    (split; [intros Hzero; try lia; split; reflexivity|]);
    repeat split; first [reflexivity | lia].
Qed.

Lemma flush_hourly_moves_buffers_witness :
  exists cm' wk',
    store (snd (flush_hourly_metrics (Some "2026-01-01 10") true
                  (mkWorld demo_hour_app (Some (mkDb empty_tables empty_tables None)) [])))
    = Some (mkDb cm' wk' None)
    /\ default 0 (screen_hourly wk' !! "2026-01-01 10") = 40
    /\ default 0 (posture_hourly wk' !! "2026-01-01 10") = 10
    /\ distance_hourly wk' !! "2026-01-01 10" = Some (Some (0 + 130)%Q, Some (0 + 2))
    /\ pending_hour_distance_sum
         (agg (app (snd (flush_hourly_metrics (Some "2026-01-01 10") true
                           (mkWorld demo_hour_app
                              (Some (mkDb empty_tables empty_tables None)) [])))))
       = 0%Q.
Proof.
  destruct (flush_hourly_moves_buffers "2026-01-01 10" true demo_hour_app
              empty_tables empty_tables [])
    as (cm' & wk' & H1 & _ & H2 & H3 & _ & H4 & _); [cbn; lia | cbn; lia | cbn; lia |].
  exists cm', wk'. split; [exact H1|]. split; [exact H2|]. split; [exact H3|].
  exact (H4 ltac:(cbn; lia)).
Defined.

(** X7: [_execute_data_erase] when the store fails or is absent: if one of
    the seven DELETE statements or the commit raises, the exception is
    logged, nothing durable has changed and none of the in-memory
    counters, accumulators and buffers is reset (the resets come after the
    commit in the same [try]); without a connection the in-memory state is
    reset and no statement is issued. *)
Theorem execute_data_erase_failure (s : App) (cm wk : Tables) (ef : list Effect) :
  (forall n : nat, (n <= 7)%nat ->
      let w' := snd (execute_data_erase (mkWorld s (Some (mkDb cm wk (Some n))) ef)) in
      app w' = s /\ effects w' = LogExc :: ef
      /\ exists wk', store w' = Some (mkDb cm wk' None))
  /\ execute_data_erase (mkWorld s None ef)
     = (Ok tt, mkWorld (set_bank (erase_bank (bank s)) (set_agg (erase_agg (agg s)) s))
                 None ef).
Proof.
  split; [|reflexivity].
  intros n Hn.
  do 8 (destruct n as [|n]; [cbn; split; [reflexivity|]; split; [reflexivity|];
                              eexists; reflexivity|]).
  lia.
Qed.

Lemma execute_data_erase_failure_witness :
  let w' := snd (execute_data_erase
                   (mkWorld demo_hour_app (Some (mkDb empty_tables empty_tables (Some 3%nat))) [])) in
  app w' = demo_hour_app /\ effects w' = [LogExc]
  /\ exists wk', store w' = Some (mkDb empty_tables wk' None).
Proof.
  refine (proj1 (execute_data_erase_failure demo_hour_app empty_tables empty_tables []) 3%nat _).
  lia.
Defined.

(** ** Boxes, pinned graphs and calendar navigation *)

Lemma list_min_spec (xs : list Z) :
  forall x, list_min x xs <= x
            /\ (forall y, In y xs -> list_min x xs <= y)
            /\ In (list_min x xs) (x :: xs).
Proof.
  unfold list_min. induction xs as [|a xs IH]; intros x; cbn [fold_left].
  - split; [lia|]. split; [intros y []|]. left; reflexivity.
  - destruct (IH (Z.min x a)) as (H1 & H2 & H3). split; [lia|]. split.
    + intros y [<-|Hy]; [lia | apply H2, Hy].
    + destruct H3 as [H3|H3]; [|right; right; exact H3].
      rewrite <- H3. destruct (Z.min_spec x a) as [[_ ->]|[_ ->]];
        [left | right; left]; reflexivity.
Qed.

Lemma list_max_spec (xs : list Z) :
  forall x, x <= list_max x xs
            /\ (forall y, In y xs -> y <= list_max x xs)
            /\ In (list_max x xs) (x :: xs).
Proof.
  unfold list_max. induction xs as [|a xs IH]; intros x; cbn [fold_left].
  - split; [lia|]. split; [intros y []|]. left; reflexivity.
  - destruct (IH (Z.max x a)) as (H1 & H2 & H3). split; [lia|]. split.
    + intros y [<-|Hy]; [lia | apply H2, Hy].
    + destruct H3 as [H3|H3]; [|right; right; exact H3].
      rewrite <- H3. destruct (Z.max_spec x a) as [[_ ->]|[_ ->]];
        [right; left | left]; reflexivity.
Qed.

Lemma clamp_between (v a b : Z) : a <= b -> a <= clamp v a b <= b.
Proof. unfold clamp. lia. Qed.

Lemma pad_positive (num : Z) (d : Z) :
  0 <= num -> 0 <= d -> 1 <= py_int ((num # 100) * inject_Z d + 1).
Proof.
  intros Hn Hd. rewrite <- (py_int_inject 1) at 1. apply py_int_mono.
  assert (0 <= (num # 100) * inject_Z d)%Q.
  { apply Qmult_le_0_compat; [unfold Qle; cbn; lia|].
    rewrite <- (Zle_Qle 0). exact Hd. }
  change (inject_Z 1) with 1%Q. lra.
Qed.

(** X8: the face box of [_video_worker] and [_stats_worker]: for an image
    of at least one pixel each way the box starts inside the image and
    does not reach beyond it, whatever the landmarks are; and when every
    landmark lies in the image the box encloses all of them and the face
    width is not negative. *)
Theorem face_box_inside_image
    (lm : list (Q * Q)) (img_w img_h face_width fx fy fw fh : Z) :
  1 <= img_w -> 1 <= img_h ->
  face_extent lm img_w img_h = Some (face_width, (fx, fy, fw, fh)) ->
  (0 <= fx <= img_w - 1 /\ 0 <= fy <= img_h - 1
   /\ 0 <= fx + fw <= img_w /\ 0 <= fy + fh <= img_h
   /\ 0 <= face_width)
  /\ (Forall (fun p => 0 <= fst p <= img_w /\ 0 <= snd p <= img_h)
        (map (landmark_px img_w img_h) lm) ->
      Forall (fun p => fx <= fst p <= fx + fw /\ fy <= snd p <= fy + fh)
        (map (landmark_px img_w img_h) lm)).
Proof.
  intros Hw Hh. unfold face_extent.
  destruct (map (landmark_px img_w img_h) lm) as [|p r] eqn:E; [discriminate|].
  cbv zeta. intros H. injection H as <- <- <- <- <-.
  destruct (list_min_spec (map fst r) (fst p)) as (A1 & A2 & A3).
  destruct (list_max_spec (map fst r) (fst p)) as (B1 & B2 & B3).
  destruct (list_min_spec (map snd r) (snd p)) as (C1 & C2 & C3).
  destruct (list_max_spec (map snd r) (snd p)) as (D1 & D2 & D3).
  set (xs_min := list_min (fst p) (map fst r)) in *.
  set (xs_max := list_max (fst p) (map fst r)) in *.
  set (ys_min := list_min (snd p) (map snd r)) in *.
  set (ys_max := list_max (snd p) (map snd r)) in *.
  set (pad_x := py_int ((4 # 100) * inject_Z (Z.min img_w xs_max - Z.max 0 xs_min) + 1)).
  set (pad_y := py_int ((6 # 100) * inject_Z (Z.min img_h ys_max - Z.max 0 ys_min) + 1)).
  split.
  - pose proof (clamp_between (Z.max 0 xs_min - pad_x) 0 (img_w - 1) ltac:(lia)).
    pose proof (clamp_between (Z.max 0 ys_min - pad_y) 0 (img_h - 1) ltac:(lia)).
    pose proof (clamp_between (Z.min img_w xs_max + pad_x) 0 img_w ltac:(lia)).
    pose proof (clamp_between (Z.min img_h ys_max + pad_y) 0 img_h ltac:(lia)).
    lia.
  - intros Hin.
    assert (Hx : 0 <= xs_min /\ xs_max <= img_w /\ 0 <= ys_min /\ ys_max <= img_h).
    { rewrite Forall_forall in Hin.
      assert (Hp : forall q, In q (p :: r) ->
                     0 <= fst q <= img_w /\ 0 <= snd q <= img_h).
      { intros q Hq. apply Hin. apply list_elem_of_In. exact Hq. }
      assert (Hf : forall z, In z (fst p :: map fst r) -> 0 <= z <= img_w).
      { intros z [<-|Hz]; [apply Hp; left; reflexivity|].
        apply in_map_iff in Hz as (q & <- & Hq). apply Hp. right. exact Hq. }
      assert (Hs : forall z, In z (snd p :: map snd r) -> 0 <= z <= img_h).
      { intros z [<-|Hz]; [apply Hp; left; reflexivity|].
        apply in_map_iff in Hz as (q & <- & Hq). apply Hp. right. exact Hq. }
      pose proof (Hf _ A3). pose proof (Hf _ B3). pose proof (Hs _ C3).
      pose proof (Hs _ D3). lia. }
    assert (Px : 1 <= pad_x) by (apply pad_positive; lia).
    assert (Py : 1 <= pad_y) by (apply pad_positive; lia).
    assert (Hall : forall q, In q (p :: r) ->
                     xs_min <= fst q <= xs_max /\ ys_min <= snd q <= ys_max).
    { intros q [<-|Hq]; [lia|].
      pose proof (A2 (fst q) (in_map fst _ _ Hq)).
      pose proof (B2 (fst q) (in_map fst _ _ Hq)).
      pose proof (C2 (snd q) (in_map snd _ _ Hq)).
      pose proof (D2 (snd q) (in_map snd _ _ Hq)). lia. }
    apply Forall_forall. intros q Hq. apply list_elem_of_In in Hq.
    destruct (Hall q Hq) as [Hq1 Hq2]. unfold clamp. lia.
Qed.

Lemma face_box_inside_image_witness :
  exists face_width fx fy fw fh,
    face_extent demo_landmarks 640 480 = Some (face_width, (fx, fy, fw, fh))
    /\ 0 <= fx <= 640 - 1 /\ 0 <= fx + fw <= 640.
Proof.
  destruct (face_extent demo_landmarks 640 480) as [[fwid [[[fx fy] fw] fh]]|] eqn:E;
    [|vm_compute in E; discriminate E].
  destruct (face_box_inside_image demo_landmarks 640 480 fwid fx fy fw fh
              ltac:(lia) ltac:(lia) E) as [(H1 & _ & H2 & _) _].
  exists fwid, fx, fy, fw, fh. split; [reflexivity|]. split; assumption.
Defined.

(** X9: the mouth box: it encloses every mouth landmark found, with a
    margin of 10 pixels on each side, and is at least 20 pixels wide and
    high; without any of the six mouth landmarks there is no box. *)
Theorem mouth_box_margin (lm : list (Q * Q)) (img_w img_h : Z) :
  (mouth_points lm img_w img_h = [] -> mouth_extent lm img_w img_h = None)
  /\ (forall bx by_ bw bh,
        mouth_extent lm img_w img_h = Some (bx, by_, bw, bh) ->
        20 <= bw /\ 20 <= bh
        /\ Forall (fun p => bx + 10 <= fst p <= bx + bw - 10
                            /\ by_ + 10 <= snd p <= by_ + bh - 10)
             (mouth_points lm img_w img_h)).
Proof.
  unfold mouth_extent. split; [intros ->; reflexivity|].
  intros bx by_ bw bh.
  destruct (mouth_points lm img_w img_h) as [|p r]; [discriminate|].
  cbv zeta. intros H. injection H as <- <- <- <-.
  destruct (list_min_spec (map fst r) (fst p)) as (A1 & A2 & A3).
  destruct (list_max_spec (map fst r) (fst p)) as (B1 & B2 & B3).
  destruct (list_min_spec (map snd r) (snd p)) as (C1 & C2 & C3).
  destruct (list_max_spec (map snd r) (snd p)) as (D1 & D2 & D3).
  split; [lia|]. split; [lia|].
  apply Forall_forall. intros q Hq. apply list_elem_of_In in Hq.
  destruct Hq as [<-|Hq]; [lia|].
  pose proof (A2 (fst q) (in_map fst _ _ Hq)).
  pose proof (B2 (fst q) (in_map fst _ _ Hq)).
  pose proof (C2 (snd q) (in_map snd _ _ Hq)).
  pose proof (D2 (snd q) (in_map snd _ _ Hq)). lia.
Qed.

Lemma mouth_box_margin_witness :
  mouth_extent demo_mouth_landmarks 640 480 = Some (310, 230, 84, 116)
  /\ 20 <= 84 /\ 20 <= 116
  /\ Forall (fun p => 310 + 10 <= fst p <= 310 + 84 - 10
                      /\ 230 + 10 <= snd p <= 230 + 116 - 10)
        (mouth_points demo_mouth_landmarks 640 480).
Proof.
  split; [vm_compute; reflexivity|].
  apply (proj2 (mouth_box_margin demo_mouth_landmarks 640 480) 310 230 84 116).
  vm_compute. reflexivity.
Defined.

Lemma fromkeys_spec (l : list string) :
  forall seen,
    NoDup (fromkeys seen l)
    /\ (forall x, x ∈ fromkeys seen l <-> x ∈ l /\ x ∉ seen).
Proof.
  induction l as [|a l IH]; intros seen; cbn [fromkeys].
  - split; [constructor|]. intros x. rewrite elem_of_nil. tauto.
  - destruct (bool_decide (a ∈ seen)) eqn:E.
    + apply bool_decide_eq_true in E. destruct (IH seen) as [H1 H2].
      split; [exact H1|]. intros x. rewrite H2, elem_of_cons.
      split; [tauto|]. intros [[->|Hx] Hs]; [contradiction | tauto].
    + apply bool_decide_eq_false in E. destruct (IH (a :: seen)) as [H1 H2].
      split.
      * constructor; [|exact H1]. rewrite H2, not_elem_of_cons. tauto.
      * intros x. rewrite !elem_of_cons, H2, not_elem_of_cons.
        destruct (decide (x = a)) as [->|Hn]; tauto.
Qed.

Lemma NoDup_take_prefix (n : nat) (l : list string) : NoDup l -> NoDup (take n l).
Proof.
  revert n. induction l as [|a l IH]; intros n H; [destruct n; constructor|].
  destruct n as [|n]; [constructor|]. cbn [take].
  apply NoDup_cons in H as [Ha H]. constructor; [|apply IH, H].
  intros Hin. apply Ha. apply (subseteq_take n l a Hin).
Qed.

Lemma list_remove_spec (name : string) (l : list string) :
  NoDup l -> name ∈ l ->
  NoDup (list_remove name l)
  /\ length l = S (length (list_remove name l))
  /\ (forall x, x ∈ list_remove name l <-> x ∈ l /\ x <> name).
Proof.
  induction l as [|a l IH]; intros Hnd Hin; [apply elem_of_nil in Hin; contradiction|].
  apply NoDup_cons in Hnd as [Ha Hnd]. cbn [list_remove].
  destruct (bool_decide (a = name)) eqn:E.
  - apply bool_decide_eq_true in E. subst a.
    split; [exact Hnd|]. split; [reflexivity|]. intros x. rewrite elem_of_cons.
    split; [intros Hx; split; [tauto | intros ->; contradiction]|].
    intros [[->|Hx] Hn]; [contradiction | exact Hx].
  - apply bool_decide_eq_false in E.
    assert (Hin' : name ∈ l).
    { apply elem_of_cons in Hin as [->|Hin]; [contradiction | exact Hin]. }
    destruct (IH Hnd Hin') as (H1 & H2 & H3).
    split; [constructor; [rewrite H3; tauto | exact H1]|].
    split; [cbn; lia|]. intros x. rewrite !elem_of_cons, H3.
    split; [intros [->|[Hx Hn]]; tauto | tauto].
Qed.

Lemma list_remove_snoc (name : string) (l : list string) :
  name ∉ l -> list_remove name (l ++ [name]) = l.
Proof.
  induction l as [|a l IH]; intros H; cbn [List.app list_remove app].
  - rewrite bool_decide_eq_true_2 by reflexivity. reflexivity.
  - apply not_elem_of_cons in H as [Hn Hl].
    rewrite bool_decide_eq_false_2 by congruence. rewrite IH by exact Hl. reflexivity.
Qed.

(** X10: the pinned graphs: the list built by [__init__] from the
    configuration has no duplicate and at most three names, and
    [_pin_graph] and [_unpin_graph] keep it so; pinning a name already
    pinned, or a fourth name, changes nothing; a pinned name is the last
    of the list; unpinning removes the name and nothing else; and
    unpinning a name just pinned gives the list back. *)
Theorem pinned_graphs_invariant (configured l : list string) (name : string) :
  (NoDup (init_pinned configured) /\ (length (init_pinned configured) <= 3)%nat)
  /\ (NoDup l -> (length l <= 3)%nat ->
      (NoDup (pin_graph name l) /\ (length (pin_graph name l) <= 3)%nat)
      /\ (NoDup (unpin_graph name l) /\ (length (unpin_graph name l) <= 3)%nat)
      /\ (name ∈ l \/ length l = 3%nat -> pin_graph name l = l)
      /\ (name ∉ l -> (length l < 3)%nat ->
            pin_graph name l = l ++ [name]
            /\ unpin_graph name (pin_graph name l) = l)
      /\ (forall x, x ∈ unpin_graph name l <-> x ∈ l /\ x <> name)).
Proof.
  split.
  - unfold init_pinned, MAX_PINNED_GRAPHS. split.
    + apply NoDup_take_prefix, fromkeys_spec.
    + rewrite length_take. lia.
  - intros Hnd Hlen. unfold pin_graph, unpin_graph, MAX_PINNED_GRAPHS.
    destruct (bool_decide (name ∈ l)) eqn:E.
    + apply bool_decide_eq_true in E.
      destruct (list_remove_spec name l Hnd E) as (H1 & H2 & H3).
      split; [split; assumption|]. split; [split; [exact H1 | lia]|].
      split; [reflexivity|]. split; [intros Hn; contradiction|]. exact H3.
    + apply bool_decide_eq_false in E.
      split; [|split; [split; assumption|]].
      * destruct (3 <=? length l)%nat eqn:E3; [split; assumption|].
        apply Nat.leb_gt in E3. split.
        -- apply NoDup_app. split; [exact Hnd|].
           split; [intros x Hx Hx'; apply list_elem_of_singleton in Hx'; subst x; contradiction
                  | apply NoDup_singleton].
        -- rewrite length_app. cbn. lia.
      * split.
        -- intros [Hin|H3]; [contradiction|]. rewrite H3. reflexivity.
        -- split.
           ++ intros _ Hlt. replace (3 <=? length l)%nat with false
                by (symmetry; apply Nat.leb_gt; exact Hlt).
              split; [reflexivity|].
              rewrite bool_decide_eq_true_2
                by (apply elem_of_app; right; apply list_elem_of_singleton; reflexivity).
              apply list_remove_snoc, E.
           ++ intros x. split; [intros Hx; split; [exact Hx | intros ->; contradiction] | tauto].
Qed.

Lemma pinned_graphs_invariant_witness :
  pin_graph "Posture Alerts" ["Screen Time"; "Average Distance"]
  = ["Screen Time"; "Average Distance"] ++ ["Posture Alerts"]
  /\ unpin_graph "Posture Alerts"
       (pin_graph "Posture Alerts" ["Screen Time"; "Average Distance"])
     = ["Screen Time"; "Average Distance"].
Proof.
  refine (proj1 (proj2 (proj2 (proj2
            (proj2 (pinned_graphs_invariant [] ["Screen Time"; "Average Distance"]
                      "Posture Alerts") _ _)))) _ _).
  - apply (bool_decide_unpack _). vm_compute. exact I.
  - cbn. lia.
  - apply (bool_decide_unpack _). vm_compute. exact I.
  - cbn. lia.
Defined.

Lemma month_up_spec (fuel : nat) :
  forall month year,
    (Z.to_nat (1 - month) <= fuel * 12)%nat ->
    let r := month_up fuel month year in
    1 <= fst r /\ (month < 1 -> fst r <= 12) /\ (1 <= month -> r = (month, year))
    /\ 12 * snd r + fst r = 12 * year + month.
Proof.
  induction fuel as [|k IH]; intros month year Hf; cbn [month_up].
  - destruct (month <? 1) eqn:E; [apply Z.ltb_lt in E; lia|].
    apply Z.ltb_ge in E. cbn [fst snd]. repeat split; lia.
  - destruct (month <? 1) eqn:E.
    + apply Z.ltb_lt in E.
      destruct (IH (month + 12) (year - 1) ltac:(lia)) as (H1 & H2 & H3 & H4).
      cbv zeta. split; [exact H1|]. split.
      * intros _. destruct (Z.lt_ge_cases (month + 12) 1) as [Hl|Hg]; [apply H2, Hl|].
        rewrite (H3 Hg). cbn [fst]. lia.
      * split; [lia|]. lia.
    + apply Z.ltb_ge in E. cbn [fst snd]. repeat split; lia.
Qed.

Lemma month_down_spec (fuel : nat) :
  forall month year,
    (Z.to_nat month <= 12 + fuel * 12)%nat -> 1 <= month ->
    let r := month_down fuel month year in
    1 <= fst r <= 12 /\ 12 * snd r + fst r = 12 * year + month.
Proof.
  induction fuel as [|k IH]; intros month year Hf Hm; cbn [month_down].
  - destruct (month >? 12) eqn:E; [apply Z.gtb_lt in E; lia|].
    rewrite Z.gtb_ltb in E. apply Z.ltb_ge in E. cbn [fst snd]. lia.
  - destruct (month >? 12) eqn:E.
    + apply Z.gtb_lt in E.
      destruct (IH (month - 12) (year + 1) ltac:(lia) ltac:(lia)) as (H1 & H2).
      cbv zeta. split; [exact H1 | lia].
    + rewrite Z.gtb_ltb in E. apply Z.ltb_ge in E. cbn [fst snd]. lia.
Qed.

(** X11: [_change_calendar_month]: for any step [delta] the loops end
    with a month between 1 and 12 and a year such that the number of
    months since year 0 has moved by exactly [delta]; while the calendar
    has no year or no month the call changes nothing. *)
Theorem change_calendar_month_normalises (delta month year : Z) :
  (exists m y,
      change_calendar_month delta (Some month, Some year) = (Some m, Some y)
      /\ 1 <= m <= 12
      /\ 12 * y + m = 12 * year + month + delta)
  /\ (forall o, change_calendar_month delta (None, o) = (None, o))
  /\ (forall o, change_calendar_month delta (o, None) = (o, None)).
Proof.
  split; [|split; [reflexivity | intros [m|]; reflexivity]].
  unfold change_calendar_month. cbv zeta.
  set (nm := month + delta).
  destruct (month_up_spec (Z.to_nat (1 - nm)) nm year ltac:(lia)) as (H1 & H2 & H3 & H4).
  set (r1 := month_up (Z.to_nat (1 - nm)) nm year) in *.
  destruct (month_down_spec (Z.to_nat (fst r1)) (fst r1) (snd r1) ltac:(lia) H1)
    as (K1 & K2).
  eexists; eexists. split; [reflexivity|]. split; [exact K1 | lia].
Qed.

(** ** Chart smoothing *)

Lemma length_convolve_same (l : list Q) : forall prev, length (convolve_same prev l) = length l.
Proof. induction l as [|x l IH]; intros prev; cbn; [reflexivity | rewrite IH; reflexivity]. Qed.

Lemma convolve_same_lookup (l : list Q) :
  forall (prev : Q) (i : nat) (x : Q),
    l !! i = Some x ->
    convolve_same prev l !! i
    = Some ((25 # 100) * match i with O => prev | S j => default 0 (l !! j) end
            + (5 # 10) * x + (25 # 100) * default 0 (l !! S i))%Q.
Proof.
  induction l as [|a l IH]; intros prev i x H; [discriminate|].
  destruct i as [|i]; cbn [convolve_same].
  - cbn in H. injection H as <-. cbn. destruct l; reflexivity.
  - cbn in H. destruct i as [|i]; exact (IH a _ x H).
Qed.

(** X12: [_smooth_line]: the smoothed series has the length of the input;
    a series of fewer than three values is returned unchanged; and the
    smoothing never leaves the range of the data: if every value lies
    between [lo] and [hi], so does every smoothed value (the ends, which
    the convolution alone would pull toward 0, are replaced by means of two
    values). *)
Theorem smooth_line_in_range (values : list Q) (lo hi : Q) :
  length (smooth_line values) = length values
  /\ ((length values < 3)%nat -> smooth_line values = values)
  /\ (Forall (fun v => (lo <= v)%Q /\ (v <= hi)%Q) values ->
      Forall (fun v => (lo <= v)%Q /\ (v <= hi)%Q) (smooth_line values)).
Proof.
  unfold smooth_line. cbv zeta.
  destruct (length values <? 3)%nat eqn:E.
  - split; [reflexivity|]. split; [reflexivity | auto].
  - apply Nat.ltb_ge in E. split; [|split; [lia|]].
    + rewrite !length_insert. apply length_convolve_same.
    + intros Hall. rewrite Forall_lookup in Hall. apply Forall_lookup.
      assert (Hnth : forall k, (k < length values)%nat ->
                       (lo <= nth k values 0)%Q /\ (nth k values 0 <= hi)%Q).
      { intros k Hk. destruct (lookup_lt_is_Some_2 values k Hk) as [v Hv].
        rewrite (nth_lookup_Some _ _ _ _ Hv). exact (Hall k v Hv). }
      intros i y Hy.
      assert (Hi : (i < length values)%nat).
      { apply lookup_lt_Some in Hy. rewrite !length_insert, length_convolve_same in Hy.
        exact Hy. }
      destruct (decide (i = length values - 1)%nat) as [->|Hlast].
      { rewrite list_lookup_insert_eq in Hy
          by (rewrite length_insert, length_convolve_same; lia).
        injection Hy as <-.
        destruct (Hnth (length values - 1)%nat ltac:(lia)).
        destruct (Hnth (length values - 2)%nat ltac:(lia)).
        split; [apply Qle_shift_div_l | apply Qle_shift_div_r]; lra. }
      rewrite list_lookup_insert_ne in Hy by lia.
      destruct (decide (i = 0)%nat) as [->|Hfirst].
      { rewrite list_lookup_insert_eq in Hy by (rewrite length_convolve_same; lia).
        injection Hy as <-.
        destruct (Hnth 0%nat ltac:(lia)). destruct (Hnth 1%nat ltac:(lia)).
        split; [apply Qle_shift_div_l | apply Qle_shift_div_r]; lra. }
      rewrite list_lookup_insert_ne in Hy by lia.
      destruct (lookup_lt_is_Some_2 values i Hi) as [x Hx].
      rewrite (convolve_same_lookup values 0 i x Hx) in Hy. injection Hy as <-.
      destruct i as [|j]; [lia|].
      destruct (lookup_lt_is_Some_2 values j ltac:(lia)) as [a Ha].
      destruct (lookup_lt_is_Some_2 values (S (S j)) ltac:(lia)) as [b Hb].
      rewrite Ha, Hb. cbn [default from_option id].
      destruct (Hall _ _ Hx), (Hall _ _ Ha), (Hall _ _ Hb).
      unfold id. split; lra.
Qed.

Lemma smooth_line_in_range_witness :
  Forall (fun v => (0 <= v)%Q /\ (v <= 10)%Q) (smooth_line [2; 10; 4; 0]%Q).
Proof.
  refine (proj2 (proj2 (smooth_line_in_range [2; 10; 4; 0]%Q 0 10)) _).
  repeat constructor; discriminate.
Defined.

(** ** Period aggregates *)

Lemma between_same (d k : string) : between_dates d d k = true <-> k = d.
Proof.
  unfold between_dates. rewrite andb_true_iff. split.
  - intros [H1 H2]. apply String.leb_antisym; assumption.
  - intros ->. destruct (String.leb_total d d) as [H|H]; rewrite H; auto.
Qed.

Lemma rows_between_day {V} (m : gmap string V) (d : string) :
  rows_between m d d = match m !! d with Some v => {[ d := v ]} | None => ∅ end.
Proof.
  unfold rows_between. apply map_eq. intros k.
  destruct (decide (k = d)) as [->|Hk].
  - destruct (m !! d) as [v|] eqn:E.
    + rewrite lookup_singleton_eq. apply map_lookup_filter_Some. split; [exact E|].
      cbn. apply between_same. reflexivity.
    + rewrite lookup_empty. apply map_lookup_filter_None. left. exact E.
  - assert (H : filter (fun kv : string * V => between_dates d d (fst kv) = true) m !! k = None).
    { apply map_lookup_filter_None. right. intros x _. cbn. rewrite between_same. exact Hk. }
    rewrite H. destruct (m !! d); [rewrite lookup_singleton_ne by congruence|rewrite lookup_empty];
      reflexivity.
Qed.

Lemma column_total_singleton (k : string) (v : Z) : column_total {[ k := v ]} = v.
Proof.
  unfold column_total. rewrite map_fold_singleton. lia.
Qed.

Lemma or_zero_sum_day (m : gmap string Z) (d : string) :
  or_zero (sum_between m d d) = default 0 (m !! d).
Proof.
  unfold sum_between. cbv zeta. rewrite rows_between_day.
  destruct (m !! d) as [v|]; cbn [default from_option id].
  - destruct (decide (({[ d := v ]} : gmap string Z) = ∅)) as [H|H].
    + apply (f_equal (fun x => x !! d)) in H.
      rewrite lookup_singleton_eq, lookup_empty in H. discriminate.
    + cbn [or_zero]. rewrite column_total_singleton. unfold truthyZ.
      destruct (v =? 0) eqn:E; [apply Z.eqb_eq in E; subst v|]; reflexivity.
  - destruct (decide ((∅ : gmap string Z) = ∅)) as [H|H]; [reflexivity | contradiction].
Qed.

Lemma or_zero_sum_total (m : gmap string Z) (lo hi : string) :
  or_zero (sum_between m lo hi) = column_total (rows_between m lo hi).
Proof.
  unfold sum_between. cbv zeta.
  destruct (decide (rows_between m lo hi = ∅)) as [H|H].
  - rewrite H. reflexivity.
  - cbn [or_zero]. unfold truthyZ.
    destruct (column_total (rows_between m lo hi) =? 0) eqn:E;
      [apply Z.eqb_eq in E; rewrite E|]; reflexivity.
Qed.

(** X13: [_aggregate_screen_time]: without a connection the total is 0
    and nothing is logged; when the statement fails the exception is
    logged and the total is 0; on a working store the total of a one-day
    range is the row of that day (0 if there is none) and the world is
    left as it is; and what the save block has just written for today,
    committed or not, is what the aggregate of today returns: the stored
    seconds plus the delta above the watermark. *)
Theorem aggregate_screen_time_reads_saved
    (s : App) (cm wk : Tables) (ef : list Effect) (d : string) :
  (forall lo hi, aggregate_screen_time lo hi (mkWorld s None ef) = (Ok 0, mkWorld s None ef))
  /\ (forall lo hi,
        aggregate_screen_time lo hi (mkWorld s (Some (mkDb cm wk (Some O))) ef)
        = (Ok 0, mkWorld s (Some (mkDb cm wk None)) (LogExc :: ef)))
  /\ aggregate_screen_time d d (mkWorld s (Some (mkDb cm wk None)) ef)
     = (Ok (default 0 (screen_time wk !! d)), mkWorld s (Some (mkDb cm wk None)) ef)
  /\ (forall (mirror : bool) (tv : Z),
        saved_visible_seconds (agg s) <= tv ->
        fst (aggregate_screen_time d d
               (snd (save_screen_time mirror d tv (mkWorld s (Some (mkDb cm wk None)) ef))))
        = Ok (default 0 (screen_time wk !! d) + (tv - saved_visible_seconds (agg s)))).
Proof.
  split; [reflexivity|]. split; [reflexivity|].
  assert (Hday : forall s' cm' wk' ef',
             aggregate_screen_time d d (mkWorld s' (Some (mkDb cm' wk' None)) ef')
             = (Ok (default 0 (screen_time wk' !! d)),
                mkWorld s' (Some (mkDb cm' wk' None)) ef')).
  { intros s' cm' wk' ef'.
    unfold aggregate_screen_time, try_except, bind, has_cursor, query, execute, ret.
    cbn [store fault working committed fst snd]. rewrite or_zero_sum_day. reflexivity. }
  split; [apply Hday|].
  intros mirror tv Hle.
  unfold save_screen_time, bind, gets. cbn [app].
  destruct (Z.max 0 (tv - saved_visible_seconds (agg s)) >? 0) eqn:E.
  - apply Z.gtb_lt in E.
    unfold select_screen_time, replace_screen_time, query, update, execute, modify_agg,
      modify, ret, bind.
    cbn -[aggregate_screen_time Z.add Z.max Z.sub].
    unfold set_app, set_store. cbn [app store effects].
    rewrite Hday. cbn -[Z.add Z.max Z.sub]. rewrite lookup_insert_eq.
    cbn [default from_option id]. unfold id. f_equal. lia.
  - apply max0_quiet in E. cbn [ret snd]. rewrite Hday. cbn [fst]. f_equal. lia.
Qed.

Lemma aggregate_screen_time_reads_saved_witness :
  fst (aggregate_screen_time "2026-01-01" "2026-01-01"
         (snd (save_screen_time true "2026-01-01" 26
                 (mkWorld demo_hour_app (Some (mkDb demo_day_tables demo_day_tables None)) []))))
  = Ok (default 0 (screen_time demo_day_tables !! "2026-01-01")
        + (26 - saved_visible_seconds (agg demo_hour_app))).
Proof.
  refine (proj2 (proj2 (proj2 (aggregate_screen_time_reads_saved demo_hour_app
            demo_day_tables demo_day_tables [] "2026-01-01"))) true 26 _).
  cbn. lia.
Defined.

Lemma rows_between_insert (m : gmap string Z) (lo hi k : string) (v : Z) :
  between_dates lo hi k = true ->
  rows_between (<[k := v]> m) lo hi = <[k := v]> (rows_between m lo hi)
  /\ rows_between m lo hi !! k = m !! k.
Proof.
  intros H. unfold rows_between. split.
  - apply map_filter_insert_True. exact H.
  - destruct (m !! k) as [x|] eqn:E.
    + apply map_lookup_filter_Some. split; [exact E | exact H].
    + apply map_lookup_filter_None. left. exact E.
Qed.

(** X14: the save block and the period total shown to the user
    ([_get_period_metrics] adds [_unsaved_visible_seconds] to
    [_aggregate_screen_time] when today is in the range): on a working
    store, for any range that contains today, the stored total plus the
    unsaved seconds is the same before and after the save block has
    written today's row, so a flush never shows as a jump. *)
Theorem stored_plus_unsaved_survives_save
    (s : App) (cm wk : Tables) (ef : list Effect)
    (lo hi today : string) (mirror : bool) (t : Q) :
  between_dates lo hi today = true ->
  saved_visible_seconds (agg s) <= total_visible_at t (agg s) ->
  let w := mkWorld s (Some (mkDb cm wk None)) ef in
  let w' := snd (save_screen_time mirror today (total_visible_at t (agg s)) w) in
  exists x x',
    fst (aggregate_screen_time lo hi w) = Ok x
    /\ fst (aggregate_screen_time lo hi w') = Ok x'
    /\ x' + _unsaved_visible_seconds t (agg (app w'))
       = x + _unsaved_visible_seconds t (agg (app w))
    /\ _unsaved_visible_seconds t (agg (app w')) = 0.
Proof.
  intros Hin Hle. cbv zeta.
  assert (Hagg : forall s' cm' wk' ef',
             aggregate_screen_time lo hi (mkWorld s' (Some (mkDb cm' wk' None)) ef')
             = (Ok (column_total (rows_between (screen_time wk') lo hi)),
                mkWorld s' (Some (mkDb cm' wk' None)) ef')).
  { intros s' cm' wk' ef'.
    unfold aggregate_screen_time, try_except, bind, has_cursor, query, execute, ret.
    cbn [store fault working committed fst snd]. rewrite or_zero_sum_total. reflexivity. }
  unfold save_screen_time, bind, gets. cbn [app].
  destruct (Z.max 0 (total_visible_at t (agg s) - saved_visible_seconds (agg s)) >? 0) eqn:E.
  - apply Z.gtb_lt in E.
    unfold select_screen_time, replace_screen_time, query, update, execute, modify_agg,
      modify, ret, bind.
    cbn -[aggregate_screen_time Z.add Z.max Z.sub total_visible_at].
    unfold set_app, set_store. cbn [app store effects].
    rewrite !Hagg. eexists; eexists. split; [reflexivity|]. split; [reflexivity|].
    cbn -[Z.add Z.max Z.sub total_visible_at].
    destruct (rows_between_insert (screen_time wk) lo hi today
                (default 0 (screen_time wk !! today)
                 + Z.max 0 (total_visible_at t (agg s) - saved_visible_seconds (agg s))) Hin)
      as [R1 R2].
    rewrite R1, <- R2, column_total_insert.
    unfold _unsaved_visible_seconds in *. unfold total_visible_at in *.
    destruct mirror; cbn -[Z.add Z.max Z.sub] in *; split; lia.
  - apply max0_quiet in E. cbn [ret snd]. rewrite !Hagg.
    eexists; eexists. split; [reflexivity|]. split; [reflexivity|].
    cbn [app fst]. unfold _unsaved_visible_seconds.
    split; [reflexivity | apply Z.max_l; lia].
Qed.

Lemma stored_plus_unsaved_survives_save_witness :
  let w := mkWorld demo_in_view (Some (mkDb demo_day_tables demo_day_tables None)) [] in
  let w' := snd (save_screen_time true "2026-01-01"
                   (total_visible_at 120 (agg demo_in_view)) w) in
  fst (save_screen_time true "2026-01-01" (total_visible_at 120 (agg demo_in_view)) w)
  = Ok true
  /\ fst (aggregate_screen_time "2025-12-29" "2026-01-04" w) = Ok 990
  /\ _unsaved_visible_seconds 120 (agg (app w)) = 20
  /\ fst (aggregate_screen_time "2025-12-29" "2026-01-04" w') = Ok 1010
  /\ exists x x',
       fst (aggregate_screen_time "2025-12-29" "2026-01-04" w) = Ok x
       /\ fst (aggregate_screen_time "2025-12-29" "2026-01-04" w') = Ok x'
       /\ x' + _unsaved_visible_seconds 120 (agg (app w'))
          = x + _unsaved_visible_seconds 120 (agg (app w))
       /\ _unsaved_visible_seconds 120 (agg (app w')) = 0.
Proof.
  cbv zeta.
  split; [vm_compute; reflexivity|]. split; [vm_compute; reflexivity|].
  split; [vm_compute; reflexivity|]. split; [vm_compute; reflexivity|].
  apply (stored_plus_unsaved_survives_save demo_in_view demo_day_tables demo_day_tables []
           "2025-12-29" "2026-01-04" "2026-01-01" true 120%Q).
  - reflexivity.
  - vm_compute. discriminate.
Defined.

Lemma distance_sum_count_singleton (k : string) (row : option Q * option Z) :
  distance_sum_count {[ k := row ]}
  = ((0 + default 0%Q (fst row) * inject_Z (default 0%Z (snd row)))%Q,
     0 + default 0 (snd row)).
Proof. unfold distance_sum_count. rewrite map_fold_singleton. reflexivity. Qed.

(** X15: [_aggregate_avg_distance] for one day: on a working store the
    result is the stored average of that day when its count is positive
    (the sum rebuilt as average times count, divided by the count), and
    [None] when the day has no row or no positive count; without a
    connection it is [None]. *)
Theorem aggregate_avg_distance_day
    (s : App) (cm wk : Tables) (ef : list Effect) (d : string) :
  fst (aggregate_avg_distance d d (mkWorld s None ef)) = Ok None
  /\ (distance_log wk !! d = None ->
      fst (aggregate_avg_distance d d (mkWorld s (Some (mkDb cm wk None)) ef)) = Ok None)
  /\ (forall (avg : option Q) (n : option Z),
        distance_log wk !! d = Some (avg, n) -> default 0 n <= 0 ->
        fst (aggregate_avg_distance d d (mkWorld s (Some (mkDb cm wk None)) ef)) = Ok None)
  /\ (forall (avg : Q) (n : Z),
        distance_log wk !! d = Some (Some avg, Some n) -> 0 < n ->
        exists v,
          fst (aggregate_avg_distance d d (mkWorld s (Some (mkDb cm wk None)) ef))
          = Ok (Some v)
          /\ (v == avg)%Q).
Proof.
  split; [reflexivity|].
  assert (Hrun : fst (aggregate_avg_distance d d (mkWorld s (Some (mkDb cm wk None)) ef))
                 = Ok (let r := distance_sum_count (rows_between (distance_log wk) d d) in
                       if snd r >? 0 then Some (fst r / inject_Z (snd r))%Q else None)).
  { reflexivity. }
  rewrite Hrun, rows_between_day. cbv zeta. split; [|split].
  - intros ->. reflexivity.
  - intros avg n -> Hn. rewrite distance_sum_count_singleton. cbn [fst snd].
    rewrite gtb_false by lia. reflexivity.
  - intros avg n -> Hn. rewrite distance_sum_count_singleton. cbn [fst snd default from_option id].
    unfold id. rewrite gtb_true by lia. eexists. split; [reflexivity|].
    replace (0 + n) with n by lia. field.
    intros H. assert (Hq : (0 < inject_Z n)%Q) by (rewrite <- (Zlt_Qlt 0); exact Hn).
    rewrite H in Hq. exact (Qlt_irrefl _ Hq).
Qed.

Lemma aggregate_avg_distance_day_witness :
  exists v,
    fst (aggregate_avg_distance "2026-01-01" "2026-01-01" demo_pending_world) = Ok (Some v)
    /\ (v == 70)%Q.
Proof.
  refine (proj2 (proj2 (proj2 (aggregate_avg_distance_day
            (app demo_pending_world) (committed demo_pending_db) (working demo_pending_db)
            (effects demo_pending_world) "2026-01-01"))) 70%Q 2 _ _).
  - reflexivity.
  - lia.
Defined.

(** ** Card calibration *)

Lemma best_card_width_fold (rects : list Box) :
  forall b0,
    let b := fold_left
               (fun best_w rect =>
                  let '(_, _, w, h) := rect in
                  if (w >? best_w) && (w >? h) && (w >? 8) then w else best_w)
               rects b0 in
    b0 <= b
    /\ (b = b0 \/ exists x y h, In (x, y, b, h) rects /\ h < b /\ 8 < b)
    /\ (forall x y w h, In (x, y, w, h) rects -> h < w -> 8 < w -> w <= b).
Proof.
  induction rects as [|[[[x0 y0] w0] h0] rects IH]; intros b0; cbn [fold_left].
  - cbv zeta. split; [lia|]. split; [left; reflexivity|]. intros x y w h [].
  - cbv zeta.
    destruct ((w0 >? b0) && (w0 >? h0) && (w0 >? 8)) eqn:E.
    + apply andb_true_iff in E as [E E3]. apply andb_true_iff in E as [E1 E2].
      apply Z.gtb_lt in E1, E2, E3.
      destruct (IH w0) as (H1 & H2 & H3). cbv zeta in H1, H2, H3.
      split; [lia|]. split.
      * right. destruct H2 as [->|(x & y & h & Hin & Hh & H8)].
        -- exists x0, y0, h0. split; [left; reflexivity | split; assumption].
        -- exists x, y, h. split; [right; exact Hin | split; assumption].
      * intros x y w h [Heq|Hin] Hh H8.
        -- injection Heq as <- <- <- <-. exact H1.
        -- exact (H3 x y w h Hin Hh H8).
    + destruct (IH b0) as (H1 & H2 & H3). cbv zeta in H1, H2, H3.
      split; [exact H1|]. split.
      * destruct H2 as [->|(x & y & h & Hin & Hh & H8)]; [left; reflexivity|].
        right. exists x, y, h. split; [right; exact Hin | split; assumption].
      * intros x y w h [Heq|Hin] Hh H8.
        -- injection Heq as <- <- <- <-.
           rewrite !andb_false_iff in E. rewrite !Z.gtb_ltb, !Z.ltb_ge in E. lia.
        -- exact (H3 x y w h Hin Hh H8).
Qed.

(** X16: the card calibration: the width taken for the card is the
    largest width among the rectangles that are wider than high and wider
    than 8 pixels, and without such a rectangle the calibration is left as
    it is; a successful calibration keeps the neutral posture, stores the
    focal length [card_px * 70 / 8.56] and a reference eye distance, and
    agrees with the distance estimator: an object as wide as the reference
    eye distance, seen under the scale of the card, is estimated at the
    70 cm the calibration assumes. *)
Theorem card_calibration_round_trip
    (pw : Z) (rects : list Box) (cal : Calibration) :
  (0 <= best_card_width rects
   /\ (forall x y w h, In (x, y, w, h) rects -> h < w -> 8 < w ->
         w <= best_card_width rects)
   /\ (best_card_width rects = 0
       \/ exists x y h, In (x, y, best_card_width rects, h) rects
                        /\ h < best_card_width rects /\ 8 < best_card_width rects))
  /\ ((forall x y w h, In (x, y, w, h) rects -> w <= h \/ w <= 8) ->
      card_calibration pw rects cal = None)
  /\ (forall (cal' : Calibration) (card_px : Q),
        card_calibration pw rects cal = Some (cal', card_px) ->
        calib_neutral cal' = calib_neutral cal
        /\ (card_px == inject_Z (best_card_width rects) * (640 / inject_Z pw))%Q
        /\ ~ (card_px == 0)%Q
        /\ (calib_get_focal cal' == card_px * 70 / (856 # 100))%Q
        /\ (~ (calib_get_real_ipd cal' == 0)%Q ->
            (raw_eye_distance cal' (calib_get_real_ipd cal' * card_px / (856 # 100)) == 70)%Q)).
Proof.
  destruct (best_card_width_fold rects 0) as (H1 & H2 & H3). cbv zeta in H1, H2, H3.
  fold (best_card_width rects) in H1, H2, H3.
  split; [split; [exact H1|]; split; [exact H3|]|].
  { destruct H2 as [->|H2]; [left; reflexivity | right; exact H2]. }
  split.
  - intros Hno. unfold card_calibration. destruct rects as [|r rects]; [reflexivity|].
    cbv zeta.
    destruct H2 as [E|(x & y & h & Hin & Hh & H8)].
    + rewrite E. reflexivity.
    + exfalso. destruct (Hno _ _ _ _ Hin); lia.
  - intros cal' card_px. unfold card_calibration.
    destruct rects as [|r rects]; [discriminate|]. cbv zeta.
    destruct (best_card_width (r :: rects) <=? 0) eqn:Eb; [discriminate|].
    destruct (pw =? 0) eqn:Ep; [discriminate|].
    apply Z.leb_gt in Eb. apply Z.eqb_neq in Ep.
    intros H. injection H as <- <-.
    assert (Hpw : ~ (inject_Z pw == 0)%Q).
    { intros E. apply Ep. exact (proj1 (inject_Z_injective pw 0) E). }
    assert (Hbw : ~ (inject_Z (best_card_width (r :: rects)) == 0)%Q).
    { intros E. unfold Qeq in E. cbn [Qnum Qden inject_Z] in E. lia. }
    assert (Hpx : ~ (inject_Z (best_card_width (r :: rects)) * (640 / inject_Z pw) == 0)%Q).
    { intros E. apply Qmult_integral in E as [E|E]; [exact (Hbw E)|].
      unfold Qdiv in E. apply Qmult_integral in E as [E|E]; [discriminate E|].
      apply Hpw. rewrite <- (Qinv_involutive (inject_Z pw)), E. reflexivity. }
    split; [reflexivity|]. split; [reflexivity|]. split; [exact Hpx|].
    split.
    { unfold calib_get_focal. cbn [calib_focal_length default from_option id].
      unfold ASSUMED_CALIB_DISTANCE_CM, REAL_CARD_WIDTH_CM. reflexivity. }
    unfold raw_eye_distance, calib_get_focal, calib_get_real_ipd.
    cbn [calib_focal_length calib_real_ipd_cm default from_option id].
    unfold ASSUMED_CALIB_DISTANCE_CM, REAL_CARD_WIDTH_CM.
    set (ipd := from_option _ _ _). intros Hipd.
    field. repeat split; try assumption.
Qed.

Lemma card_calibration_round_trip_witness :
  exists cal' card_px,
    card_calibration 384 demo_contours demo_calibration = Some (cal', card_px)
    /\ (raw_eye_distance cal' (calib_get_real_ipd cal' * card_px / (856 # 100)) == 70)%Q.
Proof.
  eexists. eexists. split; [vm_compute; reflexivity|].
  refine (proj2 (proj2 (proj2 (proj2
            (proj2 (proj2 (card_calibration_round_trip 384 demo_contours demo_calibration))
               _ _ _)))) _).
  - vm_compute. reflexivity.
  - vm_compute. discriminate.
Defined.

(** ** Period ranges *)

Lemma valid_date_iff (d : Date) :
  valid_date d <-> (1 <= d_year d <= 9999 /\ calendar_date d).
Proof.
  unfold valid_date, check_date_fields, calendar_date.
  rewrite !andb_true_iff, !Z.leb_le. tauto.
Qed.

Lemma month_cases (m : Z) :
  1 <= m <= 12 ->
  m = 1 \/ m = 2 \/ m = 3 \/ m = 4 \/ m = 5 \/ m = 6
  \/ m = 7 \/ m = 8 \/ m = 9 \/ m = 10 \/ m = 11 \/ m = 12.
Proof. lia. Qed.

Ltac by_month H :=
  let C := fresh in
  pose proof (month_cases _ H) as C;
  repeat (destruct C as [C|C]; [subst|]); [..|subst].

Ltac table_index :=
  repeat match goal with
         | |- context [Zpos ?p + Zpos ?q] =>
             let v := eval vm_compute in (Zpos p + Zpos q) in
             change (Zpos p + Zpos q) with v
         end;
  repeat match goal with
         | |- context [Z.to_nat ?k] =>
             let v := eval vm_compute in (Z.to_nat k) in
             match v with O => idtac | S _ => idtac end;
             progress change (Z.to_nat k) with v
         end.

Lemma days_in_month_bounds (y m : Z) : 28 <= days_in_month y m <= 31.
Proof.
  unfold days_in_month.
  destruct (m =? 2); [destruct (is_leap y); lia|].
  destruct ((m =? 4) || (m =? 6) || (m =? 9) || (m =? 11)); lia.
Qed.

Lemma wf_next_day (d : Date) : calendar_date d -> calendar_date (next_day d).
Proof.
  destruct d as [y m dd]. unfold calendar_date, next_day. cbn [d_year d_month d_day].
  intros [Hm Hd].
  destruct (dd <? days_in_month y m) eqn:E.
  - apply Z.ltb_lt in E. cbn [d_year d_month d_day]. lia.
  - destruct (m <? 12) eqn:E2; cbn [d_year d_month d_day].
    + apply Z.ltb_lt in E2. pose proof (days_in_month_bounds y (m + 1)). lia.
    + pose proof (days_in_month_bounds (y + 1) 1). lia.
Qed.

Lemma wf_prev_day (d : Date) : calendar_date d -> calendar_date (prev_day d).
Proof.
  destruct d as [y m dd]. unfold calendar_date, prev_day. cbn [d_year d_month d_day].
  intros [Hm Hd].
  destruct (1 <? dd) eqn:E.
  - apply Z.ltb_lt in E. cbn [d_year d_month d_day]. lia.
  - destruct (1 <? m) eqn:E2; cbn [d_year d_month d_day].
    + apply Z.ltb_lt in E2. pose proof (days_in_month_bounds y (m - 1)). lia.
    + pose proof (days_in_month_bounds (y - 1) 12).
      split; [lia|]. split; [lia|]. reflexivity.
Qed.

Lemma prev_next_day (d : Date) : calendar_date d -> prev_day (next_day d) = d.
Proof.
  destruct d as [y m dd]. unfold calendar_date, next_day, prev_day. cbn [d_year d_month d_day].
  intros [Hm Hd].
  destruct (dd <? days_in_month y m) eqn:E; cbn [d_year d_month d_day].
  - apply Z.ltb_lt in E.
    destruct (1 <? dd + 1) eqn:E1; [|apply Z.ltb_ge in E1; lia].
    f_equal. lia.
  - apply Z.ltb_ge in E.
    destruct (m <? 12) eqn:E2; cbn [d_year d_month d_day].
    + apply Z.ltb_lt in E2. cbn [Z.ltb Z.compare Pos.compare].
      destruct (1 <? m + 1) eqn:E3; [|apply Z.ltb_ge in E3; lia].
      replace (m + 1 - 1) with m by lia. f_equal. lia.
    + apply Z.ltb_ge in E2. assert (m = 12) by lia. subst m.
      cbn [Z.ltb Z.compare Pos.compare].
      replace (y + 1 - 1) with y by lia.
      unfold days_in_month in Hd, E. cbn in Hd, E. f_equal. lia.
Qed.

Lemma next_prev_day (d : Date) : calendar_date d -> next_day (prev_day d) = d.
Proof.
  destruct d as [y m dd]. unfold calendar_date, next_day, prev_day. cbn [d_year d_month d_day].
  intros [Hm Hd].
  destruct (1 <? dd) eqn:E; cbn [d_year d_month d_day].
  - apply Z.ltb_lt in E.
    destruct (dd - 1 <? days_in_month y m) eqn:E1; [|apply Z.ltb_ge in E1; lia].
    f_equal. lia.
  - apply Z.ltb_ge in E. assert (dd = 1) by lia. subst dd.
    destruct (1 <? m) eqn:E2; cbn [d_year d_month d_day].
    + apply Z.ltb_lt in E2. rewrite Z.ltb_irrefl.
      destruct (m - 1 <? 12) eqn:E3; [|apply Z.ltb_ge in E3; lia].
      f_equal. lia.
    + apply Z.ltb_ge in E2. assert (m = 1) by lia. subst m.
      change (31 <? days_in_month (y - 1) 12) with false. cbn [Z.ltb Z.compare Pos.compare].
      f_equal. lia.
Qed.

Lemma is_leap_spec (y : Z) :
  (y - 1) / 4 - (y - 1) / 100 + (y - 1) / 400 + (if is_leap y then 1 else 0)
  = y / 4 - y / 100 + y / 400.
Proof.
  unfold is_leap.
  assert (H4 : y / 4 = (y - 1) / 4 + (if y mod 4 =? 0 then 1 else 0)).
  { destruct (Z.eqb_spec (y mod 4) 0); Z.div_mod_to_equations; lia. }
  assert (H100 : y / 100 = (y - 1) / 100 + (if y mod 100 =? 0 then 1 else 0)).
  { destruct (Z.eqb_spec (y mod 100) 0); Z.div_mod_to_equations; lia. }
  assert (H400 : y / 400 = (y - 1) / 400 + (if y mod 400 =? 0 then 1 else 0)).
  { destruct (Z.eqb_spec (y mod 400) 0); Z.div_mod_to_equations; lia. }
  assert (A : y mod 100 = 0 -> y mod 4 = 0).
  { intros E. rewrite (Z.div_mod y 100) by lia. rewrite E, Z.add_0_r.
    replace (100 * (y / 100)) with ((25 * (y / 100)) * 4) by lia.
    apply Z.mod_mul. lia. }
  assert (B : y mod 400 = 0 -> y mod 100 = 0).
  { intros E. rewrite (Z.div_mod y 400) by lia. rewrite E, Z.add_0_r.
    replace (400 * (y / 400)) with ((4 * (y / 400)) * 100) by lia.
    apply Z.mod_mul. lia. }
  rewrite H4, H100, H400.
  destruct (Z.eqb_spec (y mod 4) 0), (Z.eqb_spec (y mod 100) 0),
    (Z.eqb_spec (y mod 400) 0); cbn [andb orb negb]; try lia; tauto.
Qed.

Lemma days_before_year_succ (y : Z) :
  days_before_year (y + 1)
  = days_before_year y + 365 + (if is_leap y then 1 else 0).
Proof.
  unfold days_before_year. cbv zeta. replace (y + 1 - 1) with y by lia.
  pose proof (is_leap_spec y). lia.
Qed.

Lemma days_before_year_mono (a : Z) (n : nat) :
  days_before_year a + 365 * Z.of_nat n <= days_before_year (a + Z.of_nat n).
Proof.
  induction n as [|n IH].
  - change (Z.of_nat 0) with 0. rewrite Z.mul_0_r, !Z.add_0_r. lia.
  - replace (a + Z.of_nat (S n)) with (a + Z.of_nat n + 1) by lia.
    rewrite days_before_year_succ. destruct (is_leap (a + Z.of_nat n)); lia.
Qed.

Lemma days_before_year_le (a b : Z) :
  a <= b -> days_before_year a <= days_before_year b.
Proof.
  intros H. pose proof (days_before_year_mono a (Z.to_nat (b - a))) as M.
  replace (a + Z.of_nat (Z.to_nat (b - a))) with b in M by lia. lia.
Qed.

Lemma toordinal_range (d : Date) :
  calendar_date d ->
  days_before_year (d_year d) < toordinal d <= days_before_year (d_year d + 1).
Proof.
  destruct d as [y m dd]. unfold calendar_date, toordinal. cbn [d_year d_month d_day].
  intros [Hm Hd]. rewrite days_before_year_succ.
  unfold days_before_month, days_in_month in *.
  by_month Hm; table_index; cbn -[is_leap days_before_year] in Hd |- *;
    destruct (is_leap y); cbn -[days_before_year] in Hd |- *; lia.
Qed.

Lemma toordinal_next_day (d : Date) :
  calendar_date d -> toordinal (next_day d) = toordinal d + 1.
Proof.
  destruct d as [y m dd]. unfold calendar_date, toordinal, next_day. cbn [d_year d_month d_day].
  intros [Hm Hd].
  destruct (dd <? days_in_month y m) eqn:E; cbn [d_year d_month d_day]; [lia|].
  apply Z.ltb_ge in E.
  destruct (m <? 12) eqn:E2; cbn [d_year d_month d_day].
  - apply Z.ltb_lt in E2.
    unfold days_before_month, days_in_month in *.
    by_month Hm; try lia; table_index; cbn -[is_leap days_before_year] in Hd, E |- *;
      destruct (is_leap y); cbn -[days_before_year] in Hd, E |- *; lia.
  - apply Z.ltb_ge in E2. assert (m = 12) by lia. subst m.
    rewrite days_before_year_succ.
    unfold days_before_month, days_in_month in *.
    table_index. cbn -[is_leap days_before_year] in Hd, E |- *.
    destruct (is_leap y), (is_leap (y + 1)); cbn -[days_before_year]; lia.
Qed.

Lemma toordinal_prev_day (d : Date) :
  calendar_date d -> toordinal (prev_day d) = toordinal d - 1.
Proof.
  intros H. pose proof (toordinal_next_day (prev_day d) (wf_prev_day d H)) as E.
  rewrite (next_prev_day d H) in E. lia.
Qed.

Lemma iter_next_day (n : nat) (d : Date) :
  calendar_date d ->
  calendar_date (Nat.iter n next_day d)
  /\ toordinal (Nat.iter n next_day d) = toordinal d + Z.of_nat n
  /\ Nat.iter n prev_day (Nat.iter n next_day d) = d.
Proof.
  intros H. induction n as [|n (IH1 & IH2 & IH3)].
  - cbn. split; [exact H|]. split; [lia | reflexivity].
  - change (Nat.iter (S n) next_day d) with (next_day (Nat.iter n next_day d)).
    split; [apply wf_next_day, IH1|]. split.
    + rewrite toordinal_next_day by exact IH1. lia.
    + rewrite Nat.iter_succ_r, prev_next_day by exact IH1. exact IH3.
Qed.

Lemma iter_prev_day (n : nat) (d : Date) :
  calendar_date d ->
  calendar_date (Nat.iter n prev_day d)
  /\ toordinal (Nat.iter n prev_day d) = toordinal d - Z.of_nat n
  /\ Nat.iter n next_day (Nat.iter n prev_day d) = d.
Proof.
  intros H. induction n as [|n (IH1 & IH2 & IH3)].
  - cbn. split; [exact H|]. split; [lia | reflexivity].
  - change (Nat.iter (S n) prev_day d) with (prev_day (Nat.iter n prev_day d)).
    split; [apply wf_prev_day, IH1|]. split.
    + rewrite toordinal_prev_day by exact IH1. lia.
    + rewrite Nat.iter_succ_r, next_prev_day by exact IH1. exact IH3.
Qed.

Lemma shift_days_spec (k : Z) (d : Date) :
  calendar_date d ->
  calendar_date (shift_days k d) /\ toordinal (shift_days k d) = toordinal d + k.
Proof.
  intros H. unfold shift_days. destruct (0 <=? k) eqn:E.
  - apply Z.leb_le in E. destruct (iter_next_day (Z.to_nat k) d H) as (A & B & _).
    split; [exact A|]. rewrite B. lia.
  - apply Z.leb_gt in E. destruct (iter_prev_day (Z.to_nat (- k)) d H) as (A & B & _).
    split; [exact A|]. rewrite B. lia.
Qed.

Lemma year_of_ordinal (d : Date) (lo hi : Z) :
  calendar_date d ->
  days_before_year lo < toordinal d <= days_before_year (hi + 1) ->
  lo <= d_year d <= hi.
Proof.
  intros H [Hlo Hhi]. pose proof (toordinal_range d H) as [R1 R2].
  split.
  - destruct (Z_lt_le_dec (d_year d) lo) as [L|L]; [|exact L].
    pose proof (days_before_year_le (d_year d + 1) lo ltac:(lia)). lia.
  - destruct (Z_lt_le_dec hi (d_year d)) as [L|L]; [|exact L].
    pose proof (days_before_year_le (hi + 1) (d_year d) ltac:(lia)). lia.
Qed.

(** [date + timedelta] succeeds exactly as the library says: when the
    ordinal of the result is between 1 and that of 9999-12-31. *)
Lemma add_days_ok (k : Z) (d : Date) :
  calendar_date d -> 1 <= toordinal d + k <= 3652059 ->
  add_days k d = Some (shift_days k d)
  /\ valid_date (shift_days k d)
  /\ toordinal (shift_days k d) = toordinal d + k.
Proof.
  intros H R. destruct (shift_days_spec k d H) as [W O].
  assert (Y : 1 <= d_year (shift_days k d) <= 9999).
  { apply year_of_ordinal; [exact W|]. rewrite O.
    change (days_before_year 1) with 0.
    change (days_before_year (9999 + 1)) with 3652059. lia. }
  split; [|split; [apply valid_date_iff; split; assumption | exact O]].
  unfold add_days. cbv zeta.
  destruct (Z.leb_spec 1 (d_year (shift_days k d))); [|lia].
  destruct (Z.leb_spec (d_year (shift_days k d)) 9999); [|lia].
  reflexivity.
Qed.

Lemma toordinal_inner (d : Date) :
  calendar_date d -> 2 <= d_year d <= 9998 -> 365 < toordinal d <= 3651694.
Proof.
  intros H Y. pose proof (toordinal_range d H) as [R1 R2].
  pose proof (days_before_year_le 2 (d_year d) ltac:(lia)) as A.
  pose proof (days_before_year_le (d_year d + 1) 9999 ltac:(lia)) as B.
  change (days_before_year 2) with 365 in A.
  change (days_before_year 9999) with 3651694 in B. lia.
Qed.

Lemma mk_date_ok (y m d : Z) :
  1 <= y <= 9999 -> 1 <= m <= 12 -> 1 <= d <= days_in_month y m ->
  mk_date y m d = Some (mkDate y m d).
Proof.
  intros Hy Hm Hd. unfold mk_date.
  replace (check_date_fields y m d) with true; [reflexivity|].
  symmetry. unfold check_date_fields. rewrite !andb_true_iff, !Z.leb_le. lia.
Qed.

Lemma valid_inner (d : Date) (lo hi : Z) :
  calendar_date d -> 1 <= lo -> hi <= 9999 ->
  days_before_year lo < toordinal d <= days_before_year (hi + 1) ->
  valid_date d.
Proof.
  intros W L H R. apply valid_date_iff. split; [|exact W].
  pose proof (year_of_ordinal d lo hi W R). lia.
Qed.

Lemma week_tail (cs : Date) (w : World) :
  calendar_date cs -> 359 < toordinal cs <= 3651694 ->
  exists ce ps pe,
    (curr_end <- of_date (add_days 6 cs) ;;
     prev_end <- of_date (add_days (-1) cs) ;;
     prev_start <- of_date (add_days (-6) prev_end) ;;
     ret (cs, curr_end, prev_start, prev_end)) w
    = (Ok (cs, ce, ps, pe), w)
    /\ Nat.iter 6 next_day cs = ce
    /\ next_day pe = cs
    /\ Nat.iter 6 next_day ps = pe
    /\ valid_date cs /\ valid_date ce /\ valid_date ps /\ valid_date pe.
Proof.
  intros W R.
  destruct (add_days_ok 0 cs W ltac:(lia)) as (_ & V0 & _).
  change (shift_days 0 cs) with cs in V0.
  destruct (add_days_ok 6 cs W ltac:(lia)) as (E1 & V1 & O1).
  destruct (add_days_ok (-1) cs W ltac:(lia)) as (E2 & V2 & O2).
  assert (W2 : calendar_date (shift_days (-1) cs)) by (apply valid_date_iff in V2; tauto).
  destruct (add_days_ok (-6) _ W2 ltac:(lia)) as (E3 & V3 & O3).
  exists (shift_days 6 cs), (shift_days (-6) (shift_days (-1) cs)), (shift_days (-1) cs).
  split.
  { unfold bind, of_date, ret. rewrite E1, E2, E3. reflexivity. }
  split; [reflexivity|].
  split; [exact (next_prev_day cs W)|].
  split; [exact (proj2 (proj2 (iter_prev_day 6 _ W2)))|].
  repeat split; assumption.
Qed.

(** X17: the ranges of a week, [_compute_period_ranges]: for a reference
    date in years 2 to 9998 the call returns and logs nothing; the current
    range is seven consecutive days from its start, the previous range is
    the seven days that end the day before that start; without a view
    start the current range starts on a Monday and today is one of its
    seven days; with a view start it starts on that date, whatever its
    weekday. *)
Theorem period_ranges_week
    (use_view_start : bool) (current_view_start : option Date)
    (today today' : Date) (w : World) :
  let view := if use_view_start then current_view_start else None in
  let ref := reference_date use_view_start current_view_start today in
  valid_date ref -> 2 <= d_year ref <= 9998 ->
  exists cs ce ps pe,
    compute_period_ranges "Week" use_view_start current_view_start today today' w
    = (Ok (cs, ce, ps, pe), w)
    /\ (forall v, view = Some v -> cs = v)
    /\ (view = None ->
        weekday cs = 0
        /\ exists k, (k <= 6)%nat /\ Nat.iter k next_day cs = today)
    /\ Nat.iter 6 next_day cs = ce
    /\ next_day pe = cs
    /\ Nat.iter 6 next_day ps = pe
    /\ valid_date cs /\ valid_date ce /\ valid_date ps /\ valid_date pe.
Proof.
  intros view ref Hv Hy. apply valid_date_iff in Hv as [_ W].
  pose proof (toordinal_inner ref W Hy) as R.
  assert (Hcs : exists cs,
             (match view with
              | Some v => ret v
              | None => of_date (add_days (- weekday (default today view))
                                          (default today view))
              end) w = (Ok cs, w)
             /\ calendar_date cs /\ 359 < toordinal cs <= 3651694
             /\ (forall v, view = Some v -> cs = v)
             /\ (view = None ->
                 weekday cs = 0
                 /\ exists k, (k <= 6)%nat /\ Nat.iter k next_day cs = today)).
  { unfold ref, reference_date in W, R. fold view in W, R.
    destruct view as [v|] eqn:Ev.
    - exists v. cbn in W, R. split; [reflexivity|]. split; [exact W|].
      split; [lia|]. split; [intros ? [= <-]; reflexivity | discriminate].
    - cbn in W, R |- *.
      pose proof (Z.mod_pos_bound (toordinal today + 6) 7 ltac:(lia)) as B.
      fold (weekday today) in B.
      destruct (add_days_ok (- weekday today) today W ltac:(lia)) as (E & V & O).
      exists (shift_days (- weekday today) today).
      split; [unfold of_date; rewrite E; reflexivity|].
      split; [apply valid_date_iff in V; tauto|].
      split; [lia|]. split; [discriminate|]. intros _. split.
      + unfold weekday at 1. rewrite O. unfold weekday.
        Z.div_mod_to_equations. lia.
      + exists (Z.to_nat (weekday today)). split; [lia|].
        unfold shift_days. destruct (0 <=? - weekday today) eqn:E0.
        * apply Z.leb_le in E0. assert (weekday today = 0) as -> by lia.
          reflexivity.
        * replace (- - weekday today) with (weekday today) by lia.
          exact (proj2 (proj2 (iter_prev_day _ today W))). }
  destruct Hcs as (cs & E & Wcs & Rcs & Hview & Hnone).
  destruct (week_tail cs w Wcs Rcs) as (ce & ps & pe & Et & P).
  exists cs, ce, ps, pe. split; [|split; [exact Hview | split; [exact Hnone | exact P]]].
  unfold compute_period_ranges. fold view.
  change (String.eqb "Week" "Day") with false.
  change (String.eqb "Week" "Week") with true. cbv iota.
  unfold try_except. unfold bind at 1. rewrite E.
  rewrite Et. reflexivity.
Qed.

Lemma period_ranges_week_witness :
  exists cs ce ps pe,
    compute_period_ranges "Week" false None demo_today demo_today
      demo_world
    = (Ok (cs, ce, ps, pe), demo_world)
    /\ (forall v, @None Date = Some v -> cs = v)
    /\ (@None Date = None ->
        weekday cs = 0
        /\ exists k, (k <= 6)%nat /\ Nat.iter k next_day cs = demo_today)
    /\ Nat.iter 6 next_day cs = ce
    /\ next_day pe = cs
    /\ Nat.iter 6 next_day ps = pe
    /\ valid_date cs /\ valid_date ce /\ valid_date ps /\ valid_date pe.
Proof.
  apply (period_ranges_week false None demo_today demo_today demo_world).
  - vm_compute. reflexivity.
  - vm_compute. split; discriminate.
Defined.

Lemma next_day_mid (y m dd : Z) :
  dd < days_in_month y m -> next_day (mkDate y m dd) = mkDate y m (dd + 1).
Proof.
  intros H. unfold next_day. cbn [d_year d_month d_day].
  destruct (Z.ltb_spec dd (days_in_month y m)); [reflexivity | lia].
Qed.

Lemma next_day_end (y m : Z) :
  next_day (mkDate y m (days_in_month y m)) = next_month_first y m.
Proof.
  unfold next_day, next_month_first. cbn [d_year d_month d_day].
  rewrite Z.ltb_irrefl. reflexivity.
Qed.

Lemma days_in_month_cases (y m : Z) :
  days_in_month y m = 28 \/ days_in_month y m = 29
  \/ days_in_month y m = 30 \/ days_in_month y m = 31.
Proof.
  unfold days_in_month.
  destruct (m =? 2); [destruct (is_leap y); tauto|].
  destruct ((m =? 4) || (m =? 6) || (m =? 9) || (m =? 11)); tauto.
Qed.

(** Four days after the 28th is a day of the next month. *)
Lemma day28_plus_4 (y m : Z) :
  exists dd,
    shift_days 4 (mkDate y m 28)
    = mkDate (d_year (next_month_first y m)) (d_month (next_month_first y m)) dd
    /\ 1 <= dd <= 4.
Proof.
  change (shift_days 4 (mkDate y m 28))
    with (next_day (next_day (next_day (next_day (mkDate y m 28))))).
  assert (N : forall dd, dd < 28 ->
            next_day (mkDate (d_year (next_month_first y m))
                             (d_month (next_month_first y m)) dd)
            = mkDate (d_year (next_month_first y m))
                     (d_month (next_month_first y m)) (dd + 1)).
  { intros dd H. apply next_day_mid.
    pose proof (days_in_month_bounds (d_year (next_month_first y m))
                  (d_month (next_month_first y m))). lia. }
  assert (F : next_month_first y m
              = mkDate (d_year (next_month_first y m))
                       (d_month (next_month_first y m)) 1).
  { unfold next_month_first. destruct (m <? 12); reflexivity. }
  pose proof (next_day_end y m) as Hend. rewrite F in Hend.
  destruct (days_in_month_cases y m) as [E|[E|[E|E]]]; rewrite E in Hend.
  - rewrite Hend, !N by lia. eexists. split; [reflexivity | lia].
  - rewrite (next_day_mid y m 28) by lia. change (28 + 1) with 29.
    rewrite Hend, !N by lia. eexists. split; [reflexivity | lia].
  - rewrite (next_day_mid y m 28) by lia. change (28 + 1) with 29.
    rewrite (next_day_mid y m 29) by lia. change (29 + 1) with 30.
    rewrite Hend, !N by lia. eexists. split; [reflexivity | lia].
  - rewrite (next_day_mid y m 28) by lia. change (28 + 1) with 29.
    rewrite (next_day_mid y m 29) by lia. change (29 + 1) with 30.
    rewrite (next_day_mid y m 30) by lia. change (30 + 1) with 31.
    rewrite Hend. eexists. split; [reflexivity | lia].
Qed.

Lemma reference_of_view (use_view_start : bool) (current_view_start : option Date)
    (today : Date) :
  let view := if use_view_start then current_view_start else None in
  match view with Some v => v | None => default today view end
  = reference_date use_view_start current_view_start today.
Proof.
  unfold reference_date. destruct use_view_start, current_view_start; reflexivity.
Qed.

Lemma sub_one_day (d : Date) :
  calendar_date d -> 2 <= d_year d <= 9999 ->
  add_days (-1) d = Some (prev_day d) /\ valid_date (prev_day d).
Proof.
  intros W Y.
  pose proof (toordinal_range d W) as [R1 R2].
  pose proof (days_before_year_le 2 (d_year d) ltac:(lia)) as A.
  pose proof (days_before_year_le (d_year d + 1) 10000 ltac:(lia)) as B.
  change (days_before_year 2) with 365 in A.
  change (days_before_year 10000) with 3652059 in B.
  destruct (add_days_ok (-1) d W ltac:(lia)) as (E & V & _).
  split; assumption.
Qed.

(** X18: the ranges of a month, a year and a day, [_compute_period_ranges]:
    for a reference date in years 2 to 9998 the call returns and logs
    nothing.  For "Month" the current range runs from the first to the last
    day of the month of the reference (the step from the 28th by four days
    always lands in the next month), and the previous range is the whole
    month before, ending the day before the current range starts.  For
    "Year" the ranges are January 1 to December 31 of the year and of the
    year before.  For "Day", and for any name that is not one of the
    others, both ends of the current range are the reference and the
    previous range is the day before. *)
Theorem period_ranges_month_year_day
    (use_view_start : bool) (current_view_start : option Date)
    (today today' : Date) (w : World) :
  let ref := reference_date use_view_start current_view_start today in
  let y := d_year ref in
  let m := d_month ref in
  valid_date ref -> 2 <= y <= 9998 ->
  (exists ps pe,
      compute_period_ranges "Month" use_view_start current_view_start today today' w
      = (Ok (mkDate y m 1, mkDate y m (days_in_month y m), ps, pe), w)
      /\ next_day pe = mkDate y m 1
      /\ d_day pe = days_in_month (d_year pe) (d_month pe)
      /\ ps = mkDate (d_year pe) (d_month pe) 1
      /\ valid_date ps /\ valid_date pe)
  /\ compute_period_ranges "Year" use_view_start current_view_start today today' w
     = (Ok (mkDate y 1 1, mkDate y 12 31, mkDate (y - 1) 1 1, mkDate (y - 1) 12 31), w)
  /\ (forall period : string,
        period <> "Week" -> period <> "Month" -> period <> "Year" ->
        compute_period_ranges period use_view_start current_view_start today today' w
        = (Ok (ref, ref, prev_day ref, prev_day ref), w)
        /\ next_day (prev_day ref) = ref
        /\ valid_date (prev_day ref)).
Proof.
  intros ref y m Hv Hy. apply valid_date_iff in Hv as [_ W].
  pose proof W as [Wm Wd]. fold y m in Wm, Wd.
  pose proof (reference_of_view use_view_start current_view_start today) as Hr.
  cbv zeta in Hr. fold ref in Hr.
  pose proof (days_in_month_bounds y m) as Bm.
  split; [|split].
  - (* Month *)
    assert (W1 : calendar_date (mkDate y m 1)) by (unfold calendar_date; cbn; lia).
    destruct (sub_one_day (mkDate y m 1) W1 ltac:(cbn; lia)) as [Epe Vpe].
    pose proof Vpe as Vpe'. apply valid_date_iff in Vpe' as [Ype [Wpm Wpd]].
    exists (mkDate (d_year (prev_day (mkDate y m 1))) (d_month (prev_day (mkDate y m 1))) 1),
      (prev_day (mkDate y m 1)).
    assert (E1 : replace_day ref 1 = Some (mkDate y m 1)).
    { apply mk_date_ok; lia. }
    assert (E2 : replace_day (mkDate y m 1) 28 = Some (mkDate y m 28)).
    { apply mk_date_ok; lia. }
    assert (W28 : calendar_date (mkDate y m 28)) by (unfold calendar_date; cbn; lia).
    pose proof (toordinal_inner (mkDate y m 28) W28 ltac:(cbn; lia)) as R28.
    destruct (add_days_ok 4 (mkDate y m 28) W28 ltac:(lia)) as (E3 & V3 & _).
    destruct (day28_plus_4 y m) as (dd & E32 & Bdd).
    assert (Wlast : calendar_date (mkDate y m (days_in_month y m))) by (unfold calendar_date; cbn; lia).
    assert (F : next_month_first y m
                = mkDate (d_year (next_month_first y m))
                         (d_month (next_month_first y m)) 1).
    { unfold next_month_first. destruct (m <? 12); reflexivity. }
    assert (Wn : calendar_date (next_month_first y m)).
    { rewrite <- next_day_end. apply wf_next_day, Wlast. }
    assert (Yn : 2 <= d_year (next_month_first y m) <= 9999).
    { unfold next_month_first. destruct (m <? 12); cbn; lia. }
    assert (E4 : replace_day (shift_days 4 (mkDate y m 28)) 1
                 = Some (next_month_first y m)).
    { rewrite E32. unfold replace_day. cbn [d_year d_month d_day].
      rewrite F at 3. apply mk_date_ok; [lia | apply Wn |].
      pose proof (days_in_month_bounds (d_year (next_month_first y m))
                    (d_month (next_month_first y m))). lia. }
    destruct (sub_one_day (next_month_first y m) Wn Yn) as [E5 _].
    rewrite <- next_day_end in E5 at 2. rewrite (prev_next_day _ Wlast) in E5.
    assert (E7 : replace_day (prev_day (mkDate y m 1)) 1
                 = Some (mkDate (d_year (prev_day (mkDate y m 1)))
                                (d_month (prev_day (mkDate y m 1))) 1)).
    { apply mk_date_ok; [lia | lia |].
      pose proof (days_in_month_bounds (d_year (prev_day (mkDate y m 1)))
                    (d_month (prev_day (mkDate y m 1)))). lia. }
    split.
    { unfold compute_period_ranges.
      change (String.eqb "Month" "Day") with false.
      change (String.eqb "Month" "Week") with false.
      change (String.eqb "Month" "Month") with true. cbv iota zeta.
      rewrite Hr. unfold try_except, bind, of_date, ret.
      rewrite E1, E2, E3, E4, E5, Epe, E7. reflexivity. }
    split; [exact (next_prev_day _ W1)|].
    split.
    { unfold prev_day. cbn [d_year d_month d_day]. rewrite Z.ltb_irrefl.
      destruct (1 <? m); reflexivity. }
    split; [reflexivity|]. split; [|exact Vpe].
    apply valid_date_iff. split; [exact Ype|]. unfold calendar_date. cbn [d_year d_month d_day].
    pose proof (days_in_month_bounds (d_year (prev_day (mkDate y m 1)))
                  (d_month (prev_day (mkDate y m 1)))). lia.
  - (* Year *)
    assert (E1 : replace_month_day ref 1 1 = Some (mkDate y 1 1)).
    { apply mk_date_ok; [lia | lia | pose proof (days_in_month_bounds y 1); lia]. }
    assert (E2 : replace_month_day (mkDate y 1 1) 12 31 = Some (mkDate y 12 31)).
    { apply mk_date_ok; [cbn; lia | lia | split; [lia | reflexivity]]. }
    assert (W1 : calendar_date (mkDate y 1 1)).
    { unfold calendar_date. cbn [d_year d_month d_day]. pose proof (days_in_month_bounds y 1). lia. }
    destruct (sub_one_day (mkDate y 1 1) W1 ltac:(cbn; lia)) as [E3 _].
    change (prev_day (mkDate y 1 1)) with (mkDate (y - 1) 12 31) in E3.
    assert (E4 : replace_month_day (mkDate (y - 1) 12 31) 1 1 = Some (mkDate (y - 1) 1 1)).
    { apply mk_date_ok; [cbn; lia | lia |].
      pose proof (days_in_month_bounds (y - 1) 1). cbn [d_year]. lia. }
    unfold compute_period_ranges.
    change (String.eqb "Year" "Day") with false.
    change (String.eqb "Year" "Week") with false.
    change (String.eqb "Year" "Month") with false.
    change (String.eqb "Year" "Year") with true. cbv iota zeta.
    rewrite Hr. unfold try_except, bind, of_date, ret.
    rewrite E1, E2, E3, E4. reflexivity.
  - (* Day and the default *)
    intros period N1 N2 N3.
    destruct (sub_one_day ref W ltac:(fold y; lia)) as [E V].
    split; [|split; [exact (next_prev_day ref W) | exact V]].
    unfold compute_period_ranges.
    rewrite (proj2 (String.eqb_neq period "Week") N1),
      (proj2 (String.eqb_neq period "Month") N2),
      (proj2 (String.eqb_neq period "Year") N3).
    fold (reference_date use_view_start current_view_start today). fold ref.
    unfold try_except, bind, of_date, ret. rewrite E.
    destruct (String.eqb period "Day"); reflexivity.
Qed.

Lemma period_ranges_month_year_day_witness :
  (exists ps pe,
      compute_period_ranges "Month" false None demo_today demo_today demo_world
      = (Ok (mkDate 2024 3 1, mkDate 2024 3 (days_in_month 2024 3), ps, pe), demo_world)
      /\ next_day pe = mkDate 2024 3 1
      /\ d_day pe = days_in_month (d_year pe) (d_month pe)
      /\ ps = mkDate (d_year pe) (d_month pe) 1
      /\ valid_date ps /\ valid_date pe)
  /\ compute_period_ranges "Year" false None demo_today demo_today demo_world
     = (Ok (mkDate 2024 1 1, mkDate 2024 12 31,
            mkDate (2024 - 1) 1 1, mkDate (2024 - 1) 12 31), demo_world)
  /\ (forall period : string,
        period <> "Week" -> period <> "Month" -> period <> "Year" ->
        compute_period_ranges period false None demo_today demo_today demo_world
        = (Ok (demo_today, demo_today, prev_day demo_today, prev_day demo_today),
           demo_world)
        /\ next_day (prev_day demo_today) = demo_today
        /\ valid_date (prev_day demo_today)).
Proof.
  apply (period_ranges_month_year_day false None demo_today demo_today demo_world).
  - vm_compute. reflexivity.
  - vm_compute. split; discriminate.
Defined.

(** ** Layout of the video row *)

(** X19: [_apply_video_height_constraints] outside a nested call: the
    height returned is at least 120 and never above the larger of 120 and
    the requested height, and the call leaves the re-entrancy flag down;
    once the main frame exists the dashboard gets at least 260 pixels and
    the toolbar, the video row and the dashboard together fit in the window
    height the layout was computed for, which is the height of the window
    itself when that is enough for the toolbar, the requested video height
    and the smallest dashboard.  A nested call changes nothing. *)
Theorem video_height_constraints
    (requested_height window_height main_height : Z) (has_main : bool)
    (toolbar : option Z) (l : Layout) :
  let r := apply_video_height_constraints requested_height has_main
             window_height main_height toolbar l in
  let tb := default 0 toolbar in
  (layout_resize_active l = true -> snd r = l)
  /\ (layout_resize_active l = false ->
      120 <= fst r <= Z.max 120 requested_height
      /\ layout_resize_active (snd r) = false
      /\ (has_main = false -> snd r = l)
      /\ (has_main = true ->
          exists dashboard window,
            snd r = mkLayout false (Some (fst r)) (Some dashboard)
            /\ video_layout requested_height window_height main_height tb
               = (fst r, dashboard, window)
            /\ DASHBOARD_MIN_HEIGHT <= dashboard
            /\ tb + fst r + dashboard <= window
            /\ tb + Z.max 120 requested_height + DASHBOARD_MIN_HEIGHT <= window
            /\ (1 < window_height ->
                tb + Z.max 120 requested_height + DASHBOARD_MIN_HEIGHT <= window_height ->
                window = window_height))).
Proof.
  cbv zeta. unfold apply_video_height_constraints.
  destruct (layout_resize_active l) eqn:Ea.
  - split; [reflexivity | discriminate].
  - split; [discriminate|]. intros _.
    destruct has_main; cbn [negb].
    + set (tb := default 0 toolbar).
      unfold video_layout, DASHBOARD_MIN_HEIGHT. cbv zeta. cbn [fst snd].
      set (rq := Z.max 120 requested_height).
      set (w1 := if window_height <=? 1
                 then Z.max main_height (rq + 260 + tb + 120) else window_height).
      set (w2 := if w1 <? tb + rq + 260 then tb + rq + 260 else w1).
      set (p3 := py_int (inject_Z w2 * DASHBOARD_WINDOW_RATIO)).
      set (p66 := py_int (inject_Z w2 * TOP_MAX_HEIGHT_RATIO)).
      assert (Hw2 : tb + rq + 260 <= w2 /\ w1 <= w2).
      { unfold w2. destruct (Z.ltb_spec w1 (tb + rq + 260)); lia. }
      assert (Hrq : 120 <= rq) by (unfold rq; lia).
      split; [|split; [reflexivity|split; [discriminate|]]].
      * destruct (p66 <=? 0); lia.
      * intros _. eexists. eexists. split; [reflexivity|]. split; [reflexivity|].
        split; [lia|]. split; [destruct (p66 <=? 0); lia|]. split; [lia|].
        intros H1 H2. unfold w2, w1.
        destruct (Z.leb_spec window_height 1); [lia|].
        destruct (Z.ltb_spec window_height (tb + rq + 260)); [lia | reflexivity].
    + cbn [fst snd]. split; [lia|]. split; [exact Ea|].
      split; [reflexivity | discriminate].
Qed.

Lemma video_height_constraints_witness :
  120 <= fst (apply_video_height_constraints 480 true 900 880 (Some 40) init_layout)
      <= Z.max 120 480.
Proof.
  exact (proj1 (proj2 (video_height_constraints 480 900 880 true (Some 40) init_layout)
                  eq_refl)).
Defined.

(** ** Hourly visible seconds *)

Ltac hour_leaf :=
  let s := fresh "s" in let st := fresh "st" in let ef := fresh "ef" in
  let cm := fresh "cm" in let wk := fresh "wk" in let fl := fresh "fl" in
  let Hs := fresh "Hs" in let Hf := fresh "Hf" in
  let H1 := fresh "H1" in let H2 := fresh "H2" in
  intros; unfold safe;
  intros [s st ef] ([cm wk fl] & Hs & Hf & H1 & H2);
  simpl in Hs, Hf; subst st fl;
  unfold wp; cbn -[Z.add Z.max Qplus Qmult Qdiv Qminus];
  eexists; split; [reflexivity|]; split; [reflexivity|];
  try unfold record_sample;
  unfold hour_tallied, hourly_visible in *;
  cbn -[Z.add Z.max Qplus Qmult Qdiv Qminus] in H1, H2 |- *;
  break_matches;
  cbn -[Z.add Z.max Qplus Qmult Qdiv Qminus];
  (split; [exact H1 | exact H2]).

Ltac hour := safe_split; try hour_leaf.

Lemma emit_alert_hour n p ts msg :
  safe (healthy_with (hour_tallied n p)) (emit_alert ts msg).
Proof. unfold emit_alert. unfold_statements. hour. Qed.

(** The flush moves the buffer into the row of the hour. *)
Lemma flush_hourly_hour n p hk ac :
  safe (healthy_with (hour_tallied n p)) (flush_hourly_metrics hk ac).
Proof.
  intros [s st ef] ([cm wk fl] & Hs & Hf & H1 & H2).
  simpl in Hs, Hf. subst st fl.
  unfold hour_tallied, hourly_visible in *. cbn -[Z.add] in H1, H2.
  unfold wp, flush_hourly_metrics, try_except, bind, has_cursor, gets.
  cbn [app store negb].
  destruct hk as [hk|]; [|cbn; close_healthy; cbn; split; assumption].
  unfold_statements. unfold execute, commit, modify_agg, modify, when, ret, bind.
  cbn [store fault fst snd working committed].
  cbn -[Z.add Qplus Z.gtb column_total].
  destruct (pending_hour_visible_seconds (agg s) >? 0) eqn:E1;
    destruct (pending_hour_slouch_seconds (agg s) >? 0) eqn:E2;
    destruct (pending_hour_distance_count (agg s) >? 0) eqn:E3;
    cbn -[Z.add Qplus Z.gtb column_total];
    destruct ac; cbn -[Z.add Qplus Z.gtb column_total];
    close_healthy; cbn -[Z.add Qplus Z.gtb column_total];
    rewrite ?column_total_insert;
    (split; [lia | exact H2]).
Qed.

Lemma hour_rollover_hour n p f :
  safe (healthy_with (hour_tallied n p)) (hour_rollover f).
Proof.
  unfold hour_rollover. hour; try (intros; apply flush_hourly_hour).
Qed.

Lemma twenty_reminder_hour n p f :
  safe (healthy_with (hour_tallied n p)) (twenty_reminder f).
Proof. unfold twenty_reminder. unfold_statements. hour. Qed.

Lemma track_presence_hour n p f :
  safe (healthy_with (hour_tallied n p)) (track_presence f).
Proof. unfold track_presence. hour. Qed.

Lemma account_slouch_hour n p f :
  safe (healthy_with (hour_tallied n p)) (account_slouch f).
Proof. unfold account_slouch. hour. Qed.

Lemma partial_frame_hour n p f :
  safe (healthy_with (hour_tallied n p)) (partial_frame f).
Proof.
  unfold partial_frame. unfold_statements. hour; try (intros; apply emit_alert_hour).
Qed.

Lemma distance_stage_hour n p f :
  safe (healthy_with (hour_tallied n p)) (distance_stage f).
Proof.
  unfold distance_stage. unfold_statements. hour; try (intros; apply emit_alert_hour).
Qed.

Lemma update_posture_state_hour n p t ts fl :
  safe (healthy_with (hour_tallied n p)) (update_posture_state t ts fl).
Proof.
  unfold update_posture_state. unfold_statements. hour; try (intros; apply emit_alert_hour).
Qed.

Lemma posture_stage_hour n p f :
  safe (healthy_with (hour_tallied n p)) (posture_stage f).
Proof.
  unfold posture_stage. safe_split; cbv zeta; hour;
    try (intros; apply update_posture_state_hour).
Qed.

Lemma save_screen_time_hour n p mirror today tv :
  safe (healthy_with (hour_tallied n p)) (save_screen_time mirror today tv).
Proof. unfold save_screen_time. unfold_statements. hour. Qed.

Lemma save_posture_time_hour n p mirror today cs :
  safe (healthy_with (hour_tallied n p)) (save_posture_time mirror today cs).
Proof. unfold save_posture_time. unfold_statements. hour. Qed.

Lemma save_distance_log_hour n p mirror today :
  safe (healthy_with (hour_tallied n p)) (save_distance_log mirror today).
Proof. unfold save_distance_log. unfold_statements. hour. Qed.

Lemma periodic_save_hour n p now today hour tv cs :
  safe (healthy_with (hour_tallied n p)) (periodic_save now today hour tv cs).
Proof.
  unfold periodic_save. unfold log_exc, emit.
  hour; try (intros; first [ apply save_screen_time_hour | apply save_posture_time_hour
                           | apply save_distance_log_hour | apply flush_hourly_hour ]).
Qed.

(** The delta since the previous iteration goes to the buffer. *)
Lemma account_visible_hour n p f w :
  healthy_with (hour_tallied n p) w ->
  wp (account_visible f)
     (fun tv => healthy_with (hour_tallied (n + Z.max 0 (tv - p)) tv))
     (fun _ => False) w.
Proof.
  revert w. intros [s st ef] ([cm wk fl] & Hs & Hf & H1 & H2).
  simpl in Hs, Hf. subst st fl.
  unfold hour_tallied, hourly_visible in *. cbn -[Z.add] in H1, H2.
  unfold wp, account_visible, bind, gets, modify_agg, modify, ret.
  cbn -[Z.add Z.max]. close_healthy. rewrite H2.
  destruct (Z.max 0 (total_visible_at (now f) (agg s) - p) >? 0) eqn:E;
    cbn -[Z.add Z.max].
  - split; [lia | reflexivity].
  - apply max0_quiet in E. split; [lia | reflexivity].
Qed.

Lemma stats_iteration_hour interval n p f w :
  healthy_with (hour_tallied n p) w ->
  wp (stats_iteration interval f)
     (fun _ w' => exists tv, healthy_with (hour_tallied (n + Z.max 0 (tv - p)) tv) w')
     (fun _ => False) w.
Proof.
  intros Hw. unfold stats_iteration. apply wp_try.
  eapply wp_mono with (E := fun _ => False); [| intros a w' H; exact H | intros ? []].
  eapply wp_seq; [apply sf_wp; [apply hour_rollover_hour | exact Hw] | cbn beta | exc_post].
  intros _ w1 H1.
  eapply wp_seq; [apply sf_wp; [apply twenty_reminder_hour | exact H1] | cbn beta | exc_post].
  intros _ w2 H2.
  eapply wp_seq; [apply sf_wp; [apply track_presence_hour | exact H2] | cbn beta | exc_post].
  intros _ w3 H3.
  eapply wp_seq; [exact (account_visible_hour _ _ f _ H3) | cbn beta | exc_post].
  intros tv w4 H4.
  eapply wp_seq; [apply sf_wp; [apply partial_frame_hour | exact H4] | cbn beta | exc_post].
  intros _ w5 H5.
  eapply wp_seq; [apply sf_wp; [apply account_slouch_hour | exact H5] | cbn beta | exc_post].
  intros cs w6 H6.
  eapply wp_seq; [apply sf_wp; [apply posture_stage_hour | exact H6] | cbn beta | exc_post].
  intros _ w7 H7.
  eapply wp_seq; [apply sf_wp; [apply distance_stage_hour | exact H7] | cbn beta | exc_post].
  intros _ w8 H8.
  eapply wp_seq; [apply sf_wp; [apply sf_gets | exact H8] | cbn beta | exc_post].
  intros a w9 H9.
  eapply wp_seq; [apply sf_wp; [apply sf_has_cursor | exact H9] | cbn beta | exc_post].
  intros cur w10 H10.
  destruct (Qgtb (now f - last_save_time a) interval && cur); cbn [when].
  - eapply wp_mono with (E := fun _ => False);
      [apply sf_wp; [apply periodic_save_hour | exact H10] | | intros ? []].
    cbn beta. intros _ w11 H11. exists tv. exact H11.
  - exists tv. exact H10.
Qed.

(** X20: the hourly visible seconds on a working store: over one loop
    iteration, with the hour rollover at its top and the save block at its
    end, what the [screen_hourly] table and the hourly buffer hold
    together grows by exactly the visible seconds gained since the
    previous iteration (the flushes move seconds from the buffer to a row,
    they neither lose nor repeat any), and the store stays usable; so over
    any number of iterations the amount never goes down. *)
Theorem hourly_visible_conserved (interval : Q) (w : World) (d : Db) :
  store w = Some d -> fault d = None ->
  (forall f : Frame,
      let w' := snd (stats_iteration interval f w) in
      exists d',
        store w' = Some d' /\ fault d' = None
        /\ hourly_visible d' (app w')
           = hourly_visible d (app w)
             + Z.max 0 (_prev_total_visible (agg (app w'))
                        - _prev_total_visible (agg (app w))))
  /\ (forall fs : list Frame,
        let w' := run interval (map EvFrame fs) w in
        exists d',
          store w' = Some d' /\ fault d' = None
          /\ hourly_visible d (app w) <= hourly_visible d' (app w')).
Proof.
  intros Hs Hf.
  assert (One : forall (f : Frame) (w0 : World) (d0 : Db),
             store w0 = Some d0 -> fault d0 = None ->
             exists d',
               store (snd (stats_iteration interval f w0)) = Some d' /\ fault d' = None
               /\ hourly_visible d' (app (snd (stats_iteration interval f w0)))
                  = hourly_visible d0 (app w0)
                    + Z.max 0 (_prev_total_visible
                                 (agg (app (snd (stats_iteration interval f w0))))
                               - _prev_total_visible (agg (app w0)))).
  { intros f w0 d0 Hs0 Hf0.
    assert (H0 : healthy_with (hour_tallied (hourly_visible d0 (app w0))
                                 (_prev_total_visible (agg (app w0)))) w0).
    { exists d0. split; [exact Hs0|]. split; [exact Hf0|]. split; reflexivity. }
    assert (H : (fun w' => exists tv,
                    healthy_with
                      (hour_tallied
                         (hourly_visible d0 (app w0)
                          + Z.max 0 (tv - _prev_total_visible (agg (app w0)))) tv) w')
                  (snd (stats_iteration interval f w0))).
    { apply wp_snd.
      eapply wp_mono; [exact (stats_iteration_hour interval _ _ f w0 H0)
                      | intros ? ? H; exact H | intros ? []]. }
    cbn beta in H. destruct H as (tv & d' & Hs' & Hf' & H1 & H2).
    exists d'. split; [exact Hs'|]. split; [exact Hf'|]. rewrite H1, H2. reflexivity. }
  split.
  - intros f. exact (One f w d Hs Hf).
  - intros fs. revert w d Hs Hf.
    induction fs as [|f fs IH]; intros w d Hs Hf; cbn [map run].
    + exists d. split; [exact Hs|]. split; [exact Hf|]. lia.
    + destruct (One f w d Hs Hf) as (d1 & Hs1 & Hf1 & E1).
      destruct (IH _ d1 Hs1 Hf1) as (d' & Hs' & Hf' & L).
      exists d'. split; [exact Hs'|]. split; [exact Hf'|].
      cbn [step] in L |- *. lia.
Qed.

Lemma hourly_visible_conserved_witness :
  exists d',
    store (run SAVE_INTERVAL_SEC
             (map EvFrame [demo_frame 100 true; demo_frame 1090 true]) demo_world)
    = Some d'
    /\ fault d' = None
    /\ hourly_visible demo_db (app demo_world)
       <= hourly_visible d'
            (app (run SAVE_INTERVAL_SEC
                    (map EvFrame [demo_frame 100 true; demo_frame 1090 true])
                    demo_world)).
Proof.
  exact (proj2 (hourly_visible_conserved SAVE_INTERVAL_SEC demo_world demo_db
                  eq_refl eq_refl)
           [demo_frame 100 true; demo_frame 1090 true]).
Defined.
